(** * Minecraft health-check servers: a shallow embedding

    The repository holds three scripts that answer "is the Minecraft
    server up?" over HTTP:

    - [minecraft-health-server.py]: runs [pgrep -f] on every request
      (module [Direct]);
    - [minecraft-health-server-docker.py]: runs [docker ps] on every
      request (module [Docker]);
    - [minecraft-health-server-polling.py]: a background thread runs
      [pgrep -f] periodically and stores the answer in a dictionary
      guarded by a lock; requests read the dictionary (module [Polling]).

    Module [Py] holds the fragment of Python the scripts rely on:
    strings, exceptions, dictionaries, [str()] of a dictionary, the
    interface to the host (child processes, the clock, the listening
    socket, the [json] module), and what [send_response] of
    [http.server] does. Module [Json] recognises JSON texts, and module
    [Hosts] has two concrete hosts to run the scripts on. *)

From Stdlib Require Import String Ascii List ZArith Lia Bool DecimalString.
Import ListNotations.
Open Scope string_scope.

Module Py.

(** ** Exceptions *)

(** The exception classes the scripts name in an [except] clause or that
    the operations they call raise. [KeyboardInterrupt] and [SystemExit]
    derive from [BaseException] only: [except Exception] lets them
    through. *)
Inductive exn_class : Type :=
| TimeoutExpired | FileNotFoundError | PermissionError | OSError
| ValueError | OverflowError | JSONDecodeError | KeyError | IndexError
| TypeError | AttributeError | OtherException
| KeyboardInterrupt | SystemExit (code : Z).

Definition exn_class_eqb (a b : exn_class) : bool :=
  match a, b with
  | TimeoutExpired, TimeoutExpired | FileNotFoundError, FileNotFoundError
  | PermissionError, PermissionError | OSError, OSError
  | ValueError, ValueError | OverflowError, OverflowError
  | JSONDecodeError, JSONDecodeError
  | KeyError, KeyError | IndexError, IndexError | TypeError, TypeError
  | AttributeError, AttributeError | OtherException, OtherException
  | KeyboardInterrupt, KeyboardInterrupt => true
  | SystemExit c, SystemExit c' => (c =? c')%Z
  | _, _ => false
  end.

(** [isinstance(e, Exception)]. *)
Definition is_Exception (c : exn_class) : bool :=
  match c with
  | KeyboardInterrupt | SystemExit _ => false
  | _ => true
  end.

(** [isinstance(e, OSError)]. *)
Definition is_OSError (c : exn_class) : bool :=
  match c with
  | FileNotFoundError | PermissionError | OSError => true
  | _ => false
  end.

(** An exception: its class and the text [str(e)]. *)
Record exn : Type := Exn { exn_cls : exn_class; exn_str : string }.

Inductive result (A : Type) : Type :=
| Ok (a : A)
| Raise (e : exn).
Arguments Ok {A} a.
Arguments Raise {A} e.

(** ** Strings

    A [str] is a [string] whose characters are code points below 256. *)

(** [str.isspace] on one character: the code points below 256 that
    Python counts as white space. *)
Definition isspace (c : ascii) : bool :=
  let n := nat_of_ascii c in
  (((9 <=? n) && (n <=? 13)) || ((28 <=? n) && (n <=? 32))
   || (n =? 133) || (n =? 160))%nat.

Fixpoint lstrip (s : string) : string :=
  match s with
  | String c r => if isspace c then lstrip r else s
  | EmptyString => EmptyString
  end.

Fixpoint rstrip (s : string) : string :=
  match s with
  | String c r =>
      match rstrip r with
      | EmptyString => if isspace c then EmptyString else String c EmptyString
      | r' => String c r'
      end
  | EmptyString => EmptyString
  end.

(** [s.strip()]. *)
Definition strip (s : string) : string := lstrip (rstrip s).

(** [s.startswith(p)]. *)
Definition startswith (s p : string) : bool := String.prefix p s.

(** [s.split(sep)] for a separator of one character: the pieces between
    the occurrences of [sep], one more than there are occurrences. *)
Fixpoint split (sep : ascii) (s : string) : list string :=
  match s with
  | EmptyString => [EmptyString]
  | String c r =>
      if Ascii.eqb c sep then EmptyString :: split sep r
      else match split sep r with
           | piece :: pieces => String c piece :: pieces
           | [] => [String c EmptyString]
           end
  end.

Definition LF : ascii := ascii_of_nat 10.
Definition TAB : ascii := ascii_of_nat 9.

(** ** Values *)

#[local] Set Warnings "-register-all".

(** The values that end up in the dictionaries the scripts build and in
    what [json.loads] returns; [F] is the type of floats. A dictionary
    keeps its keys in insertion order. *)
Inductive pyval (F : Type) : Type :=
| PNone
| PBool (b : bool)
| PInt (z : Z)
| PFloat (f : F)
| PStr (s : string)
| PList (l : list (pyval F))
| PDict (d : list (string * pyval F)).
Arguments PNone {F}.
Arguments PBool {F} b.
Arguments PInt {F} z.
Arguments PFloat {F} f.
Arguments PStr {F} s.
Arguments PList {F} l.
Arguments PDict {F} d.

Section Dict.
Context {V : Type}.

(** [d.get(k)] / [k in d]. *)
Fixpoint dict_get (k : string) (d : list (string * V)) : option V :=
  match d with
  | [] => None
  | (k', v) :: d' => if String.eqb k' k then Some v else dict_get k d'
  end.

(** [d[k] = v]: an existing key keeps its place, a new one goes last. *)
Fixpoint dict_set (k : string) (v : V) (d : list (string * V))
  : list (string * V) :=
  match d with
  | [] => [(k, v)]
  | (k', v') :: d' =>
      if String.eqb k' k then (k, v) :: d' else (k', v') :: dict_set k v d'
  end.

Definition dict_keys (d : list (string * V)) : list string := map fst d.
End Dict.

(** ** [repr()] and [str()] *)

Definition hex_digit (n : nat) : ascii :=
  if (n <? 10)%nat then ascii_of_nat (48 + n) else ascii_of_nat (87 + n).

(** [isprintable] on a code point from 127 to 255. *)
Definition isprintable_high (n : nat) : bool :=
  ((161 <=? n) && negb (n =? 173))%nat.

Definition BACKSLASH : ascii := ascii_of_nat 92.
Definition SQUOTE : ascii := ascii_of_nat 39.
Definition DQUOTE : ascii := ascii_of_nat 34.

Fixpoint contains (c : ascii) (s : string) : bool :=
  match s with
  | EmptyString => false
  | String c' r => Ascii.eqb c' c || contains c r
  end.

Definition repr_char (quote c : ascii) : string :=
  let n := nat_of_ascii c in
  let hex :=
    String BACKSLASH
      (String "x" (String (hex_digit (n / 16))
                     (String (hex_digit (n mod 16)) EmptyString))) in
  if Ascii.eqb c quote || Ascii.eqb c BACKSLASH
  then String BACKSLASH (String c EmptyString)
  else if (n =? 9)%nat then String BACKSLASH "t"
  else if (n =? 10)%nat then String BACKSLASH "n"
  else if (n =? 13)%nat then String BACKSLASH "r"
  else if ((n <? 32) || (n =? 127))%nat then hex
  else if (n <? 127)%nat then String c EmptyString
  else if isprintable_high n then String c EmptyString
  else hex.

Fixpoint repr_chars (quote : ascii) (s : string) : string :=
  match s with
  | EmptyString => EmptyString
  | String c r => repr_char quote c ++ repr_chars quote r
  end.

(** [repr(s)] of a string: single quotes, unless the string has a single
    quote and no double quote. *)
Definition repr_str (s : string) : string :=
  let quote :=
    if contains SQUOTE s && negb (contains DQUOTE s) then DQUOTE else SQUOTE in
  String quote (repr_chars quote s ++ String quote EmptyString).

Fixpoint join (sep : string) (l : list string) : string :=
  match l with
  | [] => EmptyString
  | [x] => x
  | x :: r => x ++ sep ++ join sep r
  end.

Section Repr.
Context {F : Type} (repr_float : F -> string).

(** [repr(v)]; for the values here [str(v)] is the same text, except
    for a string at top level. *)
Fixpoint repr (v : pyval F) : string :=
  match v with
  | PNone => "None"
  | PBool true => "True"
  | PBool false => "False"
  | PInt z => NilZero.string_of_int (Z.to_int z)
  | PFloat f => repr_float f
  | PStr s => repr_str s
  | PList l => "[" ++ join ", " (map repr l) ++ "]"
  | PDict d =>
      "{" ++ join ", "
               (map (fun kv : string * pyval F =>
                       let (k, x) := kv in repr_str k ++ ": " ++ repr x) d)
          ++ "}"
  end.

(** [str(d)] of a dictionary [d]. *)
Definition str_dict (d : list (string * pyval F)) : string :=
  repr (PDict d).
End Repr.

(** [str(n)] of an integer. *)
Definition str_int (z : Z) : string := NilZero.string_of_int (Z.to_int z).

(** [s] between double quotes. *)
Definition dq (s : string) : string :=
  String DQUOTE (s ++ String DQUOTE EmptyString).

(** The literals [b'{"status":"ok","minecraft":"running"}'] and
    [b'{"status":"error","minecraft":"not_running"}']. *)
Definition body_running : string :=
  "{" ++ dq "status" ++ ":" ++ dq "ok" ++ ","
      ++ dq "minecraft" ++ ":" ++ dq "running" ++ "}".
Definition body_not_running : string :=
  "{" ++ dq "status" ++ ":" ++ dq "error" ++ ","
      ++ dq "minecraft" ++ ":" ++ dq "not_running" ++ "}".

(** ** Operations on values *)

Section Values.
Context {F : Type} (truth_float : F -> bool).

(** [bool(v)]. *)
Definition truthy (v : pyval F) : bool :=
  match v with
  | PNone => false
  | PBool b => b
  | PInt z => negb (z =? 0)%Z
  | PFloat f => truth_float f
  | PStr s => negb (String.eqb s EmptyString)
  | PList l => match l with [] => false | _ => true end
  | PDict d => match d with [] => false | _ => true end
  end.

Definition type_name (v : pyval F) : string :=
  match v with
  | PNone => "NoneType"
  | PBool _ => "bool"
  | PInt _ => "int"
  | PFloat _ => "float"
  | PStr _ => "str"
  | PList _ => "list"
  | PDict _ => "dict"
  end.

(** [v[0]]. The keys of a [PDict] are strings, so [0] is never one. *)
Definition getitem0 (v : pyval F) : result (pyval F) :=
  match v with
  | PList (x :: _) => Ok x
  | PList [] => Raise (Exn IndexError "list index out of range")
  | PStr (String c _) => Ok (PStr (String c EmptyString))
  | PStr EmptyString => Raise (Exn IndexError "string index out of range")
  | PDict _ => Raise (Exn KeyError "0")
  | _ => Raise (Exn TypeError
                  ("'" ++ type_name v ++ "' object is not subscriptable"))
  end.

(** [v.get(key, default)]. *)
Definition method_get (v : pyval F) (key : string) (default : pyval F)
  : result (pyval F) :=
  match v with
  | PDict d =>
      match dict_get key d with
      | Some x => Ok x
      | None => Ok default
      end
  | _ => Raise (Exn AttributeError
                  ("'" ++ type_name v ++ "' object has no attribute 'get'"))
  end.
End Values.

(** ** Child processes *)

(** What [subprocess.run(..., capture_output=True, text=True)] returns. *)
Record CompletedProcess : Type := Completed {
  returncode : Z;
  stdout : string;
  stderr : string
}.

(** ** The host

    Everything the scripts take from outside: the floats of the
    interpreter, the state of the machine, child processes, the clock
    and the [json] module. *)
Class Host : Type := {
  pyfloat : Type;
  (** [repr(x)] of a float. *)
  float_repr : pyfloat -> string;
  (** [bool(x)] of a float. *)
  float_bool : pyfloat -> bool;
  World : Type;
  (** [subprocess.run(argv, capture_output=True, text=True, timeout=5)]. *)
  subprocess_run : list string -> World -> result CompletedProcess * World;
  (** [time.time()]. *)
  time_time : World -> pyfloat * World;
  (** [time.sleep(n)] for a length [n] that it accepts. *)
  time_sleep : Z -> World -> World;
  (** [email.utils.formatdate(t, usegmt=True)]. *)
  formatdate : pyfloat -> string;
  (** [sys.version.split()[0]], the version of the interpreter. *)
  python_version : string;
  (** [socketserver.TCPServer] on [port]: binds and listens. *)
  tcp_bind : Z -> World -> result unit * World;
  (** [httpd.serve_forever()] followed by the exit of the [with] block:
      the server handles requests until an exception ends it. *)
  serve_forever : World -> exn * World;
  (** [json.loads(s)]. *)
  json_loads : string -> result (pyval pyfloat);
  (** [json.dumps(v, indent=2)]. *)
  json_dumps : pyval pyfloat -> string
}.

Inductive stream : Type := Stdout | Stderr.

(** What a script does that can be seen from outside. *)
Inductive event : Type :=
| Printed (out : stream) (line : string)
| Spawned (argv : list string)
| Started (target : string)
| Listening (port : Z).

(** The state a script runs in: the world, what the script has done so
    far (oldest event first), and its mutable module-level variables, of
    type [G]. *)
Record Sys `{Host} (G : Type) : Type := MkSys {
  world : World;
  trace : list event;
  globals : G
}.
Arguments MkSys {_ _} world trace globals.
Arguments world {_ _} s.
Arguments trace {_ _} s.
Arguments globals {_ _} s.

(** A computation: it may change the state, and returns or raises. *)
Definition M `{Host} (G A : Type) : Type := Sys G -> result A * Sys G.

Section Monad.
Context `{Host} {G : Type}.

Definition ret {A} (a : A) : M G A := fun s => (Ok a, s).

Definition bind {A B} (m : M G A) (k : A -> M G B) : M G B :=
  fun s =>
    match m s with
    | (Ok a, s') => k a s'
    | (Raise e, s') => (Raise e, s')
    end.

Definition raise {A} (e : exn) : M G A := fun s => (Raise e, s).

(** An operation that does not touch the state. *)
Definition lift {A} (r : result A) : M G A := fun s => (r, s).

(** [try: body  except ...: ...]. [handler e] is the body of the first
    [except] clause that matches [e], [None] when no clause does. *)
Definition try_except {A} (body : M G A) (handler : exn -> option (M G A))
  : M G A :=
  fun s =>
    match body s with
    | (Ok a, s') => (Ok a, s')
    | (Raise e, s') =>
        match handler e with
        | Some h => h s'
        | None => (Raise e, s')
        end
    end.

(** [print(line)] and [print(line, file=sys.stderr)]. *)
Definition print (line : string) : M G unit :=
  fun s => (Ok tt, MkSys (world s) (trace s ++ [Printed Stdout line])
              (globals s)).
Definition eprint (line : string) : M G unit :=
  fun s => (Ok tt, MkSys (world s) (trace s ++ [Printed Stderr line])
              (globals s)).

Definition run (argv : list string) : M G CompletedProcess :=
  fun s =>
    let (r, w) := subprocess_run argv (world s) in
    (r, MkSys w (trace s ++ [Spawned argv]) (globals s)).

Definition now : M G pyfloat :=
  fun s =>
    let (t, w) := time_time (world s) in
    (Ok t, MkSys w (trace s) (globals s)).

(** Entering [with socketserver.TCPServer(...) as httpd:]. *)
Definition listen (port : Z) : M G unit :=
  fun s =>
    let (r, w) := tcp_bind port (world s) in
    (r, MkSys w (trace s ++ [Listening port]) (globals s)).

Definition serve : M G unit :=
  fun s =>
    let (e, w) := serve_forever (world s) in
    (Raise e, MkSys w (trace s) (globals s)).

(** [threading.Thread(target=..., daemon=True).start()]: the thread
    runs beside the caller from here on. *)
Definition start_thread (target : string) : M G unit :=
  fun s => (Ok tt, MkSys (world s) (trace s ++ [Started target])
              (globals s)).

(** Reading and assigning the module-level variables. *)
Definition get : M G G := fun s => (Ok (globals s), s).
Definition put (g : G) : M G unit :=
  fun s => (Ok tt, MkSys (world s) (trace s) g).

(** [sys.exit(code)]. *)
Definition sys_exit {A} (code : Z) : M G A :=
  raise (Exn (SystemExit code) EmptyString).

(** The exit status of the interpreter when the script ends with [r]. *)
Definition exit_status {A} (r : result A) : Z :=
  match r with
  | Ok _ => 0
  | Raise (Exn (SystemExit code) _) => code
  | Raise (Exn KeyboardInterrupt _) => 130
  | Raise _ => 1
  end.

(** [time.sleep(n)] for an integer [n]. The length is first converted
    to nanoseconds in 64 bits, which fails from 9223372037 seconds on, in
    either direction, with an [OverflowError]; of the lengths that
    remain, a negative one is a [ValueError]. *)
Definition sleep (n : Z) : M G unit :=
  if ((n <=? -9223372037) || (9223372037 <=? n))%Z
  then raise (Exn OverflowError
                "timestamp too large to convert to C _PyTime_t")
  else if (n <? 0)%Z
  then raise (Exn ValueError "sleep length must be non-negative")
  else fun s => (Ok tt, MkSys (time_sleep n (world s)) (trace s) (globals s)).
End Monad.

Notation "x <- m ;; k" := (bind m (fun x => k))
  (at level 61, m at next level, right associativity).
Notation "m ;;; k" := (bind m (fun _ => k))
  (at level 61, right associativity).

(** ** Formatting

    [format % args] for a tuple [args] of strings and a format with the
    conversions [%s] and [%%], which are those of the formats that
    [http.server] logs with; any other conversion is an error here. *)
Definition prepend (a : string) (r : result string) : result string :=
  match r with
  | Ok t => Ok (a ++ t)
  | Raise e => Raise e
  end.

Fixpoint percent (format : string) (args : list string) : result string :=
  match format with
  | EmptyString =>
      match args with
      | [] => Ok EmptyString
      | _ :: _ =>
          Raise (Exn TypeError
                   "not all arguments converted during string formatting")
      end
  | String c r =>
      if Ascii.eqb c "%" then
        match r with
        | String k r' =>
            if Ascii.eqb k "s" then
              match args with
              | a :: args' => prepend a (percent r' args')
              | [] =>
                  Raise (Exn TypeError
                           "not enough arguments for format string")
              end
            else if Ascii.eqb k "%" then prepend "%" (percent r' args)
            else Raise (Exn ValueError "unsupported format character")
        | EmptyString => Raise (Exn ValueError "incomplete format")
        end
      else prepend (String c EmptyString) (percent r args)
  end.

(** ** [http.server.BaseHTTPRequestHandler]

    A handler object, as far as [do_GET] and the methods it calls look
    at it: the address of the client (host and port), the request line
    without its line end, and the path of the request. *)
Record request : Type := Request {
  client_address : string * Z;
  requestline : string;
  path : string
}.

(** What [do_GET] has passed on when it returns: the code given to
    [send_response], the headers given to [send_header], in order and
    with the two that [send_response] adds itself, and the text written
    to [wfile]. *)
Record response : Type := Response {
  status : Z;
  headers : list (string * string);
  body : string
}.

Section Handler.
Context `{Host} {G : Type}.

(** The method [log_message] of the handler; each script overrides it. *)
Variable log_message : request -> string -> list string -> M G unit.

(** [self.address_string()]. *)
Definition address_string (self : request) : string :=
  fst (client_address self).

(** [self.log_request(code)]: the size is left at its default [-]. *)
Definition log_request (self : request) (code : Z) : M G unit :=
  log_message self (dq "%s" ++ " %s %s")
    [requestline self; str_int code; "-"].

(** [self.version_string()]: [server_version], a blank and
    [sys_version]. *)
Definition version_string : string :=
  "BaseHTTP/0.6" ++ " " ++ ("Python/" ++ python_version).

(** [self.date_time_string()]: the time of now, formatted. *)
Definition date_time_string : M G string :=
  timestamp <- now ;; ret (formatdate timestamp).

(** [self.send_response(code)]: it logs the request, takes the status
    line, and adds the headers [Server] and [Date], which it returns
    here. *)
Definition send_response (self : request) (code : Z)
  : M G (list (string * string)) :=
  log_request self code ;;;
  date <- date_time_string ;;
  ret [("Server", version_string); ("Date", date)].
End Handler.

End Py.

Import Py.

(** * [minecraft-health-server.py] *)

Module Direct.
Section Script.
Context `{Host} {G : Type}.
Variable PORT : Z.
Variable MINECRAFT_PROCESS_NAME : string.

Definition is_minecraft_running : M G bool :=
  try_except
    (result <- run ["pgrep"; "-f"; MINECRAFT_PROCESS_NAME] ;;
     ret (returncode result =? 0)%Z)
    (fun e =>
       if exn_class_eqb (exn_cls e) TimeoutExpired then
         Some (eprint "Warning: Process check timed out" ;;; ret false)
       else if is_Exception (exn_cls e) then
         Some (eprint ("Error checking process: " ++ exn_str e) ;;;
               ret false)
       else None).

Definition patterns : list string :=
  ["bedrock_server"; "bedrock"; "minecraft"; "LD_LIBRARY_PATH"].

(** The body of the loop of [get_debug_info]: the entry stored under
    [pattern]. *)
Definition search_pattern (pattern : string) : M G (pyval pyfloat) :=
  try_except
    (result <- run ["pgrep"; "-f"; pattern] ;;
     ret (PDict
            [("found", PBool (returncode result =? 0)%Z);
             ("pids",
               if (returncode result =? 0)%Z
               then PList (map PStr (split LF (strip (stdout result))))
               else PList [])]))
    (fun e =>
       if is_Exception (exn_cls e)
       then Some (ret (PDict [("error", PStr (exn_str e))]))
       else None).

(** The loop over [patterns], on the dictionary [search_results]. *)
Fixpoint search_loop (todo : list string)
    (search_results : list (string * pyval pyfloat))
  : M G (list (string * pyval pyfloat)) :=
  match todo with
  | [] => ret search_results
  | pattern :: todo' =>
      entry <- search_pattern pattern ;;
      search_loop todo' (dict_set pattern entry search_results)
  end.

(** [debug_data] when [get_debug_info] reaches its [return]. *)
Definition debug_data : M G (pyval pyfloat) :=
  is_running <- is_minecraft_running ;;
  search_results <- search_loop patterns [] ;;
  ret (PDict [("process_name", PStr MINECRAFT_PROCESS_NAME);
              ("is_running", PBool is_running);
              ("search_results", PDict search_results)]).

Definition get_debug_info : M G string :=
  d <- debug_data ;; ret (json_dumps d).

Definition json_header : list (string * string) :=
  [("Content-Type", "application/json")].

(** [sys.stdout.write] of the text and a line feed: one line of
    standard output. *)
Definition log_message (self : request) (format : string)
    (args : list string) : M G unit :=
  text <- lift (percent format args) ;;
  print (address_string self ++ " - " ++ text).

Definition do_GET (self : request) : M G response :=
  if String.eqb (path self) "/health" then
    is_running <- is_minecraft_running ;;
    if is_running : bool then
      sent <- send_response log_message self 200 ;;
      ret (Response 200 (sent ++ json_header) body_running)
    else
      sent <- send_response log_message self 503 ;;
      ret (Response 503 (sent ++ json_header) body_not_running)
  else if String.eqb (path self) "/debug" then
    debug_info <- get_debug_info ;;
    sent <- send_response log_message self 200 ;;
    ret (Response 200 (sent ++ json_header) debug_info)
  else
    sent <- send_response log_message self 404 ;;
    ret (Response 404 sent EmptyString).

Definition main : M G unit :=
  print ("Starting Minecraft Health Check Server on port " ++ str_int PORT) ;;;
  print ("Monitoring process: " ++ MINECRAFT_PROCESS_NAME) ;;;
  print ("Health check endpoint: http://localhost:" ++ str_int PORT
         ++ "/health") ;;;
  try_except
    (listen PORT ;;;
     print "Server is running. Press Ctrl+C to stop." ;;;
     serve)
    (fun e =>
       if exn_class_eqb (exn_cls e) KeyboardInterrupt then
         Some (print (String LF "Shutting down server..."))
       else if exn_class_eqb (exn_cls e) PermissionError then
         Some (eprint ("Error: Permission denied. Port " ++ str_int PORT
                       ++ " may require sudo.") ;;;
               sys_exit 1)
       else if is_OSError (exn_cls e) then
         Some (eprint ("Error: " ++ exn_str e) ;;; sys_exit 1)
       else None).
End Script.
End Direct.

(** * [minecraft-health-server-docker.py] *)

Module Docker.
Section Script.
Context `{Host} {G : Type}.
Variable PORT : Z.
Variable DOCKER_CONTAINER_NAME : string.

Definition is_minecraft_running : M G bool :=
  try_except
    (result <- run ["docker"; "ps"; "--filter";
                    "name=" ++ DOCKER_CONTAINER_NAME;
                    "--format"; "{{.Status}}"] ;;
     if negb (returncode result =? 0)%Z then
       eprint ("Error: docker ps failed: " ++ stderr result) ;;; ret false
     else
       let status := strip (stdout result) in
       ret (startswith status "Up"))
    (fun e =>
       if exn_class_eqb (exn_cls e) TimeoutExpired then
         Some (eprint "Warning: Docker check timed out" ;;; ret false)
       else if exn_class_eqb (exn_cls e) FileNotFoundError then
         Some (eprint "Error: docker command not found" ;;; ret false)
       else if is_Exception (exn_cls e) then
         Some (eprint ("Error checking Docker container: " ++ exn_str e) ;;;
               ret false)
       else None).

(** The body of the loop over the lines of [docker ps -a]: what the
    line adds to [containers]. *)
Definition container_of_line (line : string) : list (pyval pyfloat) :=
  if String.eqb line EmptyString then []
  else
    let parts := split TAB line in
    if (3 <=? length parts)%nat then
      [PDict [("name", PStr (nth 0 parts EmptyString));
              ("status", PStr (nth 1 parts EmptyString));
              ("image", PStr (nth 2 parts EmptyString))]]
    else [].

(** The first [try] of [get_debug_info], on the dictionary
    [docker_info]. *)
Definition all_containers (docker_info : list (string * pyval pyfloat))
  : M G (list (string * pyval pyfloat)) :=
  try_except
    (result <- run ["docker"; "ps"; "-a"; "--format";
                    "{{.Names}}" ++ String TAB "{{.Status}}"
                      ++ String TAB "{{.Image}}"] ;;
     if (returncode result =? 0)%Z then
       let containers :=
         flat_map container_of_line (split LF (strip (stdout result))) in
       ret (dict_set "all_containers" (PList containers) docker_info)
     else ret (dict_set "error" (PStr (stderr result)) docker_info))
    (fun e =>
       if is_Exception (exn_cls e)
       then Some (ret (dict_set "error" (PStr (exn_str e)) docker_info))
       else None).

(** The second [try] of [get_debug_info]. *)
Definition target_container (docker_info : list (string * pyval pyfloat))
  : M G (list (string * pyval pyfloat)) :=
  try_except
    (result <- run ["docker"; "inspect"; DOCKER_CONTAINER_NAME] ;;
     if (returncode result =? 0)%Z then
       container_info <- lift (json_loads (stdout result)) ;;
       if truthy float_bool container_info then
         first <- lift (getitem0 container_info) ;;
         state <- lift (method_get first "State" (PDict [])) ;;
         first' <- lift (getitem0 container_info) ;;
         name <- lift (method_get first' "Name" (PStr EmptyString)) ;;
         ret (dict_set "target_container"
                (PDict [("state", state); ("name", name)]) docker_info)
       else ret docker_info
     else ret (dict_set "target_container" (PStr "not_found") docker_info))
    (fun e =>
       if is_Exception (exn_cls e)
       then Some (ret (dict_set "target_container_error"
                         (PStr (exn_str e)) docker_info))
       else None).

(** [debug_data] when [get_debug_info] reaches its [return]. *)
Definition debug_data : M G (pyval pyfloat) :=
  is_running <- is_minecraft_running ;;
  docker_info <- all_containers [] ;;
  docker_info <- target_container docker_info ;;
  ret (PDict [("container_name", PStr DOCKER_CONTAINER_NAME);
              ("is_running", PBool is_running);
              ("docker_info", PDict docker_info)]).

Definition get_debug_info : M G string :=
  d <- debug_data ;; ret (json_dumps d).

Definition json_header : list (string * string) :=
  [("Content-Type", "application/json")].

(** [sys.stdout.write] of the text and a line feed: one line of
    standard output. *)
Definition log_message (self : request) (format : string)
    (args : list string) : M G unit :=
  text <- lift (percent format args) ;;
  print (address_string self ++ " - " ++ text).

Definition do_GET (self : request) : M G response :=
  if String.eqb (path self) "/health" then
    is_running <- is_minecraft_running ;;
    if is_running : bool then
      sent <- send_response log_message self 200 ;;
      ret (Response 200 (sent ++ json_header) body_running)
    else
      sent <- send_response log_message self 503 ;;
      ret (Response 503 (sent ++ json_header) body_not_running)
  else if String.eqb (path self) "/debug" then
    debug_info <- get_debug_info ;;
    sent <- send_response log_message self 200 ;;
    ret (Response 200 (sent ++ json_header) debug_info)
  else
    sent <- send_response log_message self 404 ;;
    ret (Response 404 sent EmptyString).

(** The check of [main] that Docker can be used. *)
Definition check_docker : M G unit :=
  try_except
    (result <- run ["docker"; "--version"] ;;
     if (returncode result =? 0)%Z
     then print ("Docker version: " ++ strip (stdout result))
     else eprint "Warning: Docker command failed")
    (fun e =>
       if exn_class_eqb (exn_cls e) FileNotFoundError then
         Some (eprint "Error: Docker is not installed or not in PATH" ;;;
               sys_exit 1)
       else if is_Exception (exn_cls e) then
         Some (eprint ("Warning: Could not check Docker version: "
                       ++ exn_str e))
       else None).

Definition main : M G unit :=
  print "Starting Minecraft Health Check Server (Docker Mode)" ;;;
  print ("Port: " ++ str_int PORT) ;;;
  print ("Monitoring Docker container: " ++ DOCKER_CONTAINER_NAME) ;;;
  print ("Health check endpoint: http://localhost:" ++ str_int PORT
         ++ "/health") ;;;
  print ("Debug endpoint: http://localhost:" ++ str_int PORT ++ "/debug") ;;;
  check_docker ;;;
  try_except
    (listen PORT ;;;
     print "Server is running. Press Ctrl+C to stop." ;;;
     serve)
    (fun e =>
       if exn_class_eqb (exn_cls e) KeyboardInterrupt then
         Some (print (String LF "Shutting down server..."))
       else if exn_class_eqb (exn_cls e) PermissionError then
         Some (eprint ("Error: Permission denied. Port " ++ str_int PORT
                       ++ " may require sudo.") ;;;
               sys_exit 1)
       else if is_OSError (exn_cls e) then
         Some (eprint ("Error: " ++ exn_str e) ;;; sys_exit 1)
       else None).
End Script.
End Docker.

(** * [minecraft-health-server-polling.py] *)

Module Polling.

(** The dictionary [minecraft_status]: it has the keys ['is_running'] and
    ['last_check'] from its creation on and never gets another one. *)
Record status_dict {F : Type} : Type := Status {
  is_running : bool;
  last_check : pyval F
}.
Arguments status_dict F : clear implicits.
Arguments Status {F} is_running last_check.

Section Script.
Context `{Host}.
Variable PORT : Z.
Variable MINECRAFT_PROCESS_NAME : string.
Variable CHECK_INTERVAL : Z.

(** The only mutable module-level variable is the dictionary. *)
Definition G : Type := status_dict pyfloat.

(** The value [minecraft_status] is created with. *)
Definition minecraft_status : G := Status false PNone.

Definition check_minecraft_process : M G bool :=
  try_except
    (result <- run ["pgrep"; "-f"; MINECRAFT_PROCESS_NAME] ;;
     ret (returncode result =? 0)%Z)
    (fun e =>
       if is_Exception (exn_cls e) then
         Some (eprint ("Error checking process: " ++ exn_str e) ;;;
               ret false)
       else None).

(** [minecraft_status['is_running'] = v] and
    [minecraft_status['last_check'] = v]. *)
Definition set_is_running (v : bool) : M G unit :=
  d <- get ;; put (Status v (last_check d)).
Definition set_last_check (v : pyval pyfloat) : M G unit :=
  d <- get ;; put (Status (is_running d) v).

(** One turn of the [while True] loop of [background_checker], as the
    thread runs it when no other thread is scheduled in between. *)
Definition checker_cycle : M G unit :=
  is_running <- check_minecraft_process ;;
  set_is_running is_running ;;;
  t <- now ;;
  set_last_check (PFloat t) ;;;
  sleep CHECK_INTERVAL.

(** The first [n] turns of the loop. *)
Fixpoint checker_loop (n : nat) : M G unit :=
  match n with
  | O => ret tt
  | S n' => checker_cycle ;;; checker_loop n'
  end.

(** [background_checker], cut after [n] turns of its loop. *)
Definition background_checker (n : nat) : M G unit :=
  print ("Background checker started (interval: "
         ++ str_int CHECK_INTERVAL ++ "s)") ;;;
  checker_loop n.

Definition json_header : list (string * string) :=
  [("Content-Type", "application/json")].

(** The dictionary [response] of each branch of [do_GET]. *)
Definition response_dict (is_running : bool) (last_check : pyval pyfloat)
  : list (string * pyval pyfloat) :=
  if is_running
  then [("status", PStr "ok"); ("minecraft", PStr "running");
        ("last_check", last_check)]
  else [("status", PStr "error"); ("minecraft", PStr "not_running");
        ("last_check", last_check)].

(** [sys.stdout.write] of the text and a line feed: one line of
    standard output. *)
Definition log_message (self : request) (format : string)
    (args : list string) : M G unit :=
  text <- lift (percent format args) ;;
  print (address_string self ++ " - " ++ text).

(** What [do_GET] does for [/health] once it has left the [with] block,
    from its local variables [is_running] and [last_check]. *)
Definition respond (self : request) (is_running : bool)
    (last_check : pyval pyfloat) : M G response :=
  if is_running then
    sent <- send_response log_message self 200 ;;
    ret (Response 200 (sent ++ json_header)
           (str_dict float_repr (response_dict true last_check)))
  else
    sent <- send_response log_message self 503 ;;
    ret (Response 503 (sent ++ json_header)
           (str_dict float_repr (response_dict false last_check))).

(** [do_GET], as a handler runs it when no other thread is scheduled in
    between. *)
Definition do_GET (self : request) : M G response :=
  if String.eqb (path self) "/health" then
    d <- get ;;
    respond self (is_running d) (last_check d)
  else
    sent <- send_response log_message self 404 ;;
    ret (Response 404 sent EmptyString).

Definition main : M G unit :=
  print "Starting Minecraft Health Check Server (Polling Mode)" ;;;
  print ("Port: " ++ str_int PORT) ;;;
  print ("Monitoring process: " ++ MINECRAFT_PROCESS_NAME) ;;;
  print ("Check interval: " ++ str_int CHECK_INTERVAL ++ "s") ;;;
  start_thread "background_checker" ;;;
  sleep 1 ;;;
  try_except
    (listen PORT ;;;
     print "Server is running. Press Ctrl+C to stop." ;;;
     serve)
    (fun e =>
       if exn_class_eqb (exn_cls e) KeyboardInterrupt then
         Some (print (String LF "Shutting down server..."))
       else if exn_class_eqb (exn_cls e) PermissionError then
         Some (eprint ("Error: Permission denied. Port " ++ str_int PORT
                       ++ " may require sudo.") ;;;
               sys_exit 1)
       else if is_OSError (exn_cls e) then
         Some (eprint ("Error: " ++ exn_str e) ;;; sys_exit 1)
       else None).

(** ** The threads

    The checker thread and the request handlers, one source line at a
    time; the scheduler may switch threads between any two lines. A
    thread that wants [status_lock] moves only when the lock is free.
    Any number of handlers may be at work at once, which covers the
    server of [main], that takes one request at a time. The handlers
    work on requests for [/health]; of its request a handler uses
    nothing but the address and the request line, for the line it logs
    when it answers, so the request comes in at that step. *)

Inductive thread : Type := Checker | Handler (i : nat).

(** Where the checker is in the loop of [background_checker]. *)
Inductive checker_pc : Type :=
| AtProbe                     (* is_running = check_minecraft_process() *)
| AtAcquire (b : bool)        (* with status_lock: *)
| AtSetRunning (b : bool)     (* minecraft_status['is_running'] = ... *)
| AtSetCheck                  (* minecraft_status['last_check'] = ... *)
| AtRelease                   (* end of the with block *)
| AtSleep                     (* time.sleep(CHECK_INTERVAL) *)
| Crashed (e : exn).          (* an exception ended the thread *)

(** Where a handler is in the [/health] branch of [do_GET]. *)
Inductive handler_pc : Type :=
| AtRequest                                       (* with status_lock: *)
| AtReadRunning                 (* is_running = minecraft_status[...] *)
| AtReadCheck (b : bool)        (* last_check = minecraft_status[...] *)
| AtExit (b : bool) (lc : pyval pyfloat)    (* end of the with block *)
| AtRespond (b : bool) (lc : pyval pyfloat)       (* if is_running: *)
| Responded (r : response).

Record threads : Type := Threads {
  sys : Sys G;
  status_lock : option thread;
  checker : checker_pc;
  handlers : nat -> handler_pc;
  (** What the completed turns of the checker have left in
      [minecraft_status], latest first, after its first value. *)
  written : list G
}.

Definition set_handler (i : nat) (pc : handler_pc)
    (hs : nat -> handler_pc) : nat -> handler_pc :=
  fun j => if Nat.eqb j i then pc else hs j.

Definition init (s : Sys G) : threads :=
  Threads (MkSys (world s) (trace s) minecraft_status) None AtProbe
    (fun _ => AtRequest) [minecraft_status].

Inductive step : threads -> threads -> Prop :=
| step_probe s l hs ws b s' :
    check_minecraft_process s = (Ok b, s') ->
    step (Threads s l AtProbe hs ws) (Threads s' l (AtAcquire b) hs ws)
| step_probe_raise s l hs ws e s' :
    check_minecraft_process s = (Raise e, s') ->
    step (Threads s l AtProbe hs ws) (Threads s' l (Crashed e) hs ws)
| step_acquire s hs ws b :
    step (Threads s None (AtAcquire b) hs ws)
         (Threads s (Some Checker) (AtSetRunning b) hs ws)
| step_set_running s l hs ws b s' :
    set_is_running b s = (Ok tt, s') ->
    step (Threads s l (AtSetRunning b) hs ws)
         (Threads s' l AtSetCheck hs ws)
| step_set_check s l hs ws s' :
    (t <- now ;; set_last_check (PFloat t)) s = (Ok tt, s') ->
    step (Threads s l AtSetCheck hs ws)
         (Threads s' l AtRelease hs (globals s' :: ws))
| step_release s l hs ws :
    step (Threads s l AtRelease hs ws) (Threads s None AtSleep hs ws)
| step_sleep s l hs ws s' :
    sleep CHECK_INTERVAL s = (Ok tt, s') ->
    step (Threads s l AtSleep hs ws) (Threads s' l AtProbe hs ws)
| step_sleep_raise s l hs ws e s' :
    sleep CHECK_INTERVAL s = (Raise e, s') ->
    step (Threads s l AtSleep hs ws) (Threads s' l (Crashed e) hs ws)
| step_enter s c hs ws i :
    hs i = AtRequest ->
    step (Threads s None c hs ws)
         (Threads s (Some (Handler i)) c (set_handler i AtReadRunning hs) ws)
| step_read_running s l c hs ws i :
    hs i = AtReadRunning ->
    step (Threads s l c hs ws)
         (Threads s l c
            (set_handler i (AtReadCheck (is_running (globals s))) hs) ws)
| step_read_check s l c hs ws i b :
    hs i = AtReadCheck b ->
    step (Threads s l c hs ws)
         (Threads s l c
            (set_handler i (AtExit b (last_check (globals s))) hs) ws)
| step_exit s l c hs ws i b lc :
    hs i = AtExit b lc ->
    step (Threads s l c hs ws)
         (Threads s None c (set_handler i (AtRespond b lc) hs) ws)
| step_respond s l c hs ws i b lc self r s' :
    hs i = AtRespond b lc ->
    path self = "/health" ->
    respond self b lc s = (Ok r, s') ->
    step (Threads s l c hs ws)
         (Threads s' l c (set_handler i (Responded r) hs) ws)
| step_next s l c hs ws i r :
    hs i = Responded r ->
    step (Threads s l c hs ws)
         (Threads s l c (set_handler i AtRequest hs) ws).

(** The states the threads can be in, from a fresh start. *)
Inductive reachable : threads -> Prop :=
| reach_init s : reachable (init s)
| reach_step st st' : reachable st -> step st st' -> reachable st'.

(** The lines at which a thread is inside its [with status_lock:]. *)
Definition checker_in_with (pc : checker_pc) : bool :=
  match pc with
  | AtSetRunning _ | AtSetCheck | AtRelease => true
  | _ => false
  end.
Definition handler_in_with (pc : handler_pc) : bool :=
  match pc with
  | AtReadRunning | AtReadCheck _ | AtExit _ _ => true
  | _ => false
  end.
End Script.
End Polling.

(** * JSON texts

    A recogniser for the grammar of RFC 8259, to tell whether a body can
    be parsed as JSON. *)

Module Json.

Definition is_ws (c : ascii) : bool :=
  let n := nat_of_ascii c in
  ((n =? 32) || (n =? 9) || (n =? 10) || (n =? 13))%nat.

Definition is_digit (c : ascii) : bool :=
  let n := nat_of_ascii c in ((48 <=? n) && (n <=? 57))%nat.

Definition is_hex (c : ascii) : bool :=
  let n := nat_of_ascii c in
  (((48 <=? n) && (n <=? 57)) || ((65 <=? n) && (n <=? 70))
   || ((97 <=? n) && (n <=? 102)))%nat.

(** The characters that may follow a backslash, [u] apart. *)
Definition is_escape (c : ascii) : bool :=
  Ascii.eqb c DQUOTE || Ascii.eqb c BACKSLASH || Ascii.eqb c "/"
  || Ascii.eqb c "b" || Ascii.eqb c "f" || Ascii.eqb c "n"
  || Ascii.eqb c "r" || Ascii.eqb c "t".

Fixpoint skip_ws (s : string) : string :=
  match s with
  | String c r => if is_ws c then skip_ws r else s
  | EmptyString => s
  end.

Fixpoint skip_digits (s : string) : string :=
  match s with
  | String c r => if is_digit c then skip_digits r else s
  | EmptyString => s
  end.

(** One digit or more. *)
Definition digits (s : string) : option string :=
  match s with
  | String c r => if is_digit c then Some (skip_digits r) else None
  | EmptyString => None
  end.

(** A string, after its opening quote: what follows the closing one. *)
Fixpoint string_tail (s : string) : option string :=
  match s with
  | EmptyString => None
  | String c r =>
      if Ascii.eqb c DQUOTE then Some r
      else if Ascii.eqb c BACKSLASH then
        match r with
        | String e r1 =>
            if is_escape e then string_tail r1
            else if Ascii.eqb e "u" then
              match r1 with
              | String h1 (String h2 (String h3 (String h4 r2))) =>
                  if is_hex h1 && is_hex h2 && is_hex h3 && is_hex h4
                  then string_tail r2 else None
              | _ => None
              end
            else None
        | EmptyString => None
        end
      else if (nat_of_ascii c <? 32)%nat then None
      else string_tail r
  end.

Definition fraction (s : string) : option string :=
  match s with
  | String "." r => digits r
  | _ => Some s
  end.

Definition exponent (s : string) : option string :=
  match s with
  | String c r =>
      if Ascii.eqb c "e" || Ascii.eqb c "E" then
        match r with
        | String sign r1 =>
            if Ascii.eqb sign "+" || Ascii.eqb sign "-"
            then digits r1 else digits r
        | EmptyString => None
        end
      else Some s
  | EmptyString => Some s
  end.

Definition opt_bind {A B} (o : option A) (k : A -> option B) : option B :=
  match o with
  | Some a => k a
  | None => None
  end.

(** A number, after its optional minus sign. *)
Definition unsigned_number (s : string) : option string :=
  match s with
  | String c r =>
      if Ascii.eqb c "0" then opt_bind (fraction r) exponent
      else if is_digit c
      then opt_bind (fraction (skip_digits r)) exponent
      else None
  | EmptyString => None
  end.

Definition number (s : string) : option string :=
  match s with
  | String "-" r => unsigned_number r
  | _ => unsigned_number s
  end.

(** [literal w s]: [s] without its prefix [w]. *)
Fixpoint literal (w s : string) : option string :=
  match w, s with
  | EmptyString, _ => Some s
  | String a w', String b s' => if Ascii.eqb a b then literal w' s' else None
  | String _ _, EmptyString => None
  end.

(** A value at the head of [s]: what follows it. [members] and [elements]
    take over after the opening bracket and the white space behind it,
    when the object or array is not empty. *)
Fixpoint value (fuel : nat) (s : string) : option string :=
  match fuel with
  | O => None
  | S n =>
      match s with
      | String c r =>
          if Ascii.eqb c "{" then
            match skip_ws r with
            | String "}" r1 => Some r1
            | r1 => members n r1
            end
          else if Ascii.eqb c "[" then
            match skip_ws r with
            | String "]" r1 => Some r1
            | r1 => elements n r1
            end
          else if Ascii.eqb c DQUOTE then string_tail r
          else if Ascii.eqb c "t" then literal "rue" r
          else if Ascii.eqb c "f" then literal "alse" r
          else if Ascii.eqb c "n" then literal "ull" r
          else number s
      | EmptyString => None
      end
  end
with members (fuel : nat) (s : string) : option string :=
  match fuel with
  | O => None
  | S n =>
      match s with
      | String c r =>
          if Ascii.eqb c DQUOTE then
            opt_bind (string_tail r) (fun r1 =>
            match skip_ws r1 with
            | String ":" r2 =>
                opt_bind (value n (skip_ws r2)) (fun r3 =>
                match skip_ws r3 with
                | String "," r4 => members n (skip_ws r4)
                | String "}" r4 => Some r4
                | _ => None
                end)
            | _ => None
            end)
          else None
      | EmptyString => None
      end
  end
with elements (fuel : nat) (s : string) : option string :=
  match fuel with
  | O => None
  | S n =>
      opt_bind (value n s) (fun r1 =>
      match skip_ws r1 with
      | String "," r2 => elements n (skip_ws r2)
      | String "]" r2 => Some r2
      | _ => None
      end)
  end.

(** [s] is a JSON text: white space, one value, white space. Of two
    nested calls of [value], [members] and [elements] at least one comes
    after a character has been read, so twice the length of [s] bounds
    their depth. *)
Definition is_json (s : string) : bool :=
  match value (S (2 * String.length s)) (skip_ws s) with
  | Some r => String.eqb (skip_ws r) EmptyString
  | None => false
  end.

End Json.

(** * Hosts to run the scripts on *)

Module Hosts.

(** A machine whose child processes follow a script: each call of
    [subprocess.run] takes the next outcome of the list, and finds no
    executable once the list is used up. The clock counts seconds. *)
Record scripted : Type := Scripted {
  outcomes : list (result CompletedProcess);
  clock : Z;
  bind_outcome : result unit;
  interrupt : exn
}.

Definition not_found : exn :=
  Exn FileNotFoundError "[Errno 2] No such file or directory".

Definition scripted_run (argv : list string) (w : scripted)
  : result CompletedProcess * scripted :=
  match outcomes w with
  | [] => (Raise not_found, w)
  | r :: rs => (r, Scripted rs (clock w) (bind_outcome w) (interrupt w))
  end.

(** The date of a time in seconds since 1 January 1970, 0:00 GMT, as
    [email.utils.formatdate] writes it: the day of the week, the day,
    the month, the year, the time of day and [GMT]. *)
Definition day_names : list string :=
  ["Thu"; "Fri"; "Sat"; "Sun"; "Mon"; "Tue"; "Wed"].

Definition month_names : list string :=
  ["Jan"; "Feb"; "Mar"; "Apr"; "May"; "Jun";
   "Jul"; "Aug"; "Sep"; "Oct"; "Nov"; "Dec"].

(** Year, month and day of the day [days] after 1 January 1970, by the
    cycle of 400 years (146097 days) that begins on a 1 March. *)
Definition civil_from_days (days : Z) : Z * Z * Z :=
  let z := (days + 719468)%Z in
  let era := (z / 146097)%Z in
  let doe := (z - era * 146097)%Z in
  let yoe := ((doe - doe / 1460 + doe / 36524 - doe / 146096) / 365)%Z in
  let doy := (doe - (365 * yoe + yoe / 4 - yoe / 100))%Z in
  let mp := ((5 * doy + 2) / 153)%Z in
  let d := (doy - (153 * mp + 2) / 5 + 1)%Z in
  let m := (if mp <? 10 then mp + 3 else mp - 9)%Z in
  let y := (yoe + era * 400)%Z in
  ((if m <=? 2 then y + 1 else y)%Z, m, d).

Definition two_digits (n : Z) : string :=
  if (n <? 10)%Z then "0" ++ str_int n else str_int n.

Definition four_digits (n : Z) : string :=
  if (n <? 10)%Z then "000" ++ str_int n
  else if (n <? 100)%Z then "00" ++ str_int n
  else if (n <? 1000)%Z then "0" ++ str_int n
  else str_int n.

Definition scripted_formatdate (t : Z) : string :=
  let days := (t / 86400)%Z in
  let secs := (t mod 86400)%Z in
  let '(y, m, d) := civil_from_days days in
  nth (Z.to_nat (days mod 7)) day_names EmptyString ++ ", "
    ++ two_digits d ++ " "
    ++ nth (Z.to_nat (m - 1)) month_names EmptyString ++ " "
    ++ four_digits y ++ " "
    ++ two_digits (secs / 3600) ++ ":"
    ++ two_digits (secs mod 3600 / 60) ++ ":"
    ++ two_digits (secs mod 60) ++ " GMT".

(** A stand-in for the [json] module: it reads the empty list and one
    empty object in a list, and writes the [repr] of a value. *)
Definition scripted_loads (s : string) : result (pyval Z) :=
  if String.eqb s "[]" then Ok (PList [])
  else if String.eqb s "[{}]" then Ok (PList [PDict []])
  else Raise (Exn JSONDecodeError "Expecting value: line 1 column 1 (char 0)").

Definition scripted_host : Host := {|
  pyfloat := Z;
  float_repr := fun z => str_int z ++ ".0";
  float_bool := fun z => negb (z =? 0)%Z;
  World := scripted;
  subprocess_run := scripted_run;
  time_time := fun w =>
    (clock w, Scripted (outcomes w) (clock w + 1) (bind_outcome w)
                (interrupt w));
  time_sleep := fun n w =>
    Scripted (outcomes w) (clock w + n) (bind_outcome w) (interrupt w);
  formatdate := scripted_formatdate;
  python_version := "3.11.2";
  tcp_bind := fun _ w => (bind_outcome w, w);
  serve_forever := fun w => (interrupt w, w);
  json_loads := scripted_loads;
  json_dumps := repr (fun z => str_int z ++ ".0")
|}.

(** A machine with neither [pgrep] nor [docker]: every child process
    fails with [FileNotFoundError]. Its state is the clock. *)
Definition bare_host : Host := {|
  pyfloat := Z;
  float_repr := fun z => str_int z ++ ".0";
  float_bool := fun z => negb (z =? 0)%Z;
  World := Z;
  subprocess_run := fun _ w => (Raise not_found, w);
  time_time := fun w => (w, (w + 1)%Z);
  time_sleep := fun n w => (w + n)%Z;
  formatdate := scripted_formatdate;
  python_version := "3.11.2";
  tcp_bind := fun _ w => (Ok tt, w);
  serve_forever := fun w => (Exn KeyboardInterrupt EmptyString, w);
  json_loads := scripted_loads;
  json_dumps := repr (fun z => str_int z ++ ".0")
|}.

Definition done (rc : Z) (out : string) : result CompletedProcess :=
  Ok (Completed rc out EmptyString).

(** A start of [scripted_host] with the given outcomes to come. *)
Definition boot {G : Type} (rs : list (result CompletedProcess)) (g : G)
  : @Sys scripted_host G :=
  @MkSys scripted_host G
    (Scripted rs 1700000000 (Ok tt) (Exn KeyboardInterrupt EmptyString))
    [] g.

Definition bare_boot {G : Type} (g : G) : @Sys bare_host G :=
  @MkSys bare_host G 1700000000%Z [] g.

#[local] Existing Instance scripted_host.

(** A request for [/health], and one for [/debug], from this machine. *)
Definition health_request : request :=
  Request ("127.0.0.1", 50000%Z) "GET /health HTTP/1.1" "/health".

Definition debug_request : request :=
  Request ("127.0.0.1", 50001%Z) "GET /debug HTTP/1.1" "/debug".

(** Two moments of the polling script on [scripted_host], monitoring
    [bedrock_server] every 5 seconds, where [pgrep] finds the process.

    [before_first_turn]: handler 0 has answered [health_request] while
    the checker has not yet probed. *)
Definition early_answer : response :=
  Response 503
    [("Server", "BaseHTTP/0.6 Python/3.11.2");
     ("Date", "Tue, 14 Nov 2023 22:13:20 GMT");
     ("Content-Type", "application/json")]
    "{'status': 'error', 'minecraft': 'not_running', 'last_check': None}".

Definition answered_early : nat -> @Polling.handler_pc scripted_host :=
  Polling.set_handler 0 (Polling.Responded early_answer)
    (Polling.set_handler 0 (Polling.AtRespond false PNone)
       (Polling.set_handler 0 (Polling.AtExit false PNone)
          (Polling.set_handler 0 (Polling.AtReadCheck false)
             (Polling.set_handler 0 Polling.AtReadRunning
                (fun _ => Polling.AtRequest))))).

Definition before_first_turn : @Polling.threads scripted_host :=
  Polling.Threads
    (@MkSys scripted_host _
       (Scripted [done 0 "4242"] 1700000001 (Ok tt)
          (Exn KeyboardInterrupt EmptyString))
       [Printed Stdout
          ("127.0.0.1 - " ++ dq "GET /health HTTP/1.1" ++ " 503 -")]
       (@Polling.minecraft_status scripted_host))
    None Polling.AtProbe answered_early
    [@Polling.minecraft_status scripted_host].

(** [after_one_turn]: the checker has completed a turn and is about to
    sleep; handler 0 has then read the dictionary and is about to
    answer. *)
Definition about_to_answer : nat -> @Polling.handler_pc scripted_host :=
  Polling.set_handler 0 (Polling.AtRespond true (PFloat 1700000000%Z))
    (Polling.set_handler 0 (Polling.AtExit true (PFloat 1700000000%Z))
       (Polling.set_handler 0 (Polling.AtReadCheck true)
          (Polling.set_handler 0 Polling.AtReadRunning
             (fun _ => Polling.AtRequest)))).

Definition after_one_turn : @Polling.threads scripted_host :=
  Polling.Threads
    (@MkSys scripted_host _
       (Scripted [] 1700000001 (Ok tt) (Exn KeyboardInterrupt EmptyString))
       [Spawned ["pgrep"; "-f"; "bedrock_server"]]
       (Polling.Status true (PFloat 1700000000%Z)))
    None Polling.AtSleep about_to_answer
    [Polling.Status true (PFloat 1700000000%Z);
     @Polling.minecraft_status scripted_host].

(** A request for [/debug] on [scripted_host]: the probe and the first
    search find the process, the next two find nothing, the last one
    times out. *)
Definition debug_outcomes : list (result CompletedProcess) :=
  [done 0 "4242"; done 0 "4242"; done 1 EmptyString; done 1 EmptyString;
   Raise (Exn TimeoutExpired "Command timed out after 5 seconds")].

End Hosts.

(** * What the claims speak of *)

(** An outcome of a child process that is no interrupt: the process
    completed, or [subprocess.run] raised an error, that is an instance
    of [Exception] (executable missing, timeout, any other error). *)
Definition absorbed {A : Type} (r : result A) : Prop :=
  match r with
  | Ok _ => True
  | Raise e => is_Exception (exn_cls e) = true
  end.

(** [pgrep] reports a matching process: it exits with 0. *)
Definition pgrep_reports_running (r : result CompletedProcess) : bool :=
  match r with
  | Ok p => (returncode p =? 0)%Z
  | Raise _ => false
  end.

(** [docker ps] reports a running container: it succeeds and the status
    it prints begins with [Up]. *)
Definition docker_reports_running (r : result CompletedProcess) : bool :=
  match r with
  | Ok p => (returncode p =? 0)%Z && startswith (strip (stdout p)) "Up"
  | Raise _ => false
  end.

Definition pgrep_argv (name : string) : list string := ["pgrep"; "-f"; name].

Definition docker_ps_argv (name : string) : list string :=
  ["docker"; "ps"; "--filter"; "name=" ++ name; "--format"; "{{.Status}}"].

Definition docker_ps_all_argv : list string :=
  ["docker"; "ps"; "-a"; "--format";
   "{{.Names}}" ++ String TAB "{{.Status}}" ++ String TAB "{{.Image}}"].

(** A host on which no call is ever cut short by an interrupt: whatever
    [subprocess.run] raises is an error, and so for [json.loads]. *)
Definition child_errors_only (H : Host) : Prop :=
  forall argv w, absorbed (fst (subprocess_run argv w)).
Definition json_errors_only (H : Host) : Prop :=
  forall s, absorbed (json_loads s).

(** The script has tried to open its listening socket. *)
Definition listening (tr : list event) : bool :=
  existsb (fun ev => match ev with Listening _ => true | _ => false end) tr.



(** ** Answers *)

(** The line a handler writes to standard output when it answers its
    request with [code]: the host of the client, the request line
    between double quotes, the code, and [-] for the size. *)
Definition log_line (self : request) (code : Z) : string :=
  address_string self ++ " - " ++ dq (requestline self) ++ " "
    ++ str_int code ++ " -".

(** The state a handler leaves when it has called [send_response] with
    [code] in the state [s]: one more line on standard output, and the
    clock read once, for the header [Date]. *)
Definition answered `{Host} {G : Type} (self : request) (code : Z)
    (s : Sys G) : Sys G :=
  MkSys (snd (time_time (world s)))
    (trace s ++ [Printed Stdout (log_line self code)])
    (globals s).

(** The header [Server] of every answer, and the header [Date] of an
    answer sent in the world [w]. *)
Definition server_header `{Host} : string * string :=
  ("Server", "BaseHTTP/0.6 Python/" ++ python_version).

Definition date_header `{Host} (w : World) : string * string :=
  ("Date", formatdate (fst (time_time w))).

(** The answers to [/health] of the two scripts that probe on request,
    sent in the world [w]. *)
Definition health_reply `{Host} (w : World) (up : bool) : response :=
  if up
  then Response 200
         [server_header; date_header w; ("Content-Type", "application/json")]
         body_running
  else Response 503
         [server_header; date_header w; ("Content-Type", "application/json")]
         body_not_running.

(** The code of an answer to [/health]. *)
Definition health_code (up : bool) : Z := if up then 200%Z else 503%Z.

(** The text the polling script answers [/health] with, for the pair
    ([is_running], [last_check]) it has read. *)
Definition polling_body `{Host} (is_running : bool)
    (last_check : pyval pyfloat) : string :=
  if is_running
  then "{'status': 'ok', 'minecraft': 'running', 'last_check': "
         ++ repr float_repr last_check ++ "}"
  else "{'status': 'error', 'minecraft': 'not_running', 'last_check': "
         ++ repr float_repr last_check ++ "}".

(** The answer of the polling script to [/health], sent in the world
    [w], for the pair it has read. *)
Definition polling_reply `{Host} (w : World) (is_running : bool)
    (last_check : pyval pyfloat) : response :=
  Response (health_code is_running)
    [server_header; date_header w; ("Content-Type", "application/json")]
    (polling_body is_running last_check).

(** The answer of the polling script to [/health] while nothing has been
    written to [minecraft_status]. *)
Definition unchecked_reply `{Host} (w : World) : response :=
  Response 503
    [server_header; date_header w; ("Content-Type", "application/json")]
    "{'status': 'error', 'minecraft': 'not_running', 'last_check': None}".

(** The answer to a path the script does not know. *)
Definition not_found_reply `{Host} (w : World) : response :=
  Response 404 [server_header; date_header w] EmptyString.

(** The answer to [/debug] with the document [doc]. *)
Definition debug_reply `{Host} (w : World) (doc : pyval pyfloat)
  : response :=
  Response 200
    [server_header; date_header w; ("Content-Type", "application/json")]
    (json_dumps doc).


(** ** The threads of the polling script *)

Section ThreadProperties.
Context `{Host}.

(** What holds of the threads whatever the scheduler does. *)
Record invariant (st : Polling.threads) : Prop := Invariant {
  (** a thread holds the lock exactly while inside its [with] block *)
  inv_checker_lock :
    Polling.status_lock st = Some Polling.Checker
    <-> Polling.checker_in_with (Polling.checker st) = true;
  inv_handler_lock : forall i,
    Polling.status_lock st = Some (Polling.Handler i)
    <-> Polling.handler_in_with (Polling.handlers st i) = true;
  (** between two assignments of one turn apart, the dictionary is what
      the latest completed turn has left *)
  inv_store :
    Polling.checker st <> Polling.AtSetCheck ->
    hd_error (Polling.written st) = Some (globals (Polling.sys st));
  (** a handler inside its [with] block has read from the dictionary as
      it still is *)
  inv_read_running : forall i b,
    Polling.handlers st i = Polling.AtReadCheck b ->
    Polling.is_running (globals (Polling.sys st)) = b;
  inv_read_check : forall i b lc,
    Polling.handlers st i = Polling.AtExit b lc ->
    globals (Polling.sys st) = Polling.Status b lc;
  (** what a handler answers from was left by one completed turn *)
  inv_respond : forall i b lc,
    Polling.handlers st i = Polling.AtRespond b lc ->
    In (Polling.Status b lc) (Polling.written st);
  inv_responded : forall i r,
    Polling.handlers st i = Polling.Responded r ->
    exists d w, In d (Polling.written st)
                /\ r = polling_reply w (Polling.is_running d)
                         (Polling.last_check d)
}.

(** A dictionary whose [last_check] is a time stamp. *)
Definition stamped (d : Polling.G) : Prop :=
  exists t, Polling.last_check d = PFloat t.

(** The turns of the checker so far: every completed turn has left a
    time stamp, under them lies the first value of the dictionary, and
    [last_check] is at any moment what the latest of them has left. *)
Record history (st : Polling.threads) : Prop := History {
  hist_shape :
    exists ws, Polling.written st = (ws ++ [Polling.minecraft_status])%list
               /\ Forall stamped ws;
  hist_last_check :
    exists d, hd_error (Polling.written st) = Some d
              /\ Polling.last_check (globals (Polling.sys st))
                 = Polling.last_check d
}.

End ThreadProperties.

(** ** Output of the commands, and what a script leaves behind *)

(** A string of white space only, and one without any. *)
Fixpoint all_space (s : string) : bool :=
  match s with
  | EmptyString => true
  | String c r => isspace c && all_space r
  end.

Fixpoint no_space (s : string) : bool :=
  match s with
  | EmptyString => true
  | String c r => negb (isspace c) && no_space r
  end.

(** A word: not empty and without white space, as the names of
    containers and images and the process ids are. *)
Definition word (s : string) : bool :=
  negb (String.eqb s EmptyString) && no_space s.

(** What a command prints for the given lines: each one followed by a
    line feed. *)
Fixpoint unlines (lines : list string) : string :=
  match lines with
  | [] => EmptyString
  | l :: ls => l ++ String LF (unlines ls)
  end.

(** A row of [docker ps -a]: a container with its status and image. *)
Record container_row : Type := Row {
  row_name : string;
  row_status : string;
  row_image : string
}.

(** The row as the format [{{.Names}}\t{{.Status}}\t{{.Image}}] prints
    it. *)
Definition ps_line (r : container_row) : string :=
  row_name r ++ String TAB (row_status r ++ String TAB (row_image r)).

(** The entry of ['all_containers'] for the row. *)
Definition container_entry {F : Type} (r : container_row) : pyval F :=
  PDict [("name", PStr (row_name r)); ("status", PStr (row_status r));
         ("image", PStr (row_image r))].

(** A row that [docker] can print on a line of its own: name and image
    are words, the status has no tabulator and no line feed. *)
Definition printable_row (r : container_row) : bool :=
  word (row_name r)
  && negb (contains TAB (row_status r)) && negb (contains LF (row_status r))
  && word (row_image r).

(** The child processes a script has started, in order. *)
Definition spawns (tr : list event) : list (list string) :=
  flat_map (fun ev => match ev with Spawned argv => [argv] | _ => [] end) tr.

(** The lines a script has printed to standard output, and to standard
    error. *)
Definition stdout_lines (tr : list event) : list string :=
  flat_map (fun ev => match ev with Printed Stdout l => [l] | _ => [] end) tr.
Definition stderr_lines (tr : list event) : list string :=
  flat_map (fun ev => match ev with Printed Stderr l => [l] | _ => [] end) tr.

(** A machine on which every child process completes at once with the
    exit code [rc] and prints one process id. Its state is the clock. *)
Module Steady.

Definition host (rc : Z) : Host := {|
  pyfloat := Z;
  float_repr := fun z => str_int z ++ ".0";
  float_bool := fun z => negb (z =? 0)%Z;
  World := Z;
  subprocess_run := fun _ w =>
    (Ok (Completed rc ("4242" ++ String LF EmptyString) EmptyString), w);
  time_time := fun w => (w, (w + 1)%Z);
  time_sleep := fun n w => (w + n)%Z;
  formatdate := Hosts.scripted_formatdate;
  python_version := "3.11.2";
  tcp_bind := fun _ w => (Ok tt, w);
  serve_forever := fun w => (Exn KeyboardInterrupt EmptyString, w);
  json_loads := Hosts.scripted_loads;
  json_dumps := repr (fun z => str_int z ++ ".0")
|}.

Definition boot {G : Type} (rc : Z) (g : G) : @Sys (host rc) G :=
  @MkSys (host rc) G 1700000000%Z [] g.

End Steady.

(** A third moment of the polling script on [Hosts.scripted_host]: the
    checker has assigned ['is_running'] and not yet ['last_check']. *)
Module Moments.

#[local] Existing Instance Hosts.scripted_host.

Definition mid_write : Polling.threads :=
  Polling.Threads
    (MkSys
       (Hosts.Scripted [] 1700000000 (Ok tt)
          (Exn KeyboardInterrupt EmptyString))
       [Spawned ["pgrep"; "-f"; "bedrock_server"]]
       (Polling.Status true PNone))
    (Some Polling.Checker) Polling.AtSetCheck (fun _ => Polling.AtRequest)
    [Polling.minecraft_status].

End Moments.

(** The line [main] prints to standard error when the listening socket
    cannot be opened because of [e]. *)
Definition bind_diagnostic (port : Z) (e : exn) : string :=
  match exn_cls e with
  | PermissionError =>
      "Error: Permission denied. Port " ++ str_int port ++ " may require sudo."
  | _ => "Error: " ++ exn_str e
  end.

(** An outcome of [docker --version] other than a missing executable:
    the command completed, or failed with another error. *)
Definition docker_found (r : result CompletedProcess) : Prop :=
  match r with
  | Ok _ => True
  | Raise e =>
      is_Exception (exn_cls e) = true
      /\ exn_class_eqb (exn_cls e) FileNotFoundError = false
  end.

(** How often the character [c] occurs in [s]. *)
Fixpoint count_char (c : ascii) (s : string) : nat :=
  match s with
  | EmptyString => 0
  | String c' r => (if Ascii.eqb c' c then 1 else 0) + count_char c r
  end.

(** * Theorems *)

(** ** Sending an answer *)

Lemma append_assoc' (a b c : string) : (a ++ b) ++ c = a ++ (b ++ c).
Proof. induction a as [| x a IH]; cbn; [| rewrite IH]; reflexivity. Qed.

(** The format of [log_request], filled in. *)
Lemma percent_request (rl code : string) :
  percent (dq "%s" ++ " %s %s") [rl; code; "-"]
  = Ok (dq rl ++ " " ++ code ++ " -").
Proof.
  cbn. unfold dq. cbn. rewrite !append_assoc'. reflexivity.
Qed.

Ltac run_send_response s :=
  unfold send_response, log_request, date_time_string, bind, lift, print,
    now, ret;
  rewrite percent_request; cbn;
  unfold answered, date_header, log_line;
  destruct (time_time (world s)); reflexivity.

Section Answers.
Context `{Host}.

(** [send_response] in each of the three scripts: the request is logged
    on standard output, then the clock is read for the header [Date]. *)
Lemma direct_send_response {G : Type} (self : request) (code : Z)
    (s : Sys G) :
  send_response Direct.log_message self code s
  = (Ok [server_header; date_header (world s)], answered self code s).
Proof. unfold Direct.log_message. run_send_response s. Qed.

Lemma docker_send_response {G : Type} (self : request) (code : Z)
    (s : Sys G) :
  send_response Docker.log_message self code s
  = (Ok [server_header; date_header (world s)], answered self code s).
Proof. unfold Docker.log_message. run_send_response s. Qed.

Lemma polling_send_response (self : request) (code : Z)
    (s : Sys Polling.G) :
  send_response Polling.log_message self code s
  = (Ok [server_header; date_header (world s)], answered self code s).
Proof. unfold Polling.log_message. run_send_response s. Qed.

(** The answer of the polling script, from the pair it has read. *)
Lemma polling_respond (self : request) (b : bool) (lc : pyval pyfloat)
    (s : Sys Polling.G) :
  Polling.respond self b lc s
  = (Ok (polling_reply (world s) b lc), answered self (health_code b) s).
Proof.
  unfold Polling.respond, bind.
  destruct b; rewrite polling_send_response; reflexivity.
Qed.

Lemma polling_do_GET_health (addr : string * Z) (line : string)
    (s : Sys Polling.G) :
  Polling.do_GET (Request addr line "/health") s
  = (Ok (polling_reply (world s) (Polling.is_running (globals s))
           (Polling.last_check (globals s))),
      answered (Request addr line "/health")
        (health_code (Polling.is_running (globals s))) s).
Proof.
  unfold Polling.do_GET. cbn [path String.eqb Ascii.eqb Bool.eqb].
  unfold bind, get. apply polling_respond.
Qed.

Lemma polling_do_GET_other (self : request) (s : Sys Polling.G) :
  path self <> "/health" ->
  Polling.do_GET self s
  = (Ok (not_found_reply (world s)), answered self 404 s).
Proof.
  intros Hpath. apply String.eqb_neq in Hpath.
  unfold Polling.do_GET. rewrite Hpath. unfold bind.
  rewrite polling_send_response. reflexivity.
Qed.
End Answers.

(** ** The probers *)

Ltac run_probe s :=
  cbv beta delta [try_except bind run ret eprint lift];
  destruct (subprocess_run _ (world s)) as [[p | [cls msg]] w];
  cbn -[String.eqb] in *.

Section Probers.
Context `{Host}.

Lemma direct_probe {G : Type} (name : string) (s : Sys G) :
  absorbed (fst (subprocess_run (pgrep_argv name) (world s))) ->
  fst (Direct.is_minecraft_running name s)
  = Ok (pgrep_reports_running
          (fst (subprocess_run (pgrep_argv name) (world s)))).
Proof.
  unfold Direct.is_minecraft_running, pgrep_argv.
  run_probe s; [reflexivity |].
  intros Hexn. destruct cls; try discriminate; reflexivity.
Qed.

Lemma docker_probe {G : Type} (name : string) (s : Sys G) :
  absorbed (fst (subprocess_run (docker_ps_argv name) (world s))) ->
  fst (Docker.is_minecraft_running name s)
  = Ok (docker_reports_running
          (fst (subprocess_run (docker_ps_argv name) (world s)))).
Proof.
  unfold Docker.is_minecraft_running, docker_ps_argv.
  run_probe s.
  - destruct (returncode p =? 0)%Z; reflexivity.
  - intros Hexn. destruct cls; try discriminate; reflexivity.
Qed.

(** A probe leaves the world as its child process has left it. *)
Lemma direct_probe_world {G : Type} (name : string) (s : Sys G) :
  world (snd (Direct.is_minecraft_running name s))
  = snd (subprocess_run (pgrep_argv name) (world s)).
Proof.
  unfold Direct.is_minecraft_running, pgrep_argv.
  run_probe s; [reflexivity |]. destruct cls; reflexivity.
Qed.

Lemma docker_probe_world {G : Type} (name : string) (s : Sys G) :
  world (snd (Docker.is_minecraft_running name s))
  = snd (subprocess_run (docker_ps_argv name) (world s)).
Proof.
  unfold Docker.is_minecraft_running, docker_ps_argv.
  run_probe s.
  - destruct (returncode p =? 0)%Z; reflexivity.
  - destruct cls; reflexivity.
Qed.

Lemma polling_probe (name : string) (s : Sys Polling.G) :
  absorbed (fst (subprocess_run (pgrep_argv name) (world s))) ->
  fst (Polling.check_minecraft_process name s)
  = Ok (pgrep_reports_running
          (fst (subprocess_run (pgrep_argv name) (world s)))).
Proof.
  unfold Polling.check_minecraft_process, pgrep_argv.
  run_probe s; [reflexivity |].
  intros Hexn. destruct cls; try discriminate; reflexivity.
Qed.
End Probers.

(** C3. A probe answers [True] exactly when its mechanism reports the
    target as running: for the two process variants, when [pgrep -f] on
    the configured pattern exits with 0; for the container variant, when
    [docker ps] succeeds and the status it prints, stripped, begins with
    [Up]. Every other outcome that is no interrupt (no match, another
    exit code, a timeout, a missing executable, any other error) makes
    the probe answer [False]. *)
Theorem probe_true_iff_mechanism_reports_running :
  forall (H : Host) (G : Type) (name : string) (s : Sys G)
         (sp : Sys Polling.G),
    (absorbed (fst (subprocess_run (pgrep_argv name) (world s))) ->
     fst (Direct.is_minecraft_running name s)
     = Ok (pgrep_reports_running
             (fst (subprocess_run (pgrep_argv name) (world s)))))
    /\ (absorbed (fst (subprocess_run (docker_ps_argv name) (world s))) ->
        fst (Docker.is_minecraft_running name s)
        = Ok (docker_reports_running
                (fst (subprocess_run (docker_ps_argv name) (world s)))))
    /\ (absorbed (fst (subprocess_run (pgrep_argv name) (world sp))) ->
        fst (Polling.check_minecraft_process name sp)
        = Ok (pgrep_reports_running
                (fst (subprocess_run (pgrep_argv name) (world sp))))).
Proof.
  intros H G name s sp. split; [| split].
  - apply direct_probe.
  - apply docker_probe.
  - apply polling_probe.
Qed.

(** The status [Up 2 hours] of the container [paper] makes the probe
    answer [True]; an exit code of 1 of [pgrep] makes it answer [False]. *)
Lemma probe_true_iff_mechanism_reports_running_witness :
  fst (@Docker.is_minecraft_running Hosts.scripted_host unit "paper"
         (Hosts.boot [Hosts.done 0 ("Up 2 hours" ++ String LF EmptyString)]
            tt))
  = Ok true
  /\ fst (@Direct.is_minecraft_running Hosts.scripted_host unit
            "bedrock_server" (Hosts.boot [Hosts.done 1 EmptyString] tt))
     = Ok false.
Proof.
  split.
  - apply (proj1 (proj2 (probe_true_iff_mechanism_reports_running
                           Hosts.scripted_host unit "paper"
                           (Hosts.boot
                              [Hosts.done 0
                                 ("Up 2 hours" ++ String LF EmptyString)] tt)
                           (Hosts.boot [] Polling.minecraft_status)))).
    exact I.
  - apply (proj1 (probe_true_iff_mechanism_reports_running
                    Hosts.scripted_host unit "bedrock_server"
                    (Hosts.boot [Hosts.done 1 EmptyString] tt)
                    (Hosts.boot [] Polling.minecraft_status))).
    exact I.
Defined.

(** ** The checker loop *)


Lemma sleep_refuses `{Host} {G : Type} (n : Z) (s : Sys G) :
  (n < 0 \/ 9223372037 <= n)%Z ->
  sleep n s
  = (Raise (if ((-9223372037 <? n) && (n <? 0))%Z
            then Exn ValueError "sleep length must be non-negative"
            else Exn OverflowError
                   "timestamp too large to convert to C _PyTime_t"), s).
Proof.
  intros Hn. unfold sleep, raise.
  destruct (n <=? -9223372037)%Z eqn:Hlo;
    destruct (9223372037 <=? n)%Z eqn:Hhi;
    destruct (-9223372037 <? n)%Z eqn:Hlo';
    destruct (n <? 0)%Z eqn:Hneg; cbn; try reflexivity; lia.
Qed.

Section Checker.
Context `{Host}.
Variable name : string.
Variable interval : Z.

(** The probe leaves [minecraft_status] alone, and returns unless an
    interrupt cuts it short. *)
Lemma check_keeps_globals (s : Sys Polling.G) :
  globals (snd (Polling.check_minecraft_process name s)) = globals s.
Proof.
  unfold Polling.check_minecraft_process.
  run_probe s; [reflexivity |].
  destruct (is_Exception cls); reflexivity.
Qed.



End Checker.

(** ** The threads *)

Section Threads.
Context `{Host}.
Variable name : string.
Variable interval : Z.

Lemma probe_globals (s s' : Sys Polling.G) (r : result bool) :
  Polling.check_minecraft_process name s = (r, s') -> globals s' = globals s.
Proof.
  intros Heq. rewrite <- (check_keeps_globals name s), Heq. reflexivity.
Qed.

Lemma sleep_globals (s s' : Sys Polling.G) (r : result unit) :
  sleep interval s = (r, s') -> globals s' = globals s.
Proof.
  unfold sleep, raise.
  destruct (_ || _)%bool; [intros [= _ <-]; reflexivity |].
  destruct (interval <? 0)%Z; intros [= _ <-]; reflexivity.
Qed.

Lemma respond_globals (self : request) (b : bool) (lc : pyval pyfloat)
    (s s' : Sys Polling.G) (r : response) :
  Polling.respond self b lc s = (Ok r, s') ->
  globals s' = globals s /\ r = polling_reply (world s) b lc.
Proof.
  rewrite polling_respond. intros [= <- <-]. split; reflexivity.
Qed.

Lemma set_check_globals (s s' : Sys Polling.G) :
  (t <- now ;; Polling.set_last_check (PFloat t)) s = (Ok tt, s') ->
  exists t,
    globals s' = Polling.Status (Polling.is_running (globals s)) (PFloat t).
Proof.
  unfold bind, now, Polling.set_last_check, get, put. cbn.
  destruct (time_time (world s)) as [t w]. cbn.
  intros [= <-]. exists t. reflexivity.
Qed.

Lemma set_handler_cases i pc hs j :
  (j = i /\ Polling.set_handler i pc hs j = pc)
  \/ (j <> i /\ Polling.set_handler i pc hs j = hs j).
Proof.
  unfold Polling.set_handler. destruct (Nat.eqb_spec j i); auto.
Qed.

Lemma invariant_init (s : Sys Polling.G) : invariant (Polling.init s).
Proof.
  constructor; cbn; try discriminate; try reflexivity.
  - split; discriminate.
  - intros i. split; discriminate.
Qed.

Ltac split_handler :=
  match goal with
  | H : context [Polling.set_handler ?i ?pc ?hs ?j] |- _ =>
      let Heq := fresh "Heq" in
      let Hset := fresh "Hset" in
      destruct (set_handler_cases i pc hs j) as [[Heq Hset] | [Heq Hset]];
      rewrite Hset in *; clear Hset
  | |- context [Polling.set_handler ?i ?pc ?hs ?j] =>
      let Heq := fresh "Heq" in
      let Hset := fresh "Hset" in
      destruct (set_handler_cases i pc hs j) as [[Heq Hset] | [Heq Hset]];
      rewrite Hset in *; clear Hset
  end.

(** While the lock is free or the checker has it, no handler is inside
    its [with] block; while it is free or a handler has it, the checker
    is not inside its own. *)
Lemma handlers_outside (st : Polling.threads) :
  invariant st ->
  (forall i, Polling.status_lock st <> Some (Polling.Handler i)) ->
  forall i, Polling.handler_in_with (Polling.handlers st i) = false.
Proof.
  intros Hinv Hl i.
  destruct (Polling.handler_in_with (Polling.handlers st i)) eqn:Hin; auto.
  apply (inv_handler_lock st Hinv) in Hin. elim (Hl i Hin).
Qed.

Lemma checker_outside (st : Polling.threads) :
  invariant st ->
  Polling.status_lock st <> Some Polling.Checker ->
  Polling.checker_in_with (Polling.checker st) = false.
Proof.
  intros Hinv Hl.
  destruct (Polling.checker_in_with (Polling.checker st)) eqn:Hin; auto.
  apply (inv_checker_lock st Hinv) in Hin. elim (Hl Hin).
Qed.

(** The lock of a handler that moves on inside or outside its block. *)
Ltac lock_iff Hhl :=
  let j := fresh "j" in
  intros j; split_handler; [subst j | apply Hhl];
  match goal with
  | Hpc : ?hs ?i = _ |- context [Polling.Handler ?i] =>
      specialize (Hhl i); rewrite Hpc in Hhl; cbn in *; tauto
  end.

Lemma invariant_step (st st' : Polling.threads) :
  invariant st -> Polling.step name interval st st' -> invariant st'.
Proof.
  intros Hinv Hstep.
  pose proof (handlers_outside st Hinv) as Hout.
  pose proof (checker_outside st Hinv) as Hcout.
  destruct Hinv as [Hcl Hhl Hst Hrr Hrc Hrp Hrd].
  inversion Hstep; subst; cbn in *.
  all: try match goal with
       | Hp : Polling.check_minecraft_process _ _ = _ |- _ =>
           rewrite <- (probe_globals _ _ _ Hp) in *
       | Hp : sleep _ _ = _ |- _ => rewrite <- (sleep_globals _ _ _ Hp) in *
       | Hp : Polling.respond _ _ _ _ = _ |- _ =>
           apply respond_globals in Hp; destruct Hp as [Hp ->];
           rewrite <- Hp in *
       end.
  all: constructor; cbn; auto.
  all: try solve [ tauto | split; discriminate
                 | intros _; apply Hst; discriminate
                 | intros; split_handler; solve [congruence | eauto] ].
  - (* the checker takes the lock *)
    intros i. rewrite Hout by discriminate. split; discriminate.
  - (* is_running is assigned: no handler is reading *)
    assert (Hl : l = Some Polling.Checker) by (apply Hcl; reflexivity).
    intros i b0 Hpc. specialize (Hout ltac:(congruence) i).
    rewrite Hpc in Hout. discriminate.
  - assert (Hl : l = Some Polling.Checker) by (apply Hcl; reflexivity).
    intros i b0 lc Hpc. specialize (Hout ltac:(congruence) i).
    rewrite Hpc in Hout. discriminate.
  - (* last_check is assigned *)
    assert (Hl : l = Some Polling.Checker) by (apply Hcl; reflexivity).
    intros i b0 Hpc. specialize (Hout ltac:(congruence) i).
    rewrite Hpc in Hout. discriminate.
  - assert (Hl : l = Some Polling.Checker) by (apply Hcl; reflexivity).
    intros i b0 lc Hpc. specialize (Hout ltac:(congruence) i).
    rewrite Hpc in Hout. discriminate.
  - intros i b0 lc Hpc. right. eauto.
  - intros i r Hpc. destruct (Hrd i r Hpc) as [d [w [Hd Hr]]].
    exists d, w. split; [right |]; assumption.
  - (* the checker gives the lock back *)
    assert (Hl : l = Some Polling.Checker) by (apply Hcl; reflexivity).
    intros i. rewrite Hout by congruence. split; discriminate.
  - (* a handler takes the lock *)
    rewrite Hcout by discriminate. split; discriminate.
  - intros j. split_handler; [subst j; tauto |].
    rewrite Hout by discriminate.
    split; [intros [= ->]; congruence | discriminate].
  - (* a handler reads is_running *)
    lock_iff Hhl.
  - (* a handler reads last_check *)
    lock_iff Hhl.
  - intros j b0 lc Hpc. split_handler; [| eauto].
    injection Hpc as <- <-.
    match goal with Hi : hs i = _ |- _ => rewrite <- (Hrr i b Hi) end.
    destruct (globals s). reflexivity.
  - (* a handler gives the lock back *)
    assert (Hl : l = Some (Polling.Handler i)).
    { apply Hhl. match goal with Hi : hs i = _ |- _ => rewrite Hi end.
      reflexivity. }
    rewrite Hcout by congruence. split; discriminate.
  - assert (Hl : l = Some (Polling.Handler i)).
    { apply Hhl. match goal with Hi : hs i = _ |- _ => rewrite Hi end.
      reflexivity. }
    intros j. split_handler; [split; discriminate |].
    destruct (Polling.handler_in_with (hs j)) eqn:Hin;
      [| split; discriminate].
    apply Hhl in Hin. congruence.
  - assert (Hl : l = Some (Polling.Handler i)).
    { apply Hhl. match goal with Hi : hs i = _ |- _ => rewrite Hi end.
      reflexivity. }
    intros j b0 lc0 Hpc. split_handler; [| eauto].
    injection Hpc as <- <-.
    match goal with Hi : hs i = _ |- _ => rewrite <- (Hrc i b lc Hi) end.
    assert (Hc : c <> Polling.AtSetCheck).
    { intros ->. cbn in Hcout. specialize (Hcout ltac:(congruence)).
      discriminate. }
    specialize (Hst Hc). destruct ws as [| d ws]; [discriminate |].
    injection Hst as ->. left. reflexivity.
  - (* a handler answers *)
    lock_iff Hhl.
  - intros j r Hpc. split_handler; [| eauto].
    injection Hpc as <-. exists (Polling.Status b lc), (world s).
    split; [eauto | reflexivity].
  - (* a handler takes the next request *)
    lock_iff Hhl.
Qed.

Lemma invariant_reachable (st : Polling.threads) :
  Polling.reachable name interval st -> invariant st.
Proof.
  induction 1 as [s | st st' _ IH Hstep].
  - apply invariant_init.
  - exact (invariant_step _ _ IH Hstep).
Qed.

Lemma set_running_globals (b : bool) (s s' : Sys Polling.G) :
  Polling.set_is_running b s = (Ok tt, s') ->
  globals s' = Polling.Status b (Polling.last_check (globals s)).
Proof.
  unfold Polling.set_is_running, bind, get, put. cbn.
  intros [= <-]. reflexivity.
Qed.

Lemma history_reachable (st : Polling.threads) :
  Polling.reachable name interval st -> history st.
Proof.
  induction 1 as [s | st st' _ [[ws0 [Hws Hall]] [d [Hd Hlc]]] Hstep].
  - constructor; cbn.
    + exists []. split; [reflexivity | constructor].
    + exists Polling.minecraft_status. split; reflexivity.
  - inversion Hstep; subst; cbn in Hws, Hd, Hlc.
    all: try match goal with
         | Hp : Polling.check_minecraft_process _ _ = _ |- _ =>
             rewrite <- (probe_globals _ _ _ Hp) in *
         | Hp : sleep _ _ = _ |- _ =>
             rewrite <- (sleep_globals _ _ _ Hp) in *
         | Hp : Polling.respond _ _ _ _ = _ |- _ =>
             apply respond_globals in Hp; destruct Hp as [Hp _];
             rewrite <- Hp in *
         end.
    all: try solve [constructor; cbn; eauto].
    + (* is_running is assigned *)
      match goal with
      | Hs : Polling.set_is_running _ _ = _ |- _ =>
          apply set_running_globals in Hs
      end.
      constructor; cbn; [eauto |].
      exists d. split; [assumption |].
      match goal with Hs : globals _ = _ |- _ => rewrite Hs end.
      assumption.
    + (* last_check is assigned *)
      match goal with
      | Hs : bind _ _ _ = _ |- _ =>
          apply set_check_globals in Hs; destruct Hs as [t Hs]
      end.
      constructor; cbn.
      * exists (globals s' :: ws0). rewrite Hws. split; [reflexivity |].
        constructor; [| assumption]. exists t.
        match goal with Hs : globals _ = _ |- _ => rewrite Hs end.
        reflexivity.
      * exists (globals s'). split; reflexivity.
Qed.


End Threads.

(** C1. Whatever the scheduler does, a handler answers from a pair
    ([is_running], [last_check]) that one completed turn of the checker
    has left in the dictionary (or from its first value): when the
    handler finishes reading, its pair is the dictionary as the latest
    completed turn left it, never fields of two turns. The checker holds
    [status_lock] exactly on the lines of the two assignments, so not
    while it probes. *)
Theorem reads_are_never_torn :
  forall (H : Host) (name : string) (interval : Z) (st : Polling.threads),
    Polling.reachable name interval st ->
    (forall i b lc,
        Polling.handlers st i = Polling.AtExit b lc ->
        hd_error (Polling.written st) = Some (Polling.Status b lc))
    /\ (forall i b lc,
           Polling.handlers st i = Polling.AtRespond b lc ->
           In (Polling.Status b lc) (Polling.written st))
    /\ (forall i r,
           Polling.handlers st i = Polling.Responded r ->
           exists d w,
             In d (Polling.written st)
             /\ r = polling_reply w (Polling.is_running d)
                      (Polling.last_check d))
    /\ (Polling.status_lock st = Some Polling.Checker
        <-> Polling.checker_in_with (Polling.checker st) = true)
    /\ (Polling.checker st = Polling.AtProbe ->
        Polling.status_lock st <> Some Polling.Checker).
Proof.
  intros H name interval st Hreach.
  pose proof (invariant_reachable name interval st Hreach) as Hinv.
  pose proof (checker_outside st Hinv) as Hcout.
  destruct Hinv as [Hcl Hhl Hst Hrr Hrc Hrp Hrd].
  repeat split; auto.
  - intros i b lc Hpc. rewrite <- (Hrc i b lc Hpc). apply Hst.
    intros Hc.
    assert (Hl : Polling.status_lock st = Some (Polling.Handler i)).
    { apply Hhl. rewrite Hpc. reflexivity. }
    rewrite Hc in Hcout. cbn in Hcout.
    assert (true = false) by (apply Hcout; congruence). discriminate.
  - apply Hcl.
  - apply Hcl.
  - intros Hpc Hl. apply Hcl in Hl. rewrite Hpc in Hl. discriminate.
Qed.

(** Two runs of the threads on [Hosts.scripted_host]. *)
Lemma before_first_turn_reachable :
  @Polling.reachable Hosts.scripted_host "bedrock_server" 5
    Hosts.before_first_turn.
Proof.
  pose proof (@Polling.reach_init Hosts.scripted_host "bedrock_server" 5
                (Hosts.boot [Hosts.done 0 "4242"]
                   (@Polling.minecraft_status Hosts.scripted_host))) as R.
  eapply Polling.reach_step in R;
    [| eapply (Polling.step_enter _ _ _ _ _ _ 0%nat); reflexivity].
  eapply Polling.reach_step in R;
    [| eapply (Polling.step_read_running _ _ _ _ _ _ _ 0%nat); reflexivity].
  eapply Polling.reach_step in R;
    [| eapply (Polling.step_read_check _ _ _ _ _ _ _ 0%nat); reflexivity].
  eapply Polling.reach_step in R;
    [| eapply (Polling.step_exit _ _ _ _ _ _ _ 0%nat); reflexivity].
  eapply Polling.reach_step in R;
    [| eapply (Polling.step_respond _ _ _ _ _ _ _ 0%nat _ _
                 Hosts.health_request); reflexivity].
  exact R.
Qed.

Lemma after_one_turn_reachable :
  @Polling.reachable Hosts.scripted_host "bedrock_server" 5
    Hosts.after_one_turn.
Proof.
  pose proof (@Polling.reach_init Hosts.scripted_host "bedrock_server" 5
                (Hosts.boot [Hosts.done 0 "4242"]
                   (@Polling.minecraft_status Hosts.scripted_host))) as R.
  eapply Polling.reach_step in R;
    [| eapply Polling.step_probe; reflexivity].
  eapply Polling.reach_step in R; [| eapply Polling.step_acquire].
  eapply Polling.reach_step in R;
    [| eapply Polling.step_set_running; reflexivity].
  eapply Polling.reach_step in R;
    [| eapply Polling.step_set_check; reflexivity].
  eapply Polling.reach_step in R; [| eapply Polling.step_release].
  eapply Polling.reach_step in R;
    [| eapply (Polling.step_enter _ _ _ _ _ _ 0%nat); reflexivity].
  eapply Polling.reach_step in R;
    [| eapply (Polling.step_read_running _ _ _ _ _ _ _ 0%nat); reflexivity].
  eapply Polling.reach_step in R;
    [| eapply (Polling.step_read_check _ _ _ _ _ _ _ 0%nat); reflexivity].
  eapply Polling.reach_step in R;
    [| eapply (Polling.step_exit _ _ _ _ _ _ _ 0%nat); reflexivity].
  exact R.
Qed.

(** After one turn of the checker, handler 0 answers from the pair that
    this turn has written, and the checker, asleep, does not hold the
    lock. *)
Lemma reads_are_never_torn_witness :
  In (Polling.Status true (PFloat 1700000000%Z))
     (Polling.written Hosts.after_one_turn)
  /\ (Polling.status_lock Hosts.after_one_turn = Some Polling.Checker
      <-> false = true).
Proof.
  pose proof (reads_are_never_torn Hosts.scripted_host "bedrock_server" 5
                Hosts.after_one_turn after_one_turn_reachable)
    as [_ [Hrespond [_ [Hlock _]]]].
  split.
  - apply (Hrespond 0%nat). reflexivity.
  - exact Hlock.
Defined.

(** ** Answers to [/health] *)

Section Health.
Context `{Host}.

(** The text of the answer is [str()] of the dictionary [response]. *)
Lemma polling_body_str (b : bool) (lc : pyval pyfloat) :
  str_dict float_repr (Polling.response_dict b lc) = polling_body b lc.
Proof. destruct b; reflexivity. Qed.

Lemma polling_body_not_json (b : bool) (lc : pyval pyfloat) :
  Json.is_json (str_dict float_repr (Polling.response_dict b lc)) = false.
Proof. destruct b; reflexivity. Qed.

Lemma direct_do_GET_health {G : Type} (name : string) (addr : string * Z)
    (line : string) (s s' : Sys G) (up : bool) :
  Direct.is_minecraft_running name s = (Ok up, s') ->
  Direct.do_GET name (Request addr line "/health") s
  = (Ok (health_reply (world s') up),
      answered (Request addr line "/health") (health_code up) s').
Proof.
  intros Hup. unfold Direct.do_GET. cbn [path String.eqb Ascii.eqb Bool.eqb].
  unfold bind at 1. rewrite Hup.
  destruct up; unfold bind; rewrite direct_send_response; reflexivity.
Qed.

Lemma docker_do_GET_health {G : Type} (name : string) (addr : string * Z)
    (line : string) (s s' : Sys G) (up : bool) :
  Docker.is_minecraft_running name s = (Ok up, s') ->
  Docker.do_GET name (Request addr line "/health") s
  = (Ok (health_reply (world s') up),
      answered (Request addr line "/health") (health_code up) s').
Proof.
  intros Hup. unfold Docker.do_GET. cbn [path String.eqb Ascii.eqb Bool.eqb].
  unfold bind at 1. rewrite Hup.
  destruct up; unfold bind; rewrite docker_send_response; reflexivity.
Qed.

Lemma direct_do_GET_health_raise {G : Type} (name : string)
    (addr : string * Z) (line : string) (s s' : Sys G) (e : exn) :
  Direct.is_minecraft_running name s = (Raise e, s') ->
  Direct.do_GET name (Request addr line "/health") s = (Raise e, s').
Proof.
  intros Hup. unfold Direct.do_GET. cbn [path String.eqb Ascii.eqb Bool.eqb].
  unfold bind at 1. rewrite Hup. reflexivity.
Qed.

Lemma docker_do_GET_health_raise {G : Type} (name : string)
    (addr : string * Z) (line : string) (s s' : Sys G) (e : exn) :
  Docker.is_minecraft_running name s = (Raise e, s') ->
  Docker.do_GET name (Request addr line "/health") s = (Raise e, s').
Proof.
  intros Hup. unfold Docker.do_GET. cbn [path String.eqb Ascii.eqb Bool.eqb].
  unfold bind at 1. rewrite Hup. reflexivity.
Qed.
End Health.

(** C2. A GET of [/health] is answered 200 with the body
    [{"status":"ok","minecraft":"running"}] when the liveness
    determination is up, and 503 with the body
    [{"status":"error","minecraft":"not_running"}] when it is down, in
    the two scripts that probe on request. The polling script answers
    200 or 503 by the stored [is_running], and its body is the text
    [{'status': 'ok', 'minecraft': 'running', 'last_check': ...}],
    respectively
    [{'status': 'error', 'minecraft': 'not_running', 'last_check': ...}],
    with the stored [last_check] in the place of the dots. Every answer
    has the headers [Server], [Date] and [Content-Type], and leaves one
    line on standard output. No answer to [/health] has another
    status. *)
Theorem health_answers_200_or_503 :
  forall (H : Host) (G : Type) (name : string) (addr : string * Z)
         (line : string) (s : Sys G) (sp : Sys Polling.G),
    (forall up s',
        Direct.is_minecraft_running name s = (Ok up, s') ->
        Direct.do_GET name (Request addr line "/health") s
        = (Ok (Response (if up then 200 else 503)
                 [server_header; date_header (world s');
                  ("Content-Type", "application/json")]
                 (if up then body_running else body_not_running)),
            answered (Request addr line "/health")
              (if up then 200 else 503) s'))
    /\ (forall up s',
           Docker.is_minecraft_running name s = (Ok up, s') ->
           Docker.do_GET name (Request addr line "/health") s
           = (Ok (Response (if up then 200 else 503)
                    [server_header; date_header (world s');
                     ("Content-Type", "application/json")]
                    (if up then body_running else body_not_running)),
               answered (Request addr line "/health")
                 (if up then 200 else 503) s'))
    /\ Polling.do_GET (Request addr line "/health") sp
       = (Ok (Response
                (if Polling.is_running (globals sp) then 200 else 503)
                [server_header; date_header (world sp);
                 ("Content-Type", "application/json")]
                ((if Polling.is_running (globals sp)
                  then "{'status': 'ok', 'minecraft': 'running', 'last_check': "
                  else "{'status': 'error', 'minecraft': 'not_running', 'last_check': ")
                   ++ repr float_repr (Polling.last_check (globals sp))
                   ++ "}")),
           answered (Request addr line "/health")
             (if Polling.is_running (globals sp) then 200 else 503) sp)
    /\ (forall r s',
           Direct.do_GET name (Request addr line "/health") s = (Ok r, s')
           \/ Docker.do_GET name (Request addr line "/health") s = (Ok r, s') ->
           status r = 200%Z \/ status r = 503%Z)
    /\ (forall r sp',
           Polling.do_GET (Request addr line "/health") sp = (Ok r, sp') ->
           status r = 200%Z \/ status r = 503%Z).
Proof.
  intros H G name addr line s sp. split; [| split; [| split; [| split]]].
  - intros up s' Hup. rewrite (direct_do_GET_health name addr line s s' up Hup).
    destruct up; reflexivity.
  - intros up s' Hup. rewrite (docker_do_GET_health name addr line s s' up Hup).
    destruct up; reflexivity.
  - rewrite polling_do_GET_health.
    destruct (Polling.is_running (globals sp)); reflexivity.
  - intros r s' [Hget | Hget].
    + destruct (Direct.is_minecraft_running name s) as [[up | e] s1] eqn:Hup.
      * rewrite (direct_do_GET_health name addr line s s1 up Hup) in Hget.
        injection Hget as <- _. destruct up; cbn; auto.
      * rewrite (direct_do_GET_health_raise name addr line s s1 e Hup)
          in Hget.
        discriminate.
    + destruct (Docker.is_minecraft_running name s) as [[up | e] s1] eqn:Hup.
      * rewrite (docker_do_GET_health name addr line s s1 up Hup) in Hget.
        injection Hget as <- _. destruct up; cbn; auto.
      * rewrite (docker_do_GET_health_raise name addr line s s1 e Hup)
          in Hget.
        discriminate.
  - intros r sp'. rewrite polling_do_GET_health. intros [= <- _].
    destruct (Polling.is_running (globals sp)); cbn; auto.
Qed.

(** [pgrep] finds the process: 200 and the running body; [docker ps]
    prints nothing: 503 and the not-running body; the dictionary holds
    the result of a turn: 200 and the text with its time. *)
Lemma health_answers_200_or_503_witness :
  fst (@Direct.do_GET Hosts.scripted_host unit "bedrock_server"
         Hosts.health_request (Hosts.boot [Hosts.done 0 "4242"] tt))
  = Ok (Response 200
          [("Server", "BaseHTTP/0.6 Python/3.11.2");
           ("Date", "Tue, 14 Nov 2023 22:13:20 GMT");
           ("Content-Type", "application/json")]
          body_running)
  /\ fst (@Docker.do_GET Hosts.scripted_host unit "paper"
            Hosts.health_request (Hosts.boot [Hosts.done 0 EmptyString] tt))
     = Ok (Response 503
             [("Server", "BaseHTTP/0.6 Python/3.11.2");
              ("Date", "Tue, 14 Nov 2023 22:13:20 GMT");
              ("Content-Type", "application/json")]
             body_not_running)
  /\ @Polling.do_GET Hosts.scripted_host Hosts.health_request
       (Hosts.boot [] (Polling.Status true (PFloat 1700000000%Z)))
     = (Ok (Response 200
              [("Server", "BaseHTTP/0.6 Python/3.11.2");
               ("Date", "Tue, 14 Nov 2023 22:13:20 GMT");
               ("Content-Type", "application/json")]
              "{'status': 'ok', 'minecraft': 'running', 'last_check': 1700000000.0}"),
         @MkSys Hosts.scripted_host _
           (Hosts.Scripted [] 1700000001 (Ok tt)
              (Exn KeyboardInterrupt EmptyString))
           [Printed Stdout
              ("127.0.0.1 - " ++ dq "GET /health HTTP/1.1" ++ " 200 -")]
           (Polling.Status true (PFloat 1700000000%Z))).
Proof.
  pose proof (health_answers_200_or_503 Hosts.scripted_host unit
                "bedrock_server" ("127.0.0.1", 50000%Z) "GET /health HTTP/1.1"
                (Hosts.boot [Hosts.done 0 "4242"] tt)
                (Hosts.boot [] (Polling.Status true (PFloat 1700000000%Z))))
    as [Hdirect [_ [Hpolling _]]].
  pose proof (health_answers_200_or_503 Hosts.scripted_host unit
                "paper" ("127.0.0.1", 50000%Z) "GET /health HTTP/1.1"
                (Hosts.boot [Hosts.done 0 EmptyString] tt)
                (Hosts.boot [] Polling.minecraft_status)) as [_ [Hdocker _]].
  split; [| split].
  - specialize (Hdirect true _ eq_refl).
    exact (f_equal fst Hdirect).
  - specialize (Hdocker false _ eq_refl).
    exact (f_equal fst Hdocker).
  - exact Hpolling.
Defined.

(** C5. While the dictionary still has the value it was created with,
    [/health] is answered as for a process that is not running: 503 with
    the not-running payload. So is every request that a handler answers
    before the checker has completed its first turn. *)
Theorem unchecked_store_answers_503 :
  forall (H : Host) (name : string) (interval : Z),
    (forall addr line w tr,
        Polling.do_GET (Request addr line "/health")
          (MkSys w tr Polling.minecraft_status)
        = (Ok (Response 503
                 [server_header; date_header w;
                  ("Content-Type", "application/json")]
                 "{'status': 'error', 'minecraft': 'not_running', 'last_check': None}"),
            answered (Request addr line "/health") 503
              (MkSys w tr Polling.minecraft_status)))
    /\ (forall st,
           Polling.reachable name interval st ->
           Polling.written st = [Polling.minecraft_status] ->
           forall i r,
             Polling.handlers st i = Polling.Responded r ->
             exists w, r = unchecked_reply w).
Proof.
  intros H name interval. split.
  - intros addr line w tr. rewrite polling_do_GET_health. reflexivity.
  - intros st Hreach Hfirst i r Hpc.
    destruct (inv_responded st (invariant_reachable name interval st Hreach)
                i r Hpc) as [d [w [Hd ->]]].
    rewrite Hfirst in Hd. destruct Hd as [<- | []]. exists w. reflexivity.
Qed.

(** Handler 0 has answered before the checker has probed. *)
Lemma unchecked_store_answers_503_witness :
  exists w, Hosts.early_answer = @unchecked_reply Hosts.scripted_host w.
Proof.
  apply (proj2 (unchecked_store_answers_503 Hosts.scripted_host
                  "bedrock_server" 5)
           Hosts.before_first_turn before_first_turn_reachable
           eq_refl 0%nat).
  reflexivity.
Defined.

(** C8. The body of an answer to [/health] of the polling script is
    [str()] of the dictionary [response], not the output of a JSON
    encoder, and it is no JSON text: not for the value the dictionary
    [minecraft_status] starts with, which is reachable, and in fact for
    none. The bodies of the other two scripts are JSON texts. *)
Theorem polling_body_is_str_of_dict_not_json :
  forall (H : Host) (name : string) (interval : Z) (s : Sys Polling.G),
    (forall addr line (sp : Sys Polling.G),
        exists code,
          Polling.do_GET (Request addr line "/health") sp
          = (Ok (Response code
                   [server_header; date_header (world sp);
                    ("Content-Type", "application/json")]
                   (str_dict float_repr
                      (Polling.response_dict
                         (Polling.is_running (globals sp))
                         (Polling.last_check (globals sp))))),
              answered (Request addr line "/health") code sp))
    /\ (exists st addr line r sp',
           Polling.reachable name interval st
           /\ Polling.do_GET (Request addr line "/health") (Polling.sys st)
              = (Ok r, sp')
           /\ Json.is_json (body r) = false)
    /\ (forall self b lc (sp : Sys Polling.G),
           exists r,
             fst (Polling.respond self b lc sp) = Ok r
             /\ body r = str_dict float_repr (Polling.response_dict b lc)
             /\ Json.is_json (body r) = false)
    /\ Json.is_json body_running = true
    /\ Json.is_json body_not_running = true.
Proof.
  intros H name interval s. split; [| split; [| split; [| split]]].
  - intros addr line sp. rewrite polling_do_GET_health.
    exists (health_code (Polling.is_running (globals sp))).
    unfold polling_reply. rewrite <- polling_body_str. reflexivity.
  - exists (Polling.init s), ("127.0.0.1", 50000%Z), "GET /health HTTP/1.1".
    do 2 eexists. split; [apply Polling.reach_init |].
    split; [apply polling_do_GET_health | reflexivity].
  - intros self b lc sp. rewrite polling_respond. eexists.
    split; [reflexivity |]. cbn [body polling_reply].
    rewrite <- polling_body_str. split; [reflexivity |].
    apply polling_body_not_json.
  - reflexivity.
  - reflexivity.
Qed.

(** C10. Every answer of the polling script to [/health], 200 or 503,
    carries the entry [last_check], with the value [do_GET] has read
    from the dictionary: written [None] for [None] and as the float for
    a time stamp. In the dictionary the value is [None] as long as the
    checker has not completed a turn, and a time stamp from then on; a
    handler reads what the dictionary holds at that moment, and what it
    answers carries the [last_check] of the initial value or of one
    completed turn. *)
Theorem last_check_in_every_health_body :
  forall (H : Host) (name : string) (interval : Z),
    (forall addr line (sp : Sys Polling.G),
        exists r,
          fst (Polling.do_GET (Request addr line "/health") sp) = Ok r
          /\ body r
             = ((if Polling.is_running (globals sp)
                 then "{'status': 'ok', 'minecraft': 'running', 'last_check': "
                 else "{'status': 'error', 'minecraft': 'not_running', 'last_check': ")
                  ++ repr float_repr (Polling.last_check (globals sp))
                  ++ "}"))
    /\ (repr float_repr PNone = "None"
        /\ forall t, repr float_repr (PFloat t) = float_repr t)
    /\ (forall st,
           Polling.reachable name interval st ->
           (Polling.written st = [Polling.minecraft_status] ->
            Polling.last_check (globals (Polling.sys st)) = PNone)
           /\ (Polling.written st <> [Polling.minecraft_status] ->
               exists t,
                 Polling.last_check (globals (Polling.sys st)) = PFloat t)
           /\ (forall i b lc,
                  Polling.handlers st i = Polling.AtExit b lc ->
                  lc = Polling.last_check (globals (Polling.sys st)))
           /\ (forall i r,
                  Polling.handlers st i = Polling.Responded r ->
                  exists d,
                    In d (Polling.written st)
                    /\ (d = Polling.minecraft_status \/ stamped d)
                    /\ body r
                       = ((if Polling.is_running d
                           then "{'status': 'ok', 'minecraft': 'running', 'last_check': "
                           else "{'status': 'error', 'minecraft': 'not_running', 'last_check': ")
                            ++ repr float_repr (Polling.last_check d)
                            ++ "}"))).
Proof.
  intros H name interval. split; [| split].
  - intros addr line sp. rewrite polling_do_GET_health. eexists.
    split; [reflexivity |].
    destruct (Polling.is_running (globals sp)); reflexivity.
  - split; reflexivity.
  - intros st Hreach.
    destruct (history_reachable name interval st Hreach)
      as [[ws [Hws Hall]] [d [Hd Hlc]]].
    pose proof (invariant_reachable name interval st Hreach) as Hinv.
    split; [| split; [| split]].
    + intros Hfirst. rewrite Hfirst in Hd. injection Hd as <-.
      rewrite Hlc. reflexivity.
    + intros Hlater. destruct ws as [| d' ws].
      * elim Hlater. exact Hws.
      * rewrite Hws in Hd. injection Hd as <-. rewrite Hlc.
        inversion Hall; assumption.
    + intros i b lc Hpc. rewrite (inv_read_check st Hinv i b lc Hpc).
      reflexivity.
    + intros i r Hpc.
      destruct (inv_responded st Hinv i r Hpc) as [d0 [w [Hd0 ->]]].
      exists d0. split; [assumption |]. split.
      * rewrite Hws in Hd0. apply in_app_or in Hd0.
        destruct Hd0 as [Hd0 | Hd0].
        -- right. rewrite Forall_forall in Hall. apply (Hall d0 Hd0).
        -- destruct Hd0 as [<- | []]. left. reflexivity.
      * destruct (Polling.is_running d0); reflexivity.
Qed.

(** Before the first turn the stored [last_check] is [None], and the
    answer handler 0 has given says so; after one turn it is the time of
    that turn, and handler 0 has read this time. *)
Lemma last_check_in_every_health_body_witness :
  Polling.last_check (globals (Polling.sys Hosts.before_first_turn)) = PNone
  /\ (exists d,
         In d (Polling.written Hosts.before_first_turn)
         /\ (d = Polling.minecraft_status \/ stamped d)
         /\ body Hosts.early_answer
            = ((if Polling.is_running d
                then "{'status': 'ok', 'minecraft': 'running', 'last_check': "
                else "{'status': 'error', 'minecraft': 'not_running', 'last_check': ")
                 ++ repr (@float_repr Hosts.scripted_host)
                      (Polling.last_check d)
                 ++ "}"))
  /\ exists t,
      Polling.last_check (globals (Polling.sys Hosts.after_one_turn))
      = PFloat t.
Proof.
  pose proof (last_check_in_every_health_body Hosts.scripted_host
                "bedrock_server" 5) as [_ [_ Hstore]].
  split; [| split].
  - apply (proj1 (Hstore Hosts.before_first_turn
                    before_first_turn_reachable)).
    reflexivity.
  - apply (proj2 (proj2 (proj2 (Hstore Hosts.before_first_turn
                                  before_first_turn_reachable)))
             0%nat).
    reflexivity.
  - apply (proj1 (proj2 (Hstore Hosts.after_one_turn
                           after_one_turn_reachable))).
    discriminate.
Defined.

(** ** Startup *)

Section Startup.
Context `{Host} {G : Type}.
Variable port : Z.
Variable name : string.

Lemma listening_app (tr tr' : list event) :
  listening (tr ++ tr') = listening tr || listening tr'.
Proof. apply existsb_app. Qed.



End Startup.





(** ** The debug documents *)

Section DirectDebug.
Context `{Host} {G : Type}.
Variable name : string.

(** What the loop stores for one pattern. *)
Lemma search_pattern_completed (p : string) (s : Sys G)
    (r : CompletedProcess) (w : World) :
  subprocess_run (pgrep_argv p) (world s) = (Ok r, w) ->
  Direct.search_pattern p s
  = (Ok (PDict
           [("found", PBool (returncode r =? 0)%Z);
            ("pids",
              if (returncode r =? 0)%Z
              then PList (map PStr (split LF (strip (stdout r))))
              else PList [])]),
      MkSys w (trace s ++ [Spawned (pgrep_argv p)]) (globals s)).
Proof.
  intros Hrun. unfold Direct.search_pattern, try_except, bind, run, ret.
  unfold pgrep_argv in Hrun. rewrite Hrun. reflexivity.
Qed.

Lemma search_pattern_failed (p : string) (s : Sys G) (e : exn) (w : World) :
  subprocess_run (pgrep_argv p) (world s) = (Raise e, w) ->
  is_Exception (exn_cls e) = true ->
  Direct.search_pattern p s
  = (Ok (PDict [("error", PStr (exn_str e))]),
      MkSys w (trace s ++ [Spawned (pgrep_argv p)]) (globals s)).
Proof.
  intros Hrun Hexn. unfold Direct.search_pattern, try_except, bind, run, ret.
  unfold pgrep_argv in Hrun. rewrite Hrun, Hexn. reflexivity.
Qed.

Lemma search_pattern_returns (p : string) (s : Sys G) :
  child_errors_only H ->
  exists v s', Direct.search_pattern p s = (Ok v, s').
Proof.
  intros Herr. specialize (Herr (pgrep_argv p) (world s)).
  destruct (subprocess_run (pgrep_argv p) (world s)) as [[r | e] w] eqn:Hrun.
  - rewrite (search_pattern_completed p s r w Hrun). eauto.
  - rewrite (search_pattern_failed p s e w Hrun Herr). eauto.
Qed.

(** A pattern search starts one child process, [pgrep -f] on the
    pattern, prints nothing, and sees of the state only the world. *)
Lemma search_pattern_trace (p : string) (s s' : Sys G)
    (r : result (pyval pyfloat)) :
  Direct.search_pattern p s = (r, s') ->
  trace s' = (trace s ++ [Spawned (pgrep_argv p)])%list.
Proof.
  unfold Direct.search_pattern, try_except, bind, run, ret, pgrep_argv.
  destruct (subprocess_run _ (world s)) as [[c | e] w]; cbn.
  - intros [= _ <-]. reflexivity.
  - destruct (is_Exception (exn_cls e)); intros [= _ <-]; reflexivity.
Qed.

Lemma search_pattern_world (p : string) (s1 s2 : Sys G) :
  world s1 = world s2 ->
  fst (Direct.search_pattern p s1) = fst (Direct.search_pattern p s2)
  /\ world (snd (Direct.search_pattern p s1))
     = world (snd (Direct.search_pattern p s2)).
Proof.
  intros Hw. unfold Direct.search_pattern, try_except, bind, run, ret.
  rewrite Hw.
  destruct (subprocess_run _ (world s2)) as [[c | e] w]; cbn; auto.
  destruct (is_Exception (exn_cls e)); cbn; auto.
Qed.

Lemma search_loop_world (todo : list string) :
  forall (acc : list (string * pyval pyfloat)) (s1 s2 : Sys G),
    world s1 = world s2 ->
    fst (Direct.search_loop todo acc s1) = fst (Direct.search_loop todo acc s2)
    /\ world (snd (Direct.search_loop todo acc s1))
       = world (snd (Direct.search_loop todo acc s2)).
Proof.
  induction todo as [| p todo IH]; intros acc s1 s2 Hw.
  - cbn. auto.
  - cbn [Direct.search_loop]. unfold bind.
    destruct (search_pattern_world p s1 s2 Hw) as [Hr Hw'].
    destruct (Direct.search_pattern p s1) as [[v1 | e1] t1];
      destruct (Direct.search_pattern p s2) as [[v2 | e2] t2];
      cbn in Hr, Hw'; try discriminate.
    + injection Hr as <-. apply IH. assumption.
    + injection Hr as <-. cbn. auto.
Qed.

(** The document, when [get_debug_info] gets to build it. *)
Lemma direct_debug_shape (s s' : Sys G) (doc : pyval pyfloat) :
  Direct.debug_data name s = (Ok doc, s') ->
  exists b s0 v1 s1 v2 s2 v3 s3 v4,
    Direct.is_minecraft_running name s = (Ok b, s0)
    /\ Direct.search_pattern "bedrock_server" s0 = (Ok v1, s1)
    /\ Direct.search_pattern "bedrock" s1 = (Ok v2, s2)
    /\ Direct.search_pattern "minecraft" s2 = (Ok v3, s3)
    /\ Direct.search_pattern "LD_LIBRARY_PATH" s3 = (Ok v4, s')
    /\ doc = PDict [("process_name", PStr name);
                    ("is_running", PBool b);
                    ("search_results",
                      PDict [("bedrock_server", v1); ("bedrock", v2);
                             ("minecraft", v3); ("LD_LIBRARY_PATH", v4)])].
Proof.
  unfold Direct.debug_data, Direct.patterns. cbn [Direct.search_loop].
  unfold bind, ret.
  destruct (Direct.is_minecraft_running name s) as [[b | e] s0] eqn:H0;
    [| discriminate].
  destruct (Direct.search_pattern "bedrock_server" s0) as [[v1 | e] s1]
    eqn:H1; [| discriminate].
  destruct (Direct.search_pattern "bedrock" s1) as [[v2 | e] s2] eqn:H2;
    [| discriminate].
  destruct (Direct.search_pattern "minecraft" s2) as [[v3 | e] s3] eqn:H3;
    [| discriminate].
  destruct (Direct.search_pattern "LD_LIBRARY_PATH" s3) as [[v4 | e] s4]
    eqn:H4; [| discriminate].
  cbn. intros [= <- <-].
  exists b, s0, v1, s1, v2, s2, v3, s3, v4. repeat split; assumption.
Qed.

Lemma direct_probe_returns (s : Sys G) :
  child_errors_only H ->
  exists b s', Direct.is_minecraft_running name s = (Ok b, s').
Proof.
  intros Herr.
  pose proof (direct_probe name s (Herr _ _)) as Hp.
  destruct (Direct.is_minecraft_running name s) as [r s'].
  cbn in Hp. subst r. eauto.
Qed.

Lemma direct_debug_returns (s : Sys G) :
  child_errors_only H ->
  exists doc s', Direct.debug_data name s = (Ok doc, s').
Proof.
  intros Herr.
  unfold Direct.debug_data, Direct.patterns. cbn [Direct.search_loop].
  unfold bind, ret.
  destruct (direct_probe_returns s Herr) as [b [s0 ->]].
  destruct (search_pattern_returns "bedrock_server" s0 Herr) as [v1 [s1 ->]].
  destruct (search_pattern_returns "bedrock" s1 Herr) as [v2 [s2 ->]].
  destruct (search_pattern_returns "minecraft" s2 Herr) as [v3 [s3 ->]].
  destruct (search_pattern_returns "LD_LIBRARY_PATH" s3 Herr)
    as [v4 [s4 ->]].
  eauto.
Qed.

Lemma direct_do_GET_debug (addr : string * Z) (line : string)
    (s s' : Sys G) (doc : pyval pyfloat) :
  Direct.debug_data name s = (Ok doc, s') ->
  Direct.do_GET name (Request addr line "/debug") s
  = (Ok (debug_reply (world s') doc),
      answered (Request addr line "/debug") 200 s').
Proof.
  intros Hdoc. unfold Direct.do_GET.
  cbn [path String.eqb Ascii.eqb Bool.eqb].
  unfold Direct.get_debug_info, bind at 1 2. rewrite Hdoc.
  unfold ret at 1. unfold bind. rewrite direct_send_response. reflexivity.
Qed.
End DirectDebug.

Section DockerDebug.
Context `{Host} {G : Type}.
Variable name : string.

Lemma docker_probe_returns (s : Sys G) :
  child_errors_only H ->
  exists b s', Docker.is_minecraft_running name s = (Ok b, s').
Proof.
  intros Herr.
  pose proof (docker_probe name s (Herr _ _)) as Hp.
  destruct (Docker.is_minecraft_running name s) as [r s'].
  cbn in Hp. subst r. eauto.
Qed.

(** The enumeration of the containers: its failures end up under
    ['error']. *)
Lemma all_containers_failed (d : list (string * pyval pyfloat)) (s : Sys G)
    (e : exn) (w : World) :
  subprocess_run docker_ps_all_argv (world s) = (Raise e, w) ->
  is_Exception (exn_cls e) = true ->
  fst (Docker.all_containers d s) = Ok (dict_set "error" (PStr (exn_str e)) d).
Proof.
  intros Hrun Hexn. unfold Docker.all_containers, try_except, bind, run, ret.
  unfold docker_ps_all_argv in Hrun. rewrite Hrun, Hexn. reflexivity.
Qed.

Lemma all_containers_completed (d : list (string * pyval pyfloat))
    (s : Sys G) (r : CompletedProcess) (w : World) :
  subprocess_run docker_ps_all_argv (world s) = (Ok r, w) ->
  fst (Docker.all_containers d s)
  = Ok (if (returncode r =? 0)%Z
        then dict_set "all_containers"
               (PList (flat_map Docker.container_of_line
                         (split LF (strip (stdout r))))) d
        else dict_set "error" (PStr (stderr r)) d).
Proof.
  intros Hrun. unfold Docker.all_containers, try_except, bind, run, ret.
  unfold docker_ps_all_argv in Hrun. rewrite Hrun.
  destruct (returncode r =? 0)%Z; reflexivity.
Qed.

Lemma all_containers_returns (d : list (string * pyval pyfloat))
    (s : Sys G) :
  child_errors_only H ->
  exists d' s', Docker.all_containers d s = (Ok d', s').
Proof.
  intros Herr. specialize (Herr docker_ps_all_argv (world s)).
  destruct (subprocess_run docker_ps_all_argv (world s)) as [[r | e] w]
    eqn:Hrun.
  - pose proof (all_containers_completed d s r w Hrun) as Hd.
    destruct (Docker.all_containers d s) as [r' s']. cbn in Hd. subst r'.
    eauto.
  - pose proof (all_containers_failed d s e w Hrun Herr) as Hd.
    destruct (Docker.all_containers d s) as [r' s']. cbn in Hd. subst r'.
    eauto.
Qed.

(** The inspection of the target: what it raises ends up under
    ['target_container_error'], a failed [docker inspect] under
    ['target_container']. *)
Lemma target_container_failed (d : list (string * pyval pyfloat))
    (s : Sys G) (e : exn) (w : World) :
  subprocess_run ["docker"; "inspect"; name] (world s) = (Raise e, w) ->
  is_Exception (exn_cls e) = true ->
  fst (Docker.target_container name d s)
  = Ok (dict_set "target_container_error" (PStr (exn_str e)) d).
Proof.
  intros Hrun Hexn.
  unfold Docker.target_container, try_except, bind, run, ret.
  rewrite Hrun, Hexn. reflexivity.
Qed.

Lemma target_container_not_found (d : list (string * pyval pyfloat))
    (s : Sys G) (r : CompletedProcess) (w : World) :
  subprocess_run ["docker"; "inspect"; name] (world s) = (Ok r, w) ->
  (returncode r =? 0)%Z = false ->
  fst (Docker.target_container name d s)
  = Ok (dict_set "target_container" (PStr "not_found") d).
Proof.
  intros Hrun Hrc.
  unfold Docker.target_container, try_except, bind, run, ret.
  rewrite Hrun, Hrc. reflexivity.
Qed.

Lemma target_container_malformed (d : list (string * pyval pyfloat))
    (s : Sys G) (r : CompletedProcess) (w : World) (e : exn) :
  subprocess_run ["docker"; "inspect"; name] (world s) = (Ok r, w) ->
  (returncode r =? 0)%Z = true ->
  json_loads (stdout r) = Raise e ->
  is_Exception (exn_cls e) = true ->
  fst (Docker.target_container name d s)
  = Ok (dict_set "target_container_error" (PStr (exn_str e)) d).
Proof.
  intros Hrun Hrc Hjson Hexn.
  unfold Docker.target_container, try_except, bind, run, ret, lift.
  rewrite Hrun, Hrc, Hjson, Hexn. reflexivity.
Qed.

Lemma getitem0_absorbed (v : pyval pyfloat) : absorbed (getitem0 v).
Proof.
  destruct v as [| b | z | f | str | l | d]; cbn; auto.
  - destruct str; cbn; auto.
  - destruct l; cbn; auto.
Qed.

Lemma method_get_absorbed (v : pyval pyfloat) (k : string)
    (dflt : pyval pyfloat) :
  absorbed (method_get v k dflt).
Proof.
  destruct v; cbn; auto. destruct (dict_get k d); cbn; auto.
Qed.

Lemma target_container_returns (d : list (string * pyval pyfloat))
    (s : Sys G) :
  child_errors_only H -> json_errors_only H ->
  exists d' s', Docker.target_container name d s = (Ok d', s').
Proof.
  intros Herr Hjson.
  specialize (Herr ["docker"; "inspect"; name] (world s)).
  unfold Docker.target_container, try_except, bind, run, ret, lift.
  destruct (subprocess_run _ (world s)) as [[r | e] w]; cbn in *.
  - destruct (returncode r =? 0)%Z; [| eauto].
    specialize (Hjson (stdout r)).
    destruct (json_loads (stdout r)) as [info | e]; cbn in *.
    + destruct (truthy float_bool info); [| eauto].
      pose proof (getitem0_absorbed info) as Hitem.
      destruct (getitem0 info) as [first | e]; cbn in *.
      * pose proof (method_get_absorbed first "State" (PDict [])) as Hstate.
        pose proof (method_get_absorbed first "Name" (PStr EmptyString))
          as Hname.
        destruct (method_get first "State" (PDict [])) as [state | e];
          cbn in *; [| rewrite Hstate; eauto].
        destruct (method_get first "Name" (PStr EmptyString)) as [nm | e];
          cbn in *; [eauto | rewrite Hname; eauto].
      * rewrite Hitem. eauto.
    + rewrite Hjson. eauto.
  - rewrite Herr. eauto.
Qed.

Lemma docker_debug_shape (s s' : Sys G) (doc : pyval pyfloat) :
  Docker.debug_data name s = (Ok doc, s') ->
  exists b s0 d1 s1 d2,
    Docker.is_minecraft_running name s = (Ok b, s0)
    /\ Docker.all_containers [] s0 = (Ok d1, s1)
    /\ Docker.target_container name d1 s1 = (Ok d2, s')
    /\ doc = PDict [("container_name", PStr name);
                    ("is_running", PBool b);
                    ("docker_info", PDict d2)].
Proof.
  unfold Docker.debug_data, bind, ret.
  destruct (Docker.is_minecraft_running name s) as [[b | e] s0] eqn:H0;
    [| discriminate].
  destruct (Docker.all_containers [] s0) as [[d1 | e] s1] eqn:H1;
    [| discriminate].
  destruct (Docker.target_container name d1 s1) as [[d2 | e] s2] eqn:H2;
    [| discriminate].
  intros [= <- <-]. exists b, s0, d1, s1, d2. repeat split; assumption.
Qed.

Lemma docker_debug_returns (s : Sys G) :
  child_errors_only H -> json_errors_only H ->
  exists doc s', Docker.debug_data name s = (Ok doc, s').
Proof.
  intros Herr Hjson. unfold Docker.debug_data, bind, ret.
  destruct (docker_probe_returns s Herr) as [b [s0 ->]].
  destruct (all_containers_returns [] s0 Herr) as [d1 [s1 ->]].
  destruct (target_container_returns d1 s1 Herr Hjson) as [d2 [s2 ->]].
  eauto.
Qed.

Lemma docker_do_GET_debug (addr : string * Z) (line : string)
    (s s' : Sys G) (doc : pyval pyfloat) :
  Docker.debug_data name s = (Ok doc, s') ->
  Docker.do_GET name (Request addr line "/debug") s
  = (Ok (debug_reply (world s') doc),
      answered (Request addr line "/debug") 200 s').
Proof.
  intros Hdoc. unfold Docker.do_GET.
  cbn [path String.eqb Ascii.eqb Bool.eqb].
  unfold Docker.get_debug_info, bind at 1 2. rewrite Hdoc.
  unfold ret at 1. unfold bind. rewrite docker_send_response. reflexivity.
Qed.
End DockerDebug.

(** C7, as stated, fails: the polling script has no [/debug]; it answers
    404 with an empty body. *)
Lemma polling_debug_is_404 :
  fst (@Polling.do_GET Hosts.scripted_host Hosts.debug_request
         (Hosts.boot [] Polling.minecraft_status))
  = Ok (Response 404
          [("Server", "BaseHTTP/0.6 Python/3.11.2");
           ("Date", "Tue, 14 Nov 2023 22:13:20 GMT")]
          EmptyString)
  /\ ~ exists hs text,
        fst (@Polling.do_GET Hosts.scripted_host Hosts.debug_request
               (Hosts.boot [] Polling.minecraft_status))
        = Ok (Response 200 hs text).
Proof.
  split; [reflexivity |]. intros [hs [text Hdoc]]. discriminate.
Qed.

(** C7, amended. In the two scripts that probe on request, on a host
    where no call is interrupted, a GET of [/debug] is answered 200 with
    [json.dumps] of the document, whatever the sub-probes do. An error
    raised by the search for a pattern is stored as ['error'] under that
    pattern; an error raised by the enumeration of the containers, or
    its failed exit, as ['error'] under ['docker_info']; an error raised
    by the inspection, or by the parsing of its output, as
    ['target_container_error'] under ['docker_info'], and its failed
    exit as ['target_container'] = ['not_found']. The polling script
    answers [/debug] with 404 and an empty body. *)
Theorem debug_answers_200_and_captures_errors :
  forall (H : Host) (G : Type) (name : string) (addr : string * Z)
         (line : string),
    child_errors_only H -> json_errors_only H ->
    (forall s : Sys G,
        exists doc s',
          Direct.debug_data name s = (Ok doc, s')
          /\ Direct.do_GET name (Request addr line "/debug") s
             = (Ok (Response 200
                      [server_header; date_header (world s');
                       ("Content-Type", "application/json")]
                      (json_dumps doc)),
                 answered (Request addr line "/debug") 200 s'))
    /\ (forall (s : Sys G) p e w,
           subprocess_run (pgrep_argv p) (world s) = (Raise e, w) ->
           fst (Direct.search_pattern p s)
           = Ok (PDict [("error", PStr (exn_str e))]))
    /\ (forall s : Sys G,
           exists doc s',
             Docker.debug_data name s = (Ok doc, s')
             /\ Docker.do_GET name (Request addr line "/debug") s
                = (Ok (Response 200
                         [server_header; date_header (world s');
                          ("Content-Type", "application/json")]
                         (json_dumps doc)),
                    answered (Request addr line "/debug") 200 s'))
    /\ (forall (s : Sys G) d e w,
           subprocess_run docker_ps_all_argv (world s) = (Raise e, w) ->
           fst (Docker.all_containers d s)
           = Ok (dict_set "error" (PStr (exn_str e)) d))
    /\ (forall (s : Sys G) d r w,
           subprocess_run docker_ps_all_argv (world s) = (Ok r, w) ->
           (returncode r =? 0)%Z = false ->
           fst (Docker.all_containers d s)
           = Ok (dict_set "error" (PStr (stderr r)) d))
    /\ (forall (s : Sys G) d e w,
           subprocess_run ["docker"; "inspect"; name] (world s)
           = (Raise e, w) ->
           fst (Docker.target_container name d s)
           = Ok (dict_set "target_container_error" (PStr (exn_str e)) d))
    /\ (forall (s : Sys G) d r w e,
           subprocess_run ["docker"; "inspect"; name] (world s) = (Ok r, w) ->
           (returncode r =? 0)%Z = true ->
           json_loads (stdout r) = Raise e ->
           fst (Docker.target_container name d s)
           = Ok (dict_set "target_container_error" (PStr (exn_str e)) d))
    /\ (forall (s : Sys G) d r w,
           subprocess_run ["docker"; "inspect"; name] (world s) = (Ok r, w) ->
           (returncode r =? 0)%Z = false ->
           fst (Docker.target_container name d s)
           = Ok (dict_set "target_container" (PStr "not_found") d))
    /\ (forall s : Sys Polling.G,
           Polling.do_GET (Request addr line "/debug") s
           = (Ok (Response 404 [server_header; date_header (world s)]
                    EmptyString),
               answered (Request addr line "/debug") 404 s)).
Proof.
  intros H G name addr line Herr Hjson. repeat split.
  - intros s. destruct (direct_debug_returns name s Herr) as [doc [s' Hdoc]].
    exists doc, s'. split; [assumption |].
    apply direct_do_GET_debug. assumption.
  - intros s p e w Hrun.
    pose proof (Herr (pgrep_argv p) (world s)) as Hexn.
    rewrite Hrun in Hexn.
    rewrite (search_pattern_failed p s e w Hrun Hexn). reflexivity.
  - intros s.
    destruct (docker_debug_returns name s Herr Hjson) as [doc [s' Hdoc]].
    exists doc, s'. split; [assumption |].
    apply docker_do_GET_debug. assumption.
  - intros s d e w Hrun.
    pose proof (Herr docker_ps_all_argv (world s)) as Hexn.
    rewrite Hrun in Hexn. apply (all_containers_failed d s e w Hrun Hexn).
  - intros s d r w Hrun Hrc.
    rewrite (all_containers_completed d s r w Hrun), Hrc. reflexivity.
  - intros s d e w Hrun.
    pose proof (Herr ["docker"; "inspect"; name] (world s)) as Hexn.
    rewrite Hrun in Hexn.
    apply (target_container_failed name d s e w Hrun Hexn).
  - intros s d r w e Hrun Hrc Hloads.
    pose proof (Hjson (stdout r)) as Hexn. rewrite Hloads in Hexn.
    apply (target_container_malformed name d s r w e Hrun Hrc Hloads Hexn).
  - intros s d r w Hrun Hrc.
    apply (target_container_not_found name d s r w Hrun Hrc).
  - intros s. apply polling_do_GET_other. discriminate.
Qed.

(** On a machine without [pgrep] and [docker], [/debug] is answered all
    the same, and a failed search is stored as an error. *)
Lemma debug_answers_200_and_captures_errors_witness :
  (exists doc s',
      @Docker.debug_data Hosts.bare_host unit "paper" (Hosts.bare_boot tt)
      = (Ok doc, s')
      /\ @Docker.do_GET Hosts.bare_host unit "paper"
           (Request ("127.0.0.1", 50001%Z) "GET /debug HTTP/1.1" "/debug")
           (Hosts.bare_boot tt)
         = (Ok (Response 200
                  [@server_header Hosts.bare_host;
                   @date_header Hosts.bare_host (world s');
                   ("Content-Type", "application/json")]
                  (@json_dumps Hosts.bare_host doc)),
             answered
               (Request ("127.0.0.1", 50001%Z) "GET /debug HTTP/1.1" "/debug")
               200 s'))
  /\ fst (@Direct.search_pattern Hosts.bare_host unit "bedrock"
            (Hosts.bare_boot tt))
     = Ok (PDict [("error", PStr "[Errno 2] No such file or directory")]).
Proof.
  assert (Herr : child_errors_only Hosts.bare_host)
    by (intros argv w; reflexivity).
  assert (Hjson : json_errors_only Hosts.bare_host).
  { intros s. unfold json_loads. cbn. unfold Hosts.scripted_loads.
    destruct (String.eqb s "[]"); [exact I |].
    destruct (String.eqb s "[{}]"); [exact I | reflexivity]. }
  pose proof (debug_answers_200_and_captures_errors Hosts.bare_host unit
                "paper" ("127.0.0.1", 50001%Z) "GET /debug HTTP/1.1"
                Herr Hjson) as [_ [Hsearch [Hdocker _]]].
  split.
  - apply Hdocker.
  - apply (Hsearch (Hosts.bare_boot tt) "bedrock" Hosts.not_found
             1700000000%Z).
    reflexivity.
Defined.

Section DirectDebugTarget.
Context `{Host} {G : Type}.

Lemma direct_debug_loop (name : string) (s s' : Sys G)
    (doc : pyval pyfloat) :
  Direct.debug_data name s = (Ok doc, s') ->
  exists b s0 sr,
    Direct.is_minecraft_running name s = (Ok b, s0)
    /\ Direct.search_loop Direct.patterns [] s0 = (Ok sr, s')
    /\ doc = PDict [("process_name", PStr name);
                    ("is_running", PBool b);
                    ("search_results", PDict sr)].
Proof.
  unfold Direct.debug_data, bind, ret.
  destruct (Direct.is_minecraft_running name s) as [[b | e] s0] eqn:H0;
    [| discriminate].
  destruct (Direct.search_loop Direct.patterns [] s0) as [[sr | e] s1]
    eqn:H1; [| discriminate].
  intros [= <- <-]. exists b, s0, sr. repeat split; assumption.
Qed.
End DirectDebugTarget.

(** C9. The document of [/debug] of [minecraft-health-server.py] has the
    configured name under ['process_name'], the answer of the probe for
    it under ['is_running'], and under ['search_results'] exactly the
    keys [bedrock_server], [bedrock], [minecraft], [LD_LIBRARY_PATH], in
    this order. The searches run [pgrep -f] on these four literals and
    on nothing else, and what they store is fixed by the world the probe
    leaves behind: another configured name, leaving the same world,
    gives the same ['search_results']. *)
Theorem debug_search_patterns_are_fixed :
  forall (H : Host) (G : Type) (name : string) (s s' : Sys G)
         (doc : pyval pyfloat),
    Direct.debug_data name s = (Ok doc, s') ->
    exists b s0 sr,
      Direct.is_minecraft_running name s = (Ok b, s0)
      /\ doc = PDict [("process_name", PStr name);
                      ("is_running", PBool b);
                      ("search_results", PDict sr)]
      /\ dict_keys sr
         = ["bedrock_server"; "bedrock"; "minecraft"; "LD_LIBRARY_PATH"]
      /\ trace s'
         = (trace s0
              ++ [Spawned ["pgrep"; "-f"; "bedrock_server"];
                  Spawned ["pgrep"; "-f"; "bedrock"];
                  Spawned ["pgrep"; "-f"; "minecraft"];
                  Spawned ["pgrep"; "-f"; "LD_LIBRARY_PATH"]])%list
      /\ forall (name2 : string) (t t' : Sys G) (doc2 : pyval pyfloat),
          world (snd (Direct.is_minecraft_running name2 t)) = world s0 ->
          Direct.debug_data name2 t = (Ok doc2, t') ->
          exists b2,
            doc2 = PDict [("process_name", PStr name2);
                          ("is_running", PBool b2);
                          ("search_results", PDict sr)].
Proof.
  intros H G name s s' doc Hdoc.
  destruct (direct_debug_shape name s s' doc Hdoc)
    as (b & s0 & v1 & s1 & v2 & s2 & v3 & s3 & v4
        & Hb & H1 & H2 & H3 & H4 & ->).
  destruct (direct_debug_loop name s s' _ Hdoc)
    as (b' & s0' & sr & Hb' & Hloop & Hsr).
  rewrite Hb in Hb'. injection Hb' as <- <-. injection Hsr as <-.
  exists b, s0, [("bedrock_server", v1); ("bedrock", v2); ("minecraft", v3);
                 ("LD_LIBRARY_PATH", v4)].
  repeat split; [assumption | |].
  - apply search_pattern_trace in H1, H2, H3, H4.
    rewrite H4, H3, H2, H1. rewrite <- !app_assoc. reflexivity.
  - intros name2 t t' doc2 Hworld Hdoc2.
    destruct (direct_debug_loop name2 t t' doc2 Hdoc2)
      as (b2 & t0 & sr2 & Hb2 & Hloop2 & ->).
    rewrite Hb2 in Hworld. cbn in Hworld.
    destruct (search_loop_world Direct.patterns [] t0 s0 Hworld) as [Hsame _].
    rewrite Hloop, Hloop2 in Hsame. injection Hsame as ->.
    exists b2. reflexivity.
Qed.

(** With [java] as configured name the document still has the four
    literal keys. *)
Lemma debug_search_patterns_are_fixed_witness :
  exists b sr,
    fst (@Direct.debug_data Hosts.scripted_host unit "java"
           (Hosts.boot Hosts.debug_outcomes tt))
    = Ok (PDict [("process_name", PStr "java");
                 ("is_running", PBool b);
                 ("search_results", PDict sr)])
    /\ dict_keys sr
       = ["bedrock_server"; "bedrock"; "minecraft"; "LD_LIBRARY_PATH"].
Proof.
  destruct (debug_search_patterns_are_fixed Hosts.scripted_host unit "java"
              (Hosts.boot Hosts.debug_outcomes tt)
              (snd (@Direct.debug_data Hosts.scripted_host unit "java"
                      (Hosts.boot Hosts.debug_outcomes tt)))
              _ eq_refl)
    as (b & s0 & sr & _ & Hdoc & Hkeys & _).
  exists b, sr. split; [| exact Hkeys].
  rewrite <- Hdoc. reflexivity.
Defined.

(** ** The checker goes on *)



(** * Further properties *)

(** ** Stripping and splitting *)

Lemma all_space_rstrip (s : string) :
  all_space s = true -> rstrip s = EmptyString.
Proof.
  induction s as [| c r IH]; cbn; [reflexivity |].
  intros Hs. apply andb_prop in Hs. destruct Hs as [Hc Hr].
  rewrite (IH Hr), Hc. reflexivity.
Qed.

Lemma all_space_lstrip (ws x : string) :
  all_space ws = true -> lstrip (ws ++ x) = lstrip x.
Proof.
  induction ws as [| c r IH]; cbn; [reflexivity |].
  intros Hs. apply andb_prop in Hs. destruct Hs as [Hc Hr].
  rewrite Hc. apply IH. assumption.
Qed.

(** White space at the end does not count for [rstrip]. *)
Lemma rstrip_app_space (s t : string) :
  all_space t = true -> rstrip (s ++ t) = rstrip s.
Proof.
  intros Ht. induction s as [| c r IH]; cbn.
  - apply all_space_rstrip. assumption.
  - rewrite IH. reflexivity.
Qed.

Lemma rstrip_cons (c : ascii) (r : string) :
  isspace c = false -> rstrip (String c r) = String c (rstrip r).
Proof.
  intros Hc. cbn. rewrite Hc. destruct (rstrip r); reflexivity.
Qed.

Lemma rstrip_app (a r : string) :
  rstrip r <> EmptyString -> rstrip (a ++ r) = a ++ rstrip r.
Proof.
  intros Hr. induction a as [| c a IH]; cbn; [reflexivity |].
  rewrite IH. destruct (a ++ rstrip r) eqn:Happ; [| reflexivity].
  destruct a; cbn in Happ; [contradiction | discriminate].
Qed.

(** A string is the white space [lstrip] removes, then what it keeps;
    and what [rstrip] keeps, then the white space it removes. *)
Lemma lstrip_split (s : string) :
  exists ws, s = ws ++ lstrip s /\ all_space ws = true.
Proof.
  induction s as [| c r [ws [Hr Hws]]].
  - exists EmptyString. split; reflexivity.
  - cbn. destruct (isspace c) eqn:Hc.
    + exists (String c ws). cbn. rewrite Hc, Hws. split; [| reflexivity].
      f_equal. assumption.
    + exists EmptyString. split; reflexivity.
Qed.

Lemma rstrip_split (s : string) :
  exists t, s = rstrip s ++ t /\ all_space t = true.
Proof.
  induction s as [| c r [t [Hr Ht]]].
  - exists EmptyString. split; reflexivity.
  - cbn. destruct (rstrip r) as [| c' r'] eqn:Hrs.
    + cbn in Hr. subst t. destruct (isspace c) eqn:Hc.
      * exists (String c r). cbn. rewrite Hc, Ht. split; reflexivity.
      * exists r. split; [reflexivity | assumption].
    + exists t. split; [| assumption]. cbn. f_equal. assumption.
Qed.

Lemma no_space_rstrip (s : string) : no_space s = true -> rstrip s = s.
Proof.
  induction s as [| c r IH]; cbn; [reflexivity |].
  intros Hs. apply andb_prop in Hs. destruct Hs as [Hc Hr].
  apply negb_true_iff in Hc. rewrite (IH Hr), Hc. destruct r; reflexivity.
Qed.

Lemma word_rstrip (s : string) :
  word s = true -> rstrip s = s /\ s <> EmptyString.
Proof.
  unfold word. intros Hs. apply andb_prop in Hs. destruct Hs as [Hne Hns].
  split; [apply no_space_rstrip; assumption |].
  intros ->. discriminate.
Qed.

Lemma word_lstrip (s x : string) : word s = true -> lstrip (s ++ x) = s ++ x.
Proof.
  unfold word. destruct s as [| c r]; [discriminate |].
  cbn. intros Hs. apply andb_prop in Hs. destruct Hs as [Hc _].
  apply negb_true_iff in Hc. rewrite Hc. reflexivity.
Qed.

Lemma no_space_contains (c : ascii) (s : string) :
  isspace c = true -> no_space s = true -> contains c s = false.
Proof.
  intros Hc. induction s as [| c' r IH]; cbn; [reflexivity |].
  intros Hs. apply andb_prop in Hs. destruct Hs as [Hc' Hr].
  rewrite (IH Hr), orb_false_r.
  destruct (Ascii.eqb_spec c' c) as [-> | _]; [| reflexivity].
  rewrite Hc in Hc'. discriminate.
Qed.

(** Splitting at a separator the pieces do not contain. *)
Lemma split_none (sep : ascii) (a : string) :
  contains sep a = false -> split sep a = [a].
Proof.
  induction a as [| c r IH]; cbn; [reflexivity |].
  intros Hc. apply orb_false_elim in Hc. destruct Hc as [Hc Hr].
  rewrite Hc, (IH Hr). reflexivity.
Qed.

Lemma split_app (sep : ascii) (a b : string) :
  contains sep a = false ->
  split sep (a ++ String sep b) = a :: split sep b.
Proof.
  induction a as [| c r IH]; cbn.
  - intros _. rewrite Ascii.eqb_refl. reflexivity.
  - intros Hc. apply orb_false_elim in Hc. destruct Hc as [Hc Hr].
    rewrite Hc, (IH Hr). reflexivity.
Qed.

Lemma contains_app (c : ascii) (a b : string) :
  contains c (a ++ b) = contains c a || contains c b.
Proof.
  induction a as [| c' r IH]; cbn; [reflexivity |].
  rewrite IH, orb_assoc. reflexivity.
Qed.

Lemma unlines_join (l : string) (ls : list string) :
  unlines (l :: ls)
  = join (String LF EmptyString) (l :: ls) ++ String LF EmptyString.
Proof.
  revert l. induction ls as [| l' ls IH]; intros l.
  - reflexivity.
  - change (unlines (l :: l' :: ls)) with (l ++ String LF (unlines (l' :: ls))).
    rewrite IH.
    change (join (String LF EmptyString) (l :: l' :: ls))
      with (l ++ String LF (join (String LF EmptyString) (l' :: ls))).
    rewrite append_assoc'. reflexivity.
Qed.

Lemma split_join (sep : ascii) (l : string) (ls : list string) :
  Forall (fun x => contains sep x = false) (l :: ls) ->
  split sep (join (String sep EmptyString) (l :: ls)) = l :: ls.
Proof.
  revert l. induction ls as [| l' ls IH]; intros l Hall.
  - cbn. apply split_none. inversion Hall; assumption.
  - inversion Hall as [| ? ? Hl Hrest]; subst.
    change (join (String sep EmptyString) (l :: l' :: ls))
      with (l ++ String sep (join (String sep EmptyString) (l' :: ls))).
    rewrite (split_app sep l _ Hl), (IH l' Hrest). reflexivity.
Qed.

Lemma join_first (sep l : string) (ls : list string) :
  exists x, join sep (l :: ls) = l ++ x.
Proof.
  destruct ls as [| l' ls].
  - exists EmptyString. cbn. induction l as [| c l IH]; cbn; congruence.
  - exists (sep ++ join sep (l' :: ls)). reflexivity.
Qed.

Lemma join_last (sep l : string) (ls : list string) :
  exists a, join sep (l :: ls) = a ++ last (l :: ls) EmptyString.
Proof.
  revert l. induction ls as [| l' ls IH]; intros l.
  - exists EmptyString. reflexivity.
  - destruct (IH l') as [a Ha].
    exists (l ++ sep ++ a).
    change (join sep (l :: l' :: ls)) with (l ++ sep ++ join sep (l' :: ls)).
    rewrite Ha, !append_assoc'.
    change (last (l :: l' :: ls) EmptyString)
      with (last (l' :: ls) EmptyString).
    reflexivity.
Qed.

Lemma all_space_strip (s : string) :
  all_space s = true -> strip s = EmptyString.
Proof.
  intros Hs. unfold strip. rewrite (all_space_rstrip s Hs). reflexivity.
Qed.

(** The output of a command whose first line begins and whose last line
    ends with something [strip] keeps: stripped, it is the lines joined
    by line feeds. *)
Lemma strip_unlines (l : string) (ls : list string) :
  (forall x, lstrip (l ++ x) = l ++ x) ->
  rstrip (last (l :: ls) EmptyString) = last (l :: ls) EmptyString ->
  last (l :: ls) EmptyString <> EmptyString ->
  strip (unlines (l :: ls)) = join (String LF EmptyString) (l :: ls).
Proof.
  intros Hfirst Hlast Hne. unfold strip.
  rewrite unlines_join, rstrip_app_space by reflexivity.
  destruct (join_last (String LF EmptyString) l ls) as [a Ha].
  destruct (join_first (String LF EmptyString) l ls) as [x Hx].
  rewrite Ha at 1. rewrite rstrip_app by (rewrite Hlast; assumption).
  rewrite Hlast, <- Ha, Hx. apply Hfirst.
Qed.

Lemma split_strip_unlines (lines : list string) :
  lines <> [] ->
  Forall (fun l => word l = true) lines ->
  split LF (strip (unlines lines)) = lines.
Proof.
  intros Hne Hall. destruct lines as [| l ls]; [contradiction |].
  assert (Hlast : word (last (l :: ls) EmptyString) = true).
  { rewrite Forall_forall in Hall. apply Hall.
    destruct (exists_last Hne) as [init [z Hz]]. rewrite Hz.
    rewrite last_last. apply in_or_app. right. left. reflexivity. }
  destruct (word_rstrip _ Hlast) as [Hr Hn].
  rewrite strip_unlines; try assumption.
  - apply split_join. eapply Forall_impl; [| exact Hall].
    intros x Hx. cbn beta in Hx. unfold word in Hx.
    apply andb_prop in Hx. destruct Hx as [_ Hx].
    apply no_space_contains; [reflexivity | assumption].
  - intros x. apply word_lstrip. inversion Hall; assumption.
Qed.

Section Listings.
Context `{Host}.

Lemma word_no (c : ascii) (s : string) :
  isspace c = true -> word s = true -> contains c s = false.
Proof.
  intros Hc Hs. unfold word in Hs. apply andb_prop in Hs.
  destruct Hs as [_ Hs]. apply no_space_contains; assumption.
Qed.

Lemma printable_row_parts (r : container_row) :
  printable_row r = true ->
  word (row_name r) = true /\ word (row_image r) = true
  /\ contains TAB (row_status r) = false
  /\ contains LF (row_status r) = false.
Proof.
  unfold printable_row. intros Hr.
  apply andb_prop in Hr. destruct Hr as [Hr Hi].
  apply andb_prop in Hr. destruct Hr as [Hr Hlf].
  apply andb_prop in Hr. destruct Hr as [Hn Htab].
  apply negb_true_iff in Hlf, Htab. auto.
Qed.

Lemma container_of_ps_line (r : container_row) :
  printable_row r = true ->
  Docker.container_of_line (ps_line r) = [container_entry r].
Proof.
  intros Hr. destruct (printable_row_parts r Hr) as [Hn [Hi [Hst _]]].
  unfold Docker.container_of_line, ps_line.
  destruct (word_rstrip _ Hn) as [_ Hne].
  assert (Hline : forall x, String.eqb (row_name r ++ x) EmptyString = false)
    by (intros x; destruct (row_name r); [contradiction | reflexivity]).
  rewrite Hline.
  rewrite split_app by (apply word_no; [reflexivity | assumption]).
  rewrite split_app by assumption.
  rewrite split_none by (apply word_no; [reflexivity | assumption]).
  reflexivity.
Qed.

Lemma ps_line_one_line (r : container_row) :
  printable_row r = true -> contains LF (ps_line r) = false.
Proof.
  intros Hr. destruct (printable_row_parts r Hr) as [Hn [Hi [_ Hst]]].
  unfold ps_line.
  rewrite contains_app. cbn [contains]. rewrite contains_app.
  cbn [contains].
  rewrite (word_no LF _ eq_refl Hn), (word_no LF _ eq_refl Hi), Hst.
  reflexivity.
Qed.
End Listings.

Section Parsing.
Context `{Host}.

Lemma ps_line_rstrip (r : container_row) :
  printable_row r = true ->
  rstrip (ps_line r) = ps_line r /\ ps_line r <> EmptyString.
Proof.
  intros Hr. destruct (printable_row_parts r Hr) as [Hn [Hi _]].
  destruct (word_rstrip _ Hi) as [Hri Hnei].
  destruct (word_rstrip _ Hn) as [_ Hnen].
  assert (Heq : ps_line r
                = (row_name r ++ String TAB (row_status r ++ String TAB EmptyString))
                    ++ row_image r).
  { unfold ps_line. rewrite append_assoc'. cbn [append]. f_equal. f_equal.
    rewrite append_assoc'. reflexivity. }
  split.
  - rewrite Heq, rstrip_app by (rewrite Hri; assumption).
    rewrite Hri. reflexivity.
  - unfold ps_line. destruct (row_name r); [contradiction | discriminate].
Qed.

Lemma last_in {A : Type} (x : A) (xs : list A) (d : A) :
  In (last (x :: xs) d) (x :: xs).
Proof.
  revert x. induction xs as [| y ys IH]; intros x.
  - left. reflexivity.
  - right. apply IH.
Qed.

Lemma containers_of_ps_lines (rows : list container_row) :
  Forall (fun r => printable_row r = true) rows ->
  flat_map Docker.container_of_line (map ps_line rows)
  = map container_entry rows.
Proof.
  induction 1 as [| r rs Hr _ IH]; [reflexivity |].
  cbn [map flat_map]. rewrite (container_of_ps_line r Hr), IH. reflexivity.
Qed.

(** Reading back what [docker ps -a] prints. *)
Lemma parse_ps_output (rows : list container_row) :
  Forall (fun r => printable_row r = true) rows ->
  flat_map Docker.container_of_line
    (split LF (strip (unlines (map ps_line rows))))
  = map container_entry rows.
Proof.
  intros Hrows. destruct rows as [| r rs]; [reflexivity |].
  pose proof Hrows as Hall. rewrite Forall_forall in Hall.
  cbn [map]. rewrite strip_unlines.
  - rewrite split_join.
    + apply (containers_of_ps_lines (r :: rs) Hrows).
    + change (ps_line r :: map ps_line rs) with (map ps_line (r :: rs)).
      apply Forall_forall. intros l Hl. apply in_map_iff in Hl.
      destruct Hl as [r' [<- Hr']]. apply ps_line_one_line. auto.
  - intros x. unfold ps_line. rewrite append_assoc'.
    apply word_lstrip.
    apply (printable_row_parts r (Hall r (or_introl eq_refl))).
  - pose proof (last_in (ps_line r) (map ps_line rs) EmptyString) as Hin.
    change (ps_line r :: map ps_line rs) with (map ps_line (r :: rs)) in Hin.
    apply in_map_iff in Hin. destruct Hin as [r' [Heq Hr']].
    change (ps_line r :: map ps_line rs) with (map ps_line (r :: rs)).
    rewrite <- Heq. apply ps_line_rstrip. auto.
  - pose proof (last_in (ps_line r) (map ps_line rs) EmptyString) as Hin.
    change (ps_line r :: map ps_line rs) with (map ps_line (r :: rs)) in Hin.
    apply in_map_iff in Hin. destruct Hin as [r' [Heq Hr']].
    change (ps_line r :: map ps_line rs) with (map ps_line (r :: rs)).
    rewrite <- Heq. apply ps_line_rstrip. auto.
Qed.
End Parsing.

(** X1. When [docker ps -a] succeeds and prints one line per container,
    with name, status and image between tabulators, ['all_containers']
    of the debug document lists exactly these containers, in order, each
    with its ['name'], ['status'] and ['image']; no container is lost and
    the status may hold blanks. With no container at all the list is
    empty. *)
Theorem all_containers_reads_back_docker_ps :
  forall (H : Host) (G : Type) (rows : list container_row)
         (d : list (string * pyval pyfloat)) (s : Sys G)
         (err : string) (w : World),
    Forall (fun r => printable_row r = true) rows ->
    subprocess_run docker_ps_all_argv (world s)
    = (Ok (Completed 0 (unlines (map ps_line rows)) err), w) ->
    fst (Docker.all_containers d s)
    = Ok (dict_set "all_containers" (PList (map container_entry rows)) d).
Proof.
  intros H G rows d s err w Hrows Hrun.
  rewrite (all_containers_completed d s _ w Hrun). cbn [returncode stdout].
  cbn [Z.eqb]. rewrite (parse_ps_output rows Hrows). reflexivity.
Qed.

(** Two containers, one of them stopped. *)
Lemma all_containers_reads_back_docker_ps_witness :
  fst (@Docker.all_containers Hosts.scripted_host unit []
         (Hosts.boot
            [Hosts.done 0
               (unlines
                  (map ps_line
                     [Row "paper" "Up 2 hours" "itzg/minecraft-server";
                      Row "db" "Exited (0) 3 days ago" "postgres:16"]))]
            tt))
  = Ok [("all_containers",
          PList [PDict [("name", PStr "paper"); ("status", PStr "Up 2 hours");
                        ("image", PStr "itzg/minecraft-server")];
                 PDict [("name", PStr "db");
                        ("status", PStr "Exited (0) 3 days ago");
                        ("image", PStr "postgres:16")]])].
Proof.
  apply (all_containers_reads_back_docker_ps Hosts.scripted_host unit
           [Row "paper" "Up 2 hours" "itzg/minecraft-server";
            Row "db" "Exited (0) 3 days ago" "postgres:16"]
           [] _ EmptyString
           (Hosts.Scripted [] 1700000000 (Ok tt)
              (Exn KeyboardInterrupt EmptyString))).
  - repeat constructor.
  - reflexivity.
Defined.

(** X2. When [pgrep] finds processes and prints their ids, one per line,
    the entry of the pattern in ['search_results'] has ['found'] true
    and under ['pids'] exactly these ids, in order. When [pgrep] exits
    with 0 but prints nothing, ['pids'] is not empty: it holds one empty
    string. *)
Theorem search_pattern_reads_back_pids :
  forall (H : Host) (G : Type) (p : string) (s : Sys G) (err : string)
         (w : World),
    (forall pids : list string,
        pids <> [] ->
        Forall (fun pid => word pid = true) pids ->
        subprocess_run (pgrep_argv p) (world s)
        = (Ok (Completed 0 (unlines pids) err), w) ->
        fst (Direct.search_pattern p s)
        = Ok (PDict [("found", PBool true);
                     ("pids", PList (map PStr pids))]))
    /\ (forall out : string,
           all_space out = true ->
           subprocess_run (pgrep_argv p) (world s)
           = (Ok (Completed 0 out err), w) ->
           fst (Direct.search_pattern p s)
           = Ok (PDict [("found", PBool true);
                        ("pids", PList [PStr EmptyString])])).
Proof.
  intros H G p s err w. split.
  - intros pids Hne Hpids Hrun.
    rewrite (search_pattern_completed p s _ w Hrun). cbn [fst returncode stdout].
    cbn [Z.eqb]. rewrite (split_strip_unlines pids Hne Hpids). reflexivity.
  - intros out Hout Hrun.
    rewrite (search_pattern_completed p s _ w Hrun). cbn [fst returncode stdout].
    cbn [Z.eqb]. rewrite (all_space_strip out Hout). reflexivity.
Qed.

(** Two processes match [bedrock]. *)
Lemma search_pattern_reads_back_pids_witness :
  fst (@Direct.search_pattern Hosts.scripted_host unit "bedrock"
         (Hosts.boot [Hosts.done 0 (unlines ["4242"; "4243"])] tt))
  = Ok (PDict [("found", PBool true);
               ("pids", PList [PStr "4242"; PStr "4243"])]).
Proof.
  apply (proj1 (search_pattern_reads_back_pids Hosts.scripted_host unit
                  "bedrock" _ EmptyString
                  (Hosts.Scripted [] 1700000000 (Ok tt)
                     (Exn KeyboardInterrupt EmptyString)))
           ["4242"; "4243"]).
  - discriminate.
  - repeat constructor.
  - reflexivity.
Defined.

(** ** The status of the container *)

Lemma prefix_Up (x : string) :
  startswith x "Up" = true <-> exists rest, x = "Up" ++ rest.
Proof.
  unfold startswith. split.
  - destruct x as [| a [| b rest]]; cbn -[ascii_dec]; intros Hx.
    + discriminate Hx.
    + destruct (ascii_dec "U" a); discriminate Hx.
    + destruct (ascii_dec "U" a) as [<- |]; [| discriminate Hx].
      destruct (ascii_dec "p" b) as [<- |]; [| discriminate Hx].
      exists rest. reflexivity.
  - intros [rest ->]. destruct rest; reflexivity.
Qed.

Lemma strip_begins_with_Up (out : string) :
  startswith (strip out) "Up" = true
  <-> exists ws rest, all_space ws = true /\ out = ws ++ "Up" ++ rest.
Proof.
  rewrite prefix_Up. unfold strip. split.
  - intros [rest Hrest].
    destruct (rstrip_split out) as [t [Hout _]].
    destruct (lstrip_split (rstrip out)) as [ws [Hr Hws]].
    exists ws, (rest ++ t). split; [assumption |].
    rewrite Hout at 1. rewrite Hr at 1. rewrite Hrest.
    rewrite !append_assoc'. reflexivity.
  - intros [ws [rest [Hws ->]]].
    exists (rstrip rest).
    assert (Hup : rstrip ("Up" ++ rest) = "Up" ++ rstrip rest).
    { cbn [append]. rewrite !rstrip_cons by reflexivity. reflexivity. }
    rewrite rstrip_app by (rewrite Hup; discriminate).
    rewrite Hup, all_space_lstrip by assumption. reflexivity.
Qed.

(** X3. When [docker ps] completes, the Docker probe answers [True]
    exactly when the exit code is 0 and the output is, after any white
    space, [Up] followed by anything: the status of the first container
    printed decides, and upper and lower case matter. *)
Theorem docker_probe_true_iff_output_begins_with_Up :
  forall (H : Host) (G : Type) (name : string) (s : Sys G)
         (p : CompletedProcess) (w : World),
    subprocess_run (docker_ps_argv name) (world s) = (Ok p, w) ->
    (fst (Docker.is_minecraft_running name s) = Ok true
     <-> returncode p = 0%Z
         /\ exists ws rest,
             all_space ws = true /\ stdout p = ws ++ "Up" ++ rest).
Proof.
  intros H G name s p w Hrun.
  rewrite docker_probe by (rewrite Hrun; exact I).
  rewrite Hrun. cbn [fst docker_reports_running].
  rewrite <- strip_begins_with_Up. split.
  - intros [= Hup]. apply andb_prop in Hup. destruct Hup as [Hrc Hup].
    split; [apply Z.eqb_eq |]; assumption.
  - intros [Hrc Hup]. rewrite Hrc, Hup. reflexivity.
Qed.

(** A second container after the running one, and blank lines before. *)
Lemma docker_probe_true_iff_output_begins_with_Up_witness :
  fst (@Docker.is_minecraft_running Hosts.scripted_host unit "paper"
         (Hosts.boot
            [Hosts.done 0
               (String LF (String LF EmptyString)
                  ++ "Up" ++ unlines [" 2 hours"; "Exited (1) 5 minutes ago"])]
            tt))
  = Ok true.
Proof.
  apply (docker_probe_true_iff_output_begins_with_Up Hosts.scripted_host unit
           "paper"
           (Hosts.boot
              [Hosts.done 0
                 (String LF (String LF EmptyString)
                    ++ "Up"
                    ++ unlines [" 2 hours"; "Exited (1) 5 minutes ago"])]
              tt)
           (Completed 0
              (String LF (String LF EmptyString)
                 ++ "Up" ++ unlines [" 2 hours"; "Exited (1) 5 minutes ago"])
              EmptyString)
           (Hosts.Scripted [] 1700000000 (Ok tt)
              (Exn KeyboardInterrupt EmptyString)) eq_refl).
  split; [reflexivity |].
  exists (String LF (String LF EmptyString)),
    (unlines [" 2 hours"; "Exited (1) 5 minutes ago"]).
  split; reflexivity.
Defined.

(** X4. When [docker ps] prints nothing but white space, as it does when
    no container matches the name, [/health] of the Docker script is
    answered 503 with the not-running body, whatever the exit code. *)
Theorem docker_health_503_when_no_container_matches :
  forall (H : Host) (G : Type) (name : string) (addr : string * Z)
         (line : string) (s : Sys G) (p : CompletedProcess) (w : World),
    subprocess_run (docker_ps_argv name) (world s) = (Ok p, w) ->
    all_space (stdout p) = true ->
    fst (Docker.do_GET name (Request addr line "/health") s)
    = Ok (Response 503
            [server_header; date_header w;
             ("Content-Type", "application/json")]
            body_not_running).
Proof.
  intros H G name addr line s p w Hrun Hout.
  pose proof (docker_probe name s) as Hp.
  pose proof (docker_probe_world name s) as Hw.
  rewrite Hrun in Hp, Hw. specialize (Hp I).
  cbn [fst snd docker_reports_running] in Hp, Hw.
  rewrite (all_space_strip _ Hout), andb_false_r in Hp.
  destruct (Docker.is_minecraft_running name s) as [r s'] eqn:Hrunning.
  cbn in Hp, Hw. subst r w.
  rewrite (docker_do_GET_health name addr line s s' false Hrunning).
  reflexivity.
Qed.

(** [docker ps] prints an empty line. *)
Lemma docker_health_503_when_no_container_matches_witness :
  fst (@Docker.do_GET Hosts.scripted_host unit "paper" Hosts.health_request
         (Hosts.boot [Hosts.done 0 (String LF EmptyString)] tt))
  = Ok (Response 503
          [("Server", "BaseHTTP/0.6 Python/3.11.2");
           ("Date", "Tue, 14 Nov 2023 22:13:20 GMT");
           ("Content-Type", "application/json")]
          body_not_running).
Proof.
  apply (docker_health_503_when_no_container_matches Hosts.scripted_host unit
           "paper" ("127.0.0.1", 50000%Z) "GET /health HTTP/1.1"
           (Hosts.boot [Hosts.done 0 (String LF EmptyString)] tt)
           (Completed 0 (String LF EmptyString) EmptyString)
           (Hosts.Scripted [] 1700000000 (Ok tt)
              (Exn KeyboardInterrupt EmptyString)) eq_refl).
  reflexivity.
Defined.

(** ** The lock *)

Lemma mid_write_reachable :
  @Polling.reachable Hosts.scripted_host "bedrock_server" 5
    Moments.mid_write.
Proof.
  pose proof (@Polling.reach_init Hosts.scripted_host "bedrock_server" 5
                (Hosts.boot [Hosts.done 0 "4242"]
                   (@Polling.minecraft_status Hosts.scripted_host))) as R.
  eapply Polling.reach_step in R;
    [| eapply Polling.step_probe; reflexivity].
  eapply Polling.reach_step in R; [| eapply Polling.step_acquire].
  eapply Polling.reach_step in R;
    [| eapply Polling.step_set_running; reflexivity].
  exact R.
Qed.

(** X5. [status_lock] keeps the threads apart: at no moment are two
    handlers inside their [with status_lock:] block, and while the
    checker is inside its own, between its two assignments included, no
    handler is inside one. *)
Theorem with_blocks_exclude_each_other :
  forall (H : Host) (name : string) (interval : Z) (st : Polling.threads),
    Polling.reachable name interval st ->
    (forall i j,
        Polling.handler_in_with (Polling.handlers st i) = true ->
        Polling.handler_in_with (Polling.handlers st j) = true ->
        i = j)
    /\ (Polling.checker_in_with (Polling.checker st) = true ->
        forall i, Polling.handler_in_with (Polling.handlers st i) = false).
Proof.
  intros H name interval st Hreach.
  pose proof (invariant_reachable name interval st Hreach) as Hinv.
  split.
  - intros i j Hi Hj.
    apply (inv_handler_lock st Hinv) in Hi, Hj. congruence.
  - intros Hc. apply (inv_checker_lock st Hinv) in Hc.
    apply (handlers_outside st Hinv). intros i. congruence.
Qed.

(** While the checker is between its two assignments, handler 0 is not
    reading. *)
Lemma with_blocks_exclude_each_other_witness :
  Polling.handler_in_with (Polling.handlers Moments.mid_write 0) = false.
Proof.
  apply (proj2 (with_blocks_exclude_each_other Hosts.scripted_host
                  "bedrock_server" 5 Moments.mid_write mid_write_reachable)).
  reflexivity.
Defined.

Section Progress.
Context `{Host}.
Variable name : string.
Variable interval : Z.

(** A handler that is not waiting for the lock has a next step. *)
Lemma handler_can_move (st : Polling.threads) (i : nat) :
  Polling.handlers st i <> Polling.AtRequest ->
  exists st',
    Polling.step name interval st st'
    /\ Polling.handlers st' i <> Polling.handlers st i.
Proof.
  destruct st as [s l c hs ws]. cbn. intros Hpc.
  destruct (hs i) as [| | b | b lc | b lc | r] eqn:Hi.
  - contradiction.
  - eexists. split; [apply (Polling.step_read_running _ _ _ _ _ _ _ i Hi) |].
    cbn. unfold Polling.set_handler. rewrite Nat.eqb_refl. discriminate.
  - eexists. split; [apply (Polling.step_read_check _ _ _ _ _ _ _ i b Hi) |].
    cbn. unfold Polling.set_handler. rewrite Nat.eqb_refl. discriminate.
  - eexists. split; [apply (Polling.step_exit _ _ _ _ _ _ _ i b lc Hi) |].
    cbn. unfold Polling.set_handler. rewrite Nat.eqb_refl. discriminate.
  - eexists. split.
    + apply (Polling.step_respond _ _ _ _ _ _ _ i b lc
               (Request ("127.0.0.1", 50000%Z) "GET /health HTTP/1.1"
                  "/health") _ _ Hi eq_refl (polling_respond _ _ _ _)).
    + cbn. unfold Polling.set_handler. rewrite Nat.eqb_refl. discriminate.
  - eexists. split; [apply (Polling.step_next _ _ _ _ _ _ _ i r Hi) |].
    cbn. unfold Polling.set_handler. rewrite Nat.eqb_refl. discriminate.
Qed.

(** The checker inside its [with] block has a next step. *)
Lemma checker_can_move (st : Polling.threads) :
  Polling.checker_in_with (Polling.checker st) = true ->
  exists st',
    Polling.step name interval st st'
    /\ Polling.checker st' <> Polling.checker st.
Proof.
  destruct st as [s l c hs ws]. cbn. intros Hc.
  destruct c as [| b | b | | | | e]; try discriminate.
  - eexists. split.
    + apply Polling.step_set_running. reflexivity.
    + discriminate.
  - destruct ((t <- now ;; Polling.set_last_check (PFloat t)) s)
      as [r s'] eqn:Hset.
    assert (Hr : r = Ok tt).
    { revert Hset. unfold bind, now, Polling.set_last_check, get, put.
      destruct (time_time (world s)). cbn. congruence. }
    subst r. eexists. split.
    + apply (Polling.step_set_check _ _ _ _ _ _ _ Hset).
    + discriminate.
  - eexists. split.
    + apply Polling.step_release.
    + discriminate.
Qed.
End Progress.

(** X6. The lock never blocks the script for good: whoever holds
    [status_lock], the checker or a handler, can take its next step
    without waiting for anything, and from every state the threads can
    reach some thread can move on. *)
Theorem lock_holder_can_always_move :
  forall (H : Host) (name : string) (interval : Z) (st : Polling.threads),
    Polling.reachable name interval st ->
    (Polling.status_lock st = Some Polling.Checker ->
     exists st',
       Polling.step name interval st st'
       /\ Polling.checker st' <> Polling.checker st)
    /\ (forall i,
           Polling.status_lock st = Some (Polling.Handler i) ->
           exists st',
             Polling.step name interval st st'
             /\ Polling.handlers st' i <> Polling.handlers st i)
    /\ exists st', Polling.step name interval st st'.
Proof.
  intros H name interval st Hreach.
  pose proof (invariant_reachable name interval st Hreach) as Hinv.
  assert (Hchecker :
            Polling.status_lock st = Some Polling.Checker ->
            exists st',
              Polling.step name interval st st'
              /\ Polling.checker st' <> Polling.checker st).
  { intros Hl. apply checker_can_move.
    apply (inv_checker_lock st Hinv). assumption. }
  assert (Hhandler :
            forall i,
              Polling.status_lock st = Some (Polling.Handler i) ->
              exists st',
                Polling.step name interval st st'
                /\ Polling.handlers st' i <> Polling.handlers st i).
  { intros i Hl. apply handler_can_move.
    apply (inv_handler_lock st Hinv) in Hl. intros Hpc.
    rewrite Hpc in Hl. discriminate. }
  split; [assumption | split; [assumption |]].
  destruct (Polling.status_lock st) as [[| i] |] eqn:Hl.
  - destruct (Hchecker eq_refl) as [st' [Hstep _]]. eauto.
  - destruct (Hhandler i eq_refl) as [st' [Hstep _]]. eauto.
  - destruct st as [s l c hs ws]. cbn in Hl. subst l.
    destruct (hs 0%nat) eqn:H0.
    + eexists. apply (Polling.step_enter _ _ _ _ _ _ 0%nat H0).
    + eexists. apply (Polling.step_read_running _ _ _ _ _ _ _ 0%nat H0).
    + eexists. apply (Polling.step_read_check _ _ _ _ _ _ _ 0%nat _ H0).
    + eexists. apply (Polling.step_exit _ _ _ _ _ _ _ 0%nat _ _ H0).
    + eexists.
      apply (Polling.step_respond _ _ _ _ _ _ _ 0%nat _ _
               (Request ("127.0.0.1", 50000%Z) "GET /health HTTP/1.1"
                  "/health") _ _ H0 eq_refl (polling_respond _ _ _ _)).
    + eexists. apply (Polling.step_next _ _ _ _ _ _ _ 0%nat _ H0).
Qed.

(** Between its two assignments the checker can go on to the second. *)
Lemma lock_holder_can_always_move_witness :
  exists st',
    @Polling.step Hosts.scripted_host "bedrock_server" 5 Moments.mid_write st'
    /\ Polling.checker st' <> Polling.AtSetCheck.
Proof.
  apply (proj1 (lock_holder_can_always_move Hosts.scripted_host
                  "bedrock_server" 5 Moments.mid_write mid_write_reachable)).
  reflexivity.
Defined.

(** ** The request path *)

Ltac read_trace :=
  unfold spawns, stdout_lines, stderr_lines;
  rewrite ?flat_map_app; cbn [flat_map app];
  rewrite ?app_nil_r; auto.

Section UnknownPath.
Context `{Host} {G : Type}.
Variable name : string.

Lemma direct_do_GET_other (self : request) (s : Sys G) :
  path self <> "/health" -> path self <> "/debug" ->
  Direct.do_GET name self s
  = (Ok (not_found_reply (world s)), answered self 404 s).
Proof.
  intros Hhealth Hdebug.
  apply String.eqb_neq in Hhealth. apply String.eqb_neq in Hdebug.
  unfold Direct.do_GET. rewrite Hhealth, Hdebug. unfold bind.
  rewrite direct_send_response. reflexivity.
Qed.

Lemma docker_do_GET_other (self : request) (s : Sys G) :
  path self <> "/health" -> path self <> "/debug" ->
  Docker.do_GET name self s
  = (Ok (not_found_reply (world s)), answered self 404 s).
Proof.
  intros Hhealth Hdebug.
  apply String.eqb_neq in Hhealth. apply String.eqb_neq in Hdebug.
  unfold Docker.do_GET. rewrite Hhealth, Hdebug. unfold bind.
  rewrite docker_send_response. reflexivity.
Qed.

(** What [send_response] leaves behind: a line on standard output. *)
Lemma answered_effects (self : request) (code : Z) (s : Sys G) :
  spawns (trace (answered self code s)) = spawns (trace s)
  /\ stdout_lines (trace (answered self code s))
     = (stdout_lines (trace s) ++ [log_line self code])%list
  /\ stderr_lines (trace (answered self code s)) = stderr_lines (trace s)
  /\ globals (answered self code s) = globals s.
Proof. unfold answered. cbn. repeat split; read_trace. Qed.
End UnknownPath.

(** X7. A path is compared as a whole: any path other than [/health]
    and [/debug] (such as [/health/] or [/health?x=1]) is answered 404
    with the headers [Server] and [Date] only and an empty body, and
    the script starts no probe for it: it logs the request on standard
    output, reads the clock for the date, and starts no child process.
    The polling script does so for [/debug] too. *)
Theorem unknown_path_is_404_without_probe :
  forall (H : Host) (G : Type) (name : string) (addr : string * Z)
         (line p : string) (s : Sys G) (sp : Sys Polling.G),
    p <> "/health" ->
    (p <> "/debug" ->
     Direct.do_GET name (Request addr line p) s
     = (Ok (Response 404 [server_header; date_header (world s)] EmptyString),
         MkSys (snd (time_time (world s)))
           (trace s ++ [Printed Stdout (log_line (Request addr line p) 404)])
           (globals s))
     /\ Docker.do_GET name (Request addr line p) s
        = (Ok (Response 404 [server_header; date_header (world s)]
                 EmptyString),
            MkSys (snd (time_time (world s)))
              (trace s
                 ++ [Printed Stdout (log_line (Request addr line p) 404)])
              (globals s))
     /\ spawns (trace (snd (Direct.do_GET name (Request addr line p) s)))
        = spawns (trace s)
     /\ spawns (trace (snd (Docker.do_GET name (Request addr line p) s)))
        = spawns (trace s))
    /\ Polling.do_GET (Request addr line p) sp
       = (Ok (Response 404 [server_header; date_header (world sp)]
                EmptyString),
           MkSys (snd (time_time (world sp)))
             (trace sp
                ++ [Printed Stdout (log_line (Request addr line p) 404)])
             (globals sp))
    /\ spawns (trace (snd (Polling.do_GET (Request addr line p) sp)))
       = spawns (trace sp).
Proof.
  intros H G name addr line p s sp Hhealth. split; [| split].
  - intros Hdebug.
    rewrite (direct_do_GET_other name (Request addr line p) s Hhealth Hdebug).
    rewrite (docker_do_GET_other name (Request addr line p) s Hhealth Hdebug).
    repeat split; apply answered_effects.
  - apply (polling_do_GET_other (Request addr line p) sp Hhealth).
  - rewrite (polling_do_GET_other (Request addr line p) sp Hhealth).
    apply answered_effects.
Qed.

(** A query string makes [/health] an unknown path. *)
Lemma unknown_path_is_404_without_probe_witness :
  @Direct.do_GET Hosts.scripted_host unit "bedrock_server"
    (Request ("127.0.0.1", 50000%Z) "GET /health?full=1 HTTP/1.1"
       "/health?full=1")
    (Hosts.boot [Hosts.done 0 "4242"] tt)
  = (Ok (Response 404
           [("Server", "BaseHTTP/0.6 Python/3.11.2");
            ("Date", "Tue, 14 Nov 2023 22:13:20 GMT")]
           EmptyString),
      @MkSys Hosts.scripted_host unit
        (Hosts.Scripted [Hosts.done 0 "4242"] 1700000001 (Ok tt)
           (Exn KeyboardInterrupt EmptyString))
        [Printed Stdout
           ("127.0.0.1 - " ++ dq "GET /health?full=1 HTTP/1.1" ++ " 404 -")]
        tt).
Proof.
  exact (proj1 (proj1 (unknown_path_is_404_without_probe
                         Hosts.scripted_host unit "bedrock_server"
                         ("127.0.0.1", 50000%Z) "GET /health?full=1 HTTP/1.1"
                         "/health?full=1"
                         (Hosts.boot [Hosts.done 0 "4242"] tt)
                         (Hosts.boot [] Polling.minecraft_status)
                         ltac:(discriminate))
                  ltac:(discriminate))).
Defined.

(** X8. In the polling script only the checker probes and writes the
    dictionary. [do_GET] returns an answer for every request; it starts
    no child process, writes nothing to standard error, leaves
    [minecraft_status] as it is, and writes to standard output the one
    line that logs the request with the code of the answer. Among the
    threads, every step that is not the checker's leaves the dictionary
    and the record of the completed turns unchanged and starts no child
    process. *)
Theorem polling_requests_neither_probe_nor_write :
  forall (H : Host) (name : string) (interval : Z),
    (forall self (sp : Sys Polling.G),
        exists r,
          fst (Polling.do_GET self sp) = Ok r
          /\ globals (snd (Polling.do_GET self sp)) = globals sp
          /\ spawns (trace (snd (Polling.do_GET self sp)))
             = spawns (trace sp)
          /\ stderr_lines (trace (snd (Polling.do_GET self sp)))
             = stderr_lines (trace sp)
          /\ stdout_lines (trace (snd (Polling.do_GET self sp)))
             = (stdout_lines (trace sp) ++ [log_line self (status r)])%list)
    /\ (forall st st',
           Polling.step name interval st st' ->
           Polling.checker st' = Polling.checker st ->
           globals (Polling.sys st') = globals (Polling.sys st)
           /\ Polling.written st' = Polling.written st
           /\ spawns (trace (Polling.sys st'))
              = spawns (trace (Polling.sys st))
           /\ stderr_lines (trace (Polling.sys st'))
              = stderr_lines (trace (Polling.sys st))).
Proof.
  intros H name interval. split.
  - intros [addr line p] sp.
    destruct (string_dec p "/health") as [-> | Hother].
    + rewrite polling_do_GET_health.
      exists (polling_reply (world sp) (Polling.is_running (globals sp))
                (Polling.last_check (globals sp))).
      cbn [fst snd status polling_reply].
      split; [reflexivity |].
      destruct (answered_effects (Request addr line "/health")
                  (health_code (Polling.is_running (globals sp))) sp)
        as [Hsp [Hout [Herr Hg]]].
      auto.
    + rewrite (polling_do_GET_other (Request addr line p) sp Hother).
      exists (not_found_reply (world sp)). cbn [fst snd status not_found_reply].
      split; [reflexivity |].
      destruct (answered_effects (Request addr line p) 404 sp)
        as [Hsp [Hout [Herr Hg]]].
      auto.
  - intros st st' Hstep Hsame.
    inversion Hstep; subst; cbn in *; try discriminate; auto.
    + (* a handler answers: a line on standard output, the clock read *)
      match goal with
      | Hp : Polling.respond _ _ _ _ = _ |- _ =>
          rewrite polling_respond in Hp; injection Hp as _ <-
      end.
      destruct (answered_effects self (health_code b) s)
        as [Hsp [_ [Herr Hg]]].
      auto.
Qed.

(** Handler 0 answers after the first turn of the checker. *)
Lemma polling_requests_neither_probe_nor_write_witness :
  exists st',
    @Polling.step Hosts.scripted_host "bedrock_server" 5
      Hosts.after_one_turn st'
    /\ Polling.handlers st' 0%nat <> Polling.handlers Hosts.after_one_turn 0%nat
    /\ globals (Polling.sys st') = globals (Polling.sys Hosts.after_one_turn)
    /\ Polling.written st' = Polling.written Hosts.after_one_turn.
Proof.
  assert (Hstep :
            @Polling.step Hosts.scripted_host "bedrock_server" 5
              Hosts.after_one_turn
              (Polling.Threads
                 (answered Hosts.health_request 200
                    (Polling.sys Hosts.after_one_turn))
                 None Polling.AtSleep
                 (Polling.set_handler 0
                    (Polling.Responded
                       (polling_reply
                          (world (Polling.sys Hosts.after_one_turn))
                          true (PFloat 1700000000%Z)))
                    Hosts.about_to_answer)
                 (Polling.written Hosts.after_one_turn))).
  { eapply (Polling.step_respond _ _ _ _ _ _ _ 0%nat _ _
              Hosts.health_request); reflexivity. }
  eexists. split; [exact Hstep |]. split; [discriminate |].
  destruct (proj2 (polling_requests_neither_probe_nor_write
                     Hosts.scripted_host "bedrock_server" 5) _ _ Hstep
              eq_refl) as [Hg [Hw _]].
  split; assumption.
Defined.

Section OneProbe.
Context `{Host} {G : Type}.
Variable name : string.

Lemma direct_probe_effects (s : Sys G) :
  spawns (trace (snd (Direct.is_minecraft_running name s)))
  = (spawns (trace s) ++ [pgrep_argv name])%list
  /\ stdout_lines (trace (snd (Direct.is_minecraft_running name s)))
     = stdout_lines (trace s)
  /\ globals (snd (Direct.is_minecraft_running name s)) = globals s.
Proof.
  unfold Direct.is_minecraft_running, pgrep_argv.
  run_probe s.
  - repeat split; read_trace.
  - destruct cls; cbn; repeat split; read_trace.
Qed.

Lemma docker_probe_effects (s : Sys G) :
  spawns (trace (snd (Docker.is_minecraft_running name s)))
  = (spawns (trace s) ++ [docker_ps_argv name])%list
  /\ stdout_lines (trace (snd (Docker.is_minecraft_running name s)))
     = stdout_lines (trace s)
  /\ globals (snd (Docker.is_minecraft_running name s)) = globals s.
Proof.
  unfold Docker.is_minecraft_running, docker_ps_argv.
  run_probe s.
  - destruct (returncode p =? 0)%Z; cbn; repeat split; read_trace.
  - destruct cls; cbn; repeat split; read_trace.
Qed.

(** A request for [/health] is the probe and then, when the probe has
    returned, [send_response]. *)
Lemma direct_health_effects (addr : string * Z) (line : string) (s : Sys G) :
  spawns (trace (snd (Direct.do_GET name (Request addr line "/health") s)))
  = (spawns (trace s) ++ [pgrep_argv name])%list
  /\ stdout_lines
       (trace (snd (Direct.do_GET name (Request addr line "/health") s)))
     = (stdout_lines (trace s)
          ++ match fst (Direct.is_minecraft_running name s) with
             | Ok up =>
                 [log_line (Request addr line "/health")
                    (if up then 200 else 503)]
             | Raise _ => []
             end)%list
  /\ globals (snd (Direct.do_GET name (Request addr line "/health") s))
     = globals s.
Proof.
  destruct (direct_probe_effects s) as [Hsp [Hout Hg]].
  destruct (Direct.is_minecraft_running name s) as [[up | e] s'] eqn:Hup;
    cbn [fst snd] in *.
  - rewrite (direct_do_GET_health name addr line s s' up Hup). cbn [snd].
    destruct (answered_effects (Request addr line "/health") (health_code up)
                s') as [Hsp' [Hout' [_ Hg']]].
    rewrite Hsp', Hout', Hg', Hsp, Hout, Hg. destruct up; auto.
  - rewrite (direct_do_GET_health_raise name addr line s s' e Hup).
    cbn [snd]. rewrite app_nil_r. auto.
Qed.

Lemma docker_health_effects (addr : string * Z) (line : string) (s : Sys G) :
  spawns (trace (snd (Docker.do_GET name (Request addr line "/health") s)))
  = (spawns (trace s) ++ [docker_ps_argv name])%list
  /\ stdout_lines
       (trace (snd (Docker.do_GET name (Request addr line "/health") s)))
     = (stdout_lines (trace s)
          ++ match fst (Docker.is_minecraft_running name s) with
             | Ok up =>
                 [log_line (Request addr line "/health")
                    (if up then 200 else 503)]
             | Raise _ => []
             end)%list
  /\ globals (snd (Docker.do_GET name (Request addr line "/health") s))
     = globals s.
Proof.
  destruct (docker_probe_effects s) as [Hsp [Hout Hg]].
  destruct (Docker.is_minecraft_running name s) as [[up | e] s'] eqn:Hup;
    cbn [fst snd] in *.
  - rewrite (docker_do_GET_health name addr line s s' up Hup). cbn [snd].
    destruct (answered_effects (Request addr line "/health") (health_code up)
                s') as [Hsp' [Hout' [_ Hg']]].
    rewrite Hsp', Hout', Hg', Hsp, Hout, Hg. destruct up; auto.
  - rewrite (docker_do_GET_health_raise name addr line s s' e Hup).
    cbn [snd]. rewrite app_nil_r. auto.
Qed.
End OneProbe.

(** X9. Each request for [/health] to one of the two scripts that probe
    on request starts exactly one child process, [pgrep -f] on the
    configured name or [docker ps] filtered by it, whatever the outcome,
    and changes no module-level variable. To standard output it writes
    one line, which logs the request with the code of the answer, 200 or
    503; when an interrupt cuts the probe short there is no answer and
    no line. *)
Theorem health_request_starts_one_child_process :
  forall (H : Host) (G : Type) (name : string) (addr : string * Z)
         (line : string) (s : Sys G),
    (spawns (trace (snd (Direct.do_GET name (Request addr line "/health") s)))
     = (spawns (trace s) ++ [pgrep_argv name])%list
     /\ stdout_lines
          (trace (snd (Direct.do_GET name (Request addr line "/health") s)))
        = (stdout_lines (trace s)
             ++ match fst (Direct.is_minecraft_running name s) with
                | Ok up =>
                    [log_line (Request addr line "/health")
                       (if up then 200 else 503)]
                | Raise _ => []
                end)%list
     /\ globals (snd (Direct.do_GET name (Request addr line "/health") s))
        = globals s)
    /\ (spawns
          (trace (snd (Docker.do_GET name (Request addr line "/health") s)))
        = (spawns (trace s) ++ [docker_ps_argv name])%list
        /\ stdout_lines
             (trace (snd (Docker.do_GET name (Request addr line "/health") s)))
           = (stdout_lines (trace s)
                ++ match fst (Docker.is_minecraft_running name s) with
                   | Ok up =>
                       [log_line (Request addr line "/health")
                          (if up then 200 else 503)]
                   | Raise _ => []
                   end)%list
        /\ globals (snd (Docker.do_GET name (Request addr line "/health") s))
           = globals s).
Proof.
  intros H G name addr line s. split.
  - apply direct_health_effects.
  - apply docker_health_effects.
Qed.

(** X10. An interrupt is no probe failure: when [subprocess.run] is cut
    short by [KeyboardInterrupt] or [SystemExit], no prober turns it
    into [False]. The exception leaves [do_GET] without an answer and
    without a diagnostic, and it ends the loop of [background_checker]
    in its first turn. *)
Theorem interrupts_pass_through_the_probers :
  forall (H : Host) (G : Type) (name : string) (interval : Z)
         (addr : string * Z) (line : string) (s : Sys G)
         (sp : Sys Polling.G) (e : exn),
    is_Exception (exn_cls e) = false ->
    (forall w,
        subprocess_run (pgrep_argv name) (world s) = (Raise e, w) ->
        fst (Direct.do_GET name (Request addr line "/health") s) = Raise e
        /\ stderr_lines
             (trace (snd (Direct.do_GET name (Request addr line "/health") s)))
           = stderr_lines (trace s)
        /\ stdout_lines
             (trace (snd (Direct.do_GET name (Request addr line "/health") s)))
           = stdout_lines (trace s))
    /\ (forall w,
           subprocess_run (docker_ps_argv name) (world s) = (Raise e, w) ->
           fst (Docker.do_GET name (Request addr line "/health") s) = Raise e
           /\ stderr_lines
                (trace
                   (snd (Docker.do_GET name (Request addr line "/health") s)))
              = stderr_lines (trace s)
           /\ stdout_lines
                (trace
                   (snd (Docker.do_GET name (Request addr line "/health") s)))
              = stdout_lines (trace s))
    /\ (forall w,
           subprocess_run (pgrep_argv name) (world sp) = (Raise e, w) ->
           fst (Polling.check_minecraft_process name sp) = Raise e
           /\ forall n,
               fst (Polling.background_checker name interval (S n) sp)
               = Raise e).
Proof.
  intros H G name interval addr line s sp [cls msg] Hexn. cbn in Hexn.
  split; [| split]; intros w Hrun.
  - assert (Hprobe : Direct.is_minecraft_running name s
                     = (Raise (Exn cls msg),
                         MkSys w (trace s ++ [Spawned (pgrep_argv name)])
                           (globals s))).
    { unfold Direct.is_minecraft_running, bind, try_except, run, ret, eprint.
      unfold pgrep_argv in *. rewrite Hrun. cbn.
      destruct cls; try discriminate; reflexivity. }
    rewrite (direct_do_GET_health_raise name addr line s _ _ Hprobe).
    cbn. repeat split; read_trace.
  - assert (Hprobe : Docker.is_minecraft_running name s
                     = (Raise (Exn cls msg),
                         MkSys w (trace s ++ [Spawned (docker_ps_argv name)])
                           (globals s))).
    { unfold Docker.is_minecraft_running, bind, try_except, run, ret, eprint.
      unfold docker_ps_argv in *. rewrite Hrun. cbn.
      destruct cls; try discriminate; reflexivity. }
    rewrite (docker_do_GET_health_raise name addr line s _ _ Hprobe).
    cbn. repeat split; read_trace.
  - assert (Hprobe : forall tr g,
               Polling.check_minecraft_process name (MkSys (world sp) tr g)
               = (Raise (Exn cls msg),
                   MkSys w (tr ++ [Spawned (pgrep_argv name)]) g)).
    { intros tr g.
      unfold Polling.check_minecraft_process, bind, try_except, run, ret.
      unfold pgrep_argv in *. cbn. rewrite Hrun. cbn. rewrite Hexn.
      reflexivity. }
    split.
    + destruct sp as [wp tr g]. cbn in Hprobe. rewrite Hprobe. reflexivity.
    + intros n. unfold Polling.background_checker, bind, print.
      cbn [Polling.checker_loop]. unfold Polling.checker_cycle, bind.
      rewrite Hprobe. reflexivity.
Qed.

(** Ctrl+C during the probe. *)
Lemma interrupts_pass_through_the_probers_witness :
  fst (@Direct.do_GET Hosts.scripted_host unit "bedrock_server"
         Hosts.health_request
         (Hosts.boot [Raise (Exn KeyboardInterrupt EmptyString)] tt))
  = Raise (Exn KeyboardInterrupt EmptyString).
Proof.
  apply (proj1 (interrupts_pass_through_the_probers Hosts.scripted_host unit
                  "bedrock_server" 5 ("127.0.0.1", 50000%Z)
                  "GET /health HTTP/1.1"
                  (Hosts.boot [Raise (Exn KeyboardInterrupt EmptyString)] tt)
                  (Hosts.boot [] Polling.minecraft_status)
                  (Exn KeyboardInterrupt EmptyString) eq_refl)
           (Hosts.Scripted [] 1700000000 (Ok tt)
              (Exn KeyboardInterrupt EmptyString))).
  reflexivity.
Defined.

(** ** The shape of the Docker debug document *)

Section DockerInfo.
Context `{Host} {G : Type}.
Variable name : string.

Lemma all_containers_shape (s s1 : Sys G)
    (d1 : list (string * pyval pyfloat)) :
  Docker.all_containers [] s = (Ok d1, s1) ->
  (exists l, d1 = [("all_containers", PList l)])
  \/ (exists m, d1 = [("error", PStr m)]).
Proof.
  unfold Docker.all_containers, try_except, bind, run, ret.
  destruct (subprocess_run _ (world s)) as [[r | e] w]; cbn.
  - destruct (returncode r =? 0)%Z; intros [= <- _]; eauto.
  - destruct (is_Exception (exn_cls e)); [| discriminate].
    intros [= <- _]. eauto.
Qed.

Lemma target_container_shape (d d2 : list (string * pyval pyfloat))
    (s s2 : Sys G) :
  Docker.target_container name d s = (Ok d2, s2) ->
  d2 = d
  \/ (exists st nm,
         d2 = dict_set "target_container"
                (PDict [("state", st); ("name", nm)]) d)
  \/ d2 = dict_set "target_container" (PStr "not_found") d
  \/ (exists m, d2 = dict_set "target_container_error" (PStr m) d).
Proof.
  unfold Docker.target_container, try_except, bind, run, ret, lift.
  destruct (subprocess_run _ (world s)) as [[r | e] w]; cbn.
  - destruct (returncode r =? 0)%Z; [| intros [= <- _]; auto].
    destruct (json_loads (stdout r)) as [info | e]; cbn.
    + destruct (truthy float_bool info); [| intros [= <- _]; auto].
      destruct (getitem0 info) as [first | e]; cbn.
      * destruct (method_get first "State" (PDict [])) as [st | e]; cbn.
        -- destruct (method_get first "Name" (PStr EmptyString))
             as [nm | e]; cbn.
           ++ intros [= <- _]. right. left. eauto.
           ++ destruct (is_Exception (exn_cls e)); [| discriminate].
              intros [= <- _]. right. right. right. eauto.
        -- destruct (is_Exception (exn_cls e)); [| discriminate].
           intros [= <- _]. right. right. right. eauto.
      * destruct (is_Exception (exn_cls e)); [| discriminate].
        intros [= <- _]. right. right. right. eauto.
    + destruct (is_Exception (exn_cls e)); [| discriminate].
      intros [= <- _]. right. right. right. eauto.
  - destruct (is_Exception (exn_cls e)); [| discriminate].
    intros [= <- _]. right. right. right. eauto.
Qed.

(** An inspection that prints something empty ([[]], [{}], [null], ...)
    adds nothing to ['docker_info']. *)
Lemma target_container_empty (d : list (string * pyval pyfloat)) (s : Sys G)
    (r : CompletedProcess) (w : World) (info : pyval pyfloat) :
  subprocess_run ["docker"; "inspect"; name] (world s) = (Ok r, w) ->
  returncode r = 0%Z ->
  json_loads (stdout r) = Ok info ->
  truthy float_bool info = false ->
  fst (Docker.target_container name d s) = Ok d.
Proof.
  intros Hrun Hrc Hjson Hfalsy.
  unfold Docker.target_container, try_except, bind, run, ret, lift.
  rewrite Hrun, Hrc. cbn. rewrite Hjson, Hfalsy. reflexivity.
Qed.
End DockerInfo.

(** X11. The Docker debug document always has the same frame: under
    ['docker_info'] comes first either ['all_containers'] or ['error'],
    never both, then at most one of ['target_container'] (the state and
    name of the target, or ['not_found']) and ['target_container_error'];
    the inspection never removes or overwrites what the enumeration has
    stored. When [docker inspect] succeeds but prints an empty JSON
    value, the document has no entry for the target at all. *)
Theorem docker_info_has_a_fixed_frame :
  forall (H : Host) (G : Type) (name : string) (s s' : Sys G)
         (doc : pyval pyfloat),
    (Docker.debug_data name s = (Ok doc, s') ->
     exists b first rest,
       doc = PDict [("container_name", PStr name);
                    ("is_running", PBool b);
                    ("docker_info", PDict (first :: rest))]
       /\ ((exists l, first = ("all_containers", PList l))
           \/ (exists m, first = ("error", PStr m)))
       /\ (rest = []
           \/ (exists st nm,
                  rest = [("target_container",
                            PDict [("state", st); ("name", nm)])])
           \/ rest = [("target_container", PStr "not_found")]
           \/ (exists m, rest = [("target_container_error", PStr m)])))
    /\ (forall d r w info,
           subprocess_run ["docker"; "inspect"; name] (world s) = (Ok r, w) ->
           returncode r = 0%Z ->
           json_loads (stdout r) = Ok info ->
           truthy float_bool info = false ->
           fst (Docker.target_container name d s) = Ok d).
Proof.
  intros H G name s s' doc. split.
  - intros Hdoc.
    destruct (docker_debug_shape name s s' doc Hdoc)
      as (b & s0 & d1 & s1 & d2 & _ & H1 & H2 & ->).
    apply all_containers_shape in H1. apply target_container_shape in H2.
    destruct H1 as [[l ->] | [m ->]];
      destruct H2 as [-> | [[st [nm ->]] | [-> | [m' ->]]]];
      cbn; eexists b, _, _; (split; [reflexivity |]); split; eauto 7.
  - intros d r w info. apply target_container_empty.
Qed.

(** [docker inspect] prints an empty list. *)
Lemma docker_info_has_a_fixed_frame_witness :
  fst (@Docker.target_container Hosts.scripted_host unit "paper" []
         (Hosts.boot [Hosts.done 0 "[]"] tt))
  = Ok [].
Proof.
  apply (proj2 (docker_info_has_a_fixed_frame Hosts.scripted_host unit
                  "paper" (Hosts.boot [Hosts.done 0 "[]"] tt)
                  (Hosts.boot [] tt) PNone)
           [] (Completed 0 "[]" EmptyString)
           (Hosts.Scripted [] 1700000000 (Ok tt)
              (Exn KeyboardInterrupt EmptyString))
           (PList [])); reflexivity.
Defined.

(** ** Startup and shutdown *)

Section DockerStartup.
Context `{Host} {G : Type}.
Variable port : Z.
Variable name : string.

(** Unless the executable is missing, the check of [main] goes on,
    having started [docker --version] and printed one line. *)
Lemma check_docker_passes (s : Sys G) :
  docker_found (fst (subprocess_run ["docker"; "--version"] (world s))) ->
  exists out line,
    Docker.check_docker s
    = (Ok tt,
        MkSys (snd (subprocess_run ["docker"; "--version"] (world s)))
          (trace s ++ [Spawned ["docker"; "--version"]; Printed out line])
          (globals s)).
Proof.
  unfold Docker.check_docker, try_except, bind, run, print, eprint.
  destruct (subprocess_run _ (world s)) as [[p | [cls msg]] w]; cbn.
  - intros _. destruct (returncode p =? 0)%Z; cbn;
      rewrite <- app_assoc; do 2 eexists; reflexivity.
  - intros [Hexn Hfound]. rewrite Hfound, Hexn. cbn.
    rewrite <- app_assoc. do 2 eexists. reflexivity.
Qed.

Lemma docker_main_listens (s : Sys G) :
  docker_found (fst (subprocess_run ["docker"; "--version"] (world s))) ->
  listening (trace (snd (Docker.main port name s))) = true.
Proof.
  intros Hfound. unfold Docker.main, bind at 1 2 3 4 5. unfold print. cbn.
  match goal with
  | |- context [bind Docker.check_docker _ ?s1] =>
      destruct (check_docker_passes s1 Hfound) as [out [line Hcheck]];
      unfold bind at 1; rewrite Hcheck
  end.
  unfold bind, try_except, print, eprint, listen, serve, sys_exit, raise.
  cbn. destruct (tcp_bind port _) as [[[] | [cls msg]] w]; cbn.
  - destruct (serve_forever w) as [[cls msg] w']. cbn.
    destruct cls; cbn;
      rewrite ?listening_app; cbn; rewrite ?orb_true_r; auto.
  - destruct cls; cbn;
      rewrite ?listening_app; cbn; rewrite ?orb_true_r; auto.
Qed.
End DockerStartup.

(** X12. Only a missing executable stops the Docker script at startup.
    When [docker --version] completes with an exit code other than 0,
    or fails with another error (a timeout, a permission error), the
    check prints a warning to standard error and [main] goes on to open
    the listener. *)
Theorem docker_startup_check_is_fatal_only_when_missing :
  forall (H : Host) (G : Type) (port : Z) (name : string) (s : Sys G),
    docker_found (fst (subprocess_run ["docker"; "--version"] (world s))) ->
    listening (trace (snd (Docker.main port name s))) = true
    /\ (forall p w,
           subprocess_run ["docker"; "--version"] (world s) = (Ok p, w) ->
           returncode p <> 0%Z ->
           fst (Docker.check_docker s) = Ok tt
           /\ stderr_lines (trace (snd (Docker.check_docker s)))
              = (stderr_lines (trace s)
                   ++ ["Warning: Docker command failed"])%list)
    /\ (forall e w,
           subprocess_run ["docker"; "--version"] (world s) = (Raise e, w) ->
           fst (Docker.check_docker s) = Ok tt
           /\ stderr_lines (trace (snd (Docker.check_docker s)))
              = (stderr_lines (trace s)
                   ++ [("Warning: Could not check Docker version: "
                          ++ exn_str e)%string])%list).
Proof.
  intros H G port name s Hfound. split; [| split].
  - apply docker_main_listens. assumption.
  - intros p w Hrun Hrc. apply Z.eqb_neq in Hrc.
    unfold Docker.check_docker, try_except, bind, run, print, eprint.
    rewrite Hrun. cbn. rewrite Hrc. cbn. split; [reflexivity |].
    read_trace.
  - intros e w Hrun. rewrite Hrun in Hfound. destruct Hfound as [Hexn Hnf].
    unfold Docker.check_docker, try_except, bind, run, print, eprint.
    rewrite Hrun. cbn. rewrite Hnf, Hexn. cbn. split; [reflexivity |].
    read_trace.
Qed.

(** [docker --version] times out: the script listens all the same. *)
Lemma docker_startup_check_is_fatal_only_when_missing_witness :
  listening
    (trace
       (snd (@Docker.main Hosts.scripted_host unit 8080 "paper"
               (Hosts.boot
                  [Raise (Exn TimeoutExpired
                            "Command timed out after 5 seconds")] tt))))
  = true.
Proof.
  apply (proj1 (docker_startup_check_is_fatal_only_when_missing
                  Hosts.scripted_host unit 8080 "paper"
                  (Hosts.boot
                     [Raise (Exn TimeoutExpired
                               "Command timed out after 5 seconds")] tt)
                  (conj eq_refl eq_refl))).
Defined.

Ltac run_main :=
  unfold bind, try_except, print, eprint, listen, serve, sys_exit, raise,
    start_thread, sleep, bind_diagnostic;
  cbn.

Section ListenerFails.
Context `{Host}.
Variable port : Z.
Variable name : string.
Variable e : exn.
Hypothesis He : is_OSError (exn_cls e) = true.

Lemma direct_main_bind_fails {G : Type} (s : Sys G) (w : World) :
  tcp_bind port (world s) = (Raise e, w) ->
  exit_status (fst (Direct.main port name s)) = 1%Z
  /\ last (trace (snd (Direct.main port name s))) (Listening port)
     = Printed Stderr (bind_diagnostic port e).
Proof.
  intros Hbind. unfold Direct.main. run_main. rewrite Hbind.
  destruct e as [cls msg]. cbn in He |- *.
  destruct cls; try discriminate; cbn; rewrite last_last; auto.
Qed.

Lemma polling_main_bind_fails (interval : Z) (s : Sys Polling.G)
    (w : World) :
  tcp_bind port (time_sleep 1 (world s)) = (Raise e, w) ->
  exit_status (fst (Polling.main port name interval s)) = 1%Z
  /\ last (trace (snd (Polling.main port name interval s))) (Listening port)
     = Printed Stderr (bind_diagnostic port e).
Proof.
  intros Hbind. unfold Polling.main. run_main. rewrite Hbind.
  destruct e as [cls msg]. cbn in He |- *.
  destruct cls; try discriminate; cbn; rewrite last_last; auto.
Qed.

Lemma docker_main_bind_fails {G : Type} (s : Sys G) (w : World) :
  docker_found (fst (subprocess_run ["docker"; "--version"] (world s))) ->
  tcp_bind port (snd (subprocess_run ["docker"; "--version"] (world s)))
  = (Raise e, w) ->
  exit_status (fst (Docker.main port name s)) = 1%Z
  /\ last (trace (snd (Docker.main port name s))) (Listening port)
     = Printed Stderr (bind_diagnostic port e).
Proof.
  intros Hfound Hbind.
  remember (Docker.main port name s) as m eqn:Hm.
  unfold Docker.main, bind at 1 2 3 4 5 in Hm. unfold print in Hm.
  cbn in Hm.
  match type of Hm with
  | context [bind Docker.check_docker _ ?s1] =>
      destruct (check_docker_passes s1 Hfound) as [out [line Hcheck]];
      unfold bind at 1 in Hm; rewrite Hcheck in Hm
  end.
  unfold bind, try_except, print, eprint, listen, serve, sys_exit, raise
    in Hm.
  cbn in Hm. rewrite Hbind in Hm.
  destruct e as [cls msg]. cbn in He.
  destruct cls; try discriminate; cbn in Hm; subst m; cbn;
    rewrite last_last; auto.
Qed.
End ListenerFails.

Section Interrupted.
Context `{Host}.
Variable port : Z.
Variable name : string.
Variable msg : string.

Lemma direct_main_interrupted {G : Type} (s : Sys G) (w w' : World) :
  tcp_bind port (world s) = (Ok tt, w) ->
  serve_forever w = (Exn KeyboardInterrupt msg, w') ->
  fst (Direct.main port name s) = Ok tt
  /\ last (trace (snd (Direct.main port name s))) (Listening port)
     = Printed Stdout (String LF "Shutting down server...").
Proof.
  intros Hbind Hserve. unfold Direct.main. run_main.
  rewrite Hbind. cbn. rewrite Hserve. cbn. rewrite last_last. auto.
Qed.

Lemma polling_main_interrupted (interval : Z) (s : Sys Polling.G)
    (w w' : World) :
  tcp_bind port (time_sleep 1 (world s)) = (Ok tt, w) ->
  serve_forever w = (Exn KeyboardInterrupt msg, w') ->
  fst (Polling.main port name interval s) = Ok tt
  /\ last (trace (snd (Polling.main port name interval s))) (Listening port)
     = Printed Stdout (String LF "Shutting down server...").
Proof.
  intros Hbind Hserve. unfold Polling.main. run_main.
  rewrite Hbind. cbn. rewrite Hserve. cbn. rewrite last_last. auto.
Qed.

Lemma docker_main_interrupted {G : Type} (s : Sys G) (w w' : World) :
  docker_found (fst (subprocess_run ["docker"; "--version"] (world s))) ->
  tcp_bind port (snd (subprocess_run ["docker"; "--version"] (world s)))
  = (Ok tt, w) ->
  serve_forever w = (Exn KeyboardInterrupt msg, w') ->
  fst (Docker.main port name s) = Ok tt
  /\ last (trace (snd (Docker.main port name s))) (Listening port)
     = Printed Stdout (String LF "Shutting down server...").
Proof.
  intros Hfound Hbind Hserve.
  remember (Docker.main port name s) as m eqn:Hm.
  unfold Docker.main, bind at 1 2 3 4 5 in Hm. unfold print in Hm.
  cbn in Hm.
  match type of Hm with
  | context [bind Docker.check_docker _ ?s1] =>
      destruct (check_docker_passes s1 Hfound) as [out [line Hcheck]];
      unfold bind at 1 in Hm; rewrite Hcheck in Hm
  end.
  unfold bind, try_except, print, eprint, listen, serve, sys_exit, raise
    in Hm.
  cbn in Hm. rewrite Hbind in Hm. cbn in Hm. rewrite Hserve in Hm.
  cbn in Hm. subst m. cbn. rewrite last_last. auto.
Qed.
End Interrupted.

(** X13. When the listening socket cannot be opened because of an
    [OSError] (the port is taken, or needs privileges), each of the
    three scripts ends with exit status 1, and the last thing it does is
    to print the diagnostic to standard error: the hint at [sudo] for a
    [PermissionError], the text of the error otherwise. *)
Theorem bind_failure_exits_1_with_diagnostic :
  forall (H : Host) (G : Type) (port : Z) (name : string) (interval : Z)
         (s : Sys G) (sp : Sys Polling.G) (e : exn),
    is_OSError (exn_cls e) = true ->
    (forall w,
        tcp_bind port (world s) = (Raise e, w) ->
        exit_status (fst (Direct.main port name s)) = 1%Z
        /\ last (trace (snd (Direct.main port name s))) (Listening port)
           = Printed Stderr (bind_diagnostic port e))
    /\ (forall w,
           docker_found
             (fst (subprocess_run ["docker"; "--version"] (world s))) ->
           tcp_bind port
             (snd (subprocess_run ["docker"; "--version"] (world s)))
           = (Raise e, w) ->
           exit_status (fst (Docker.main port name s)) = 1%Z
           /\ last (trace (snd (Docker.main port name s))) (Listening port)
              = Printed Stderr (bind_diagnostic port e))
    /\ (forall w,
           tcp_bind port (time_sleep 1 (world sp)) = (Raise e, w) ->
           exit_status (fst (Polling.main port name interval sp)) = 1%Z
           /\ last (trace (snd (Polling.main port name interval sp)))
                (Listening port)
              = Printed Stderr (bind_diagnostic port e)).
Proof.
  intros H G port name interval s sp e He. split; [| split]; intros w.
  - apply direct_main_bind_fails. assumption.
  - apply docker_main_bind_fails. assumption.
  - apply polling_main_bind_fails. assumption.
Qed.

(** X14. When the listener is up and the server is stopped by
    [KeyboardInterrupt] (Ctrl+C), each of the three scripts returns from
    [main], so with exit status 0, and the last thing it does is to
    print the shutdown message to standard output. *)
Theorem interrupt_shuts_down_with_status_0 :
  forall (H : Host) (G : Type) (port : Z) (name : string) (interval : Z)
         (s : Sys G) (sp : Sys Polling.G) (msg : string),
    (forall w w',
        tcp_bind port (world s) = (Ok tt, w) ->
        serve_forever w = (Exn KeyboardInterrupt msg, w') ->
        exit_status (fst (Direct.main port name s)) = 0%Z
        /\ last (trace (snd (Direct.main port name s))) (Listening port)
           = Printed Stdout (String LF "Shutting down server..."))
    /\ (forall w w',
           docker_found
             (fst (subprocess_run ["docker"; "--version"] (world s))) ->
           tcp_bind port
             (snd (subprocess_run ["docker"; "--version"] (world s)))
           = (Ok tt, w) ->
           serve_forever w = (Exn KeyboardInterrupt msg, w') ->
           exit_status (fst (Docker.main port name s)) = 0%Z
           /\ last (trace (snd (Docker.main port name s))) (Listening port)
              = Printed Stdout (String LF "Shutting down server..."))
    /\ (forall w w',
           tcp_bind port (time_sleep 1 (world sp)) = (Ok tt, w) ->
           serve_forever w = (Exn KeyboardInterrupt msg, w') ->
           exit_status (fst (Polling.main port name interval sp)) = 0%Z
           /\ last (trace (snd (Polling.main port name interval sp)))
                (Listening port)
              = Printed Stdout (String LF "Shutting down server...")).
Proof.
  intros H G port name interval s sp msg. split; [| split]; intros w w'.
  - intros Hbind Hserve.
    destruct (direct_main_interrupted port name msg s w w' Hbind Hserve)
      as [-> Hlast]. auto.
  - intros Hfound Hbind Hserve.
    destruct (docker_main_interrupted port name msg s w w' Hfound Hbind
                Hserve) as [-> Hlast]. auto.
  - intros Hbind Hserve.
    destruct (polling_main_interrupted port name msg interval sp w w' Hbind
                Hserve) as [-> Hlast]. auto.
Qed.

(** Port 80 without privileges. *)
Lemma bind_failure_exits_1_with_diagnostic_witness :
  exit_status
    (fst (@Direct.main Hosts.scripted_host unit 80 "bedrock_server"
            (@MkSys Hosts.scripted_host unit
               (Hosts.Scripted [] 1700000000
                  (Raise (Exn PermissionError "[Errno 13] Permission denied"))
                  (Exn KeyboardInterrupt EmptyString))
               [] tt)))
  = 1%Z
  /\ last
       (trace
          (snd (@Direct.main Hosts.scripted_host unit 80 "bedrock_server"
                  (@MkSys Hosts.scripted_host unit
                     (Hosts.Scripted [] 1700000000
                        (Raise (Exn PermissionError
                                  "[Errno 13] Permission denied"))
                        (Exn KeyboardInterrupt EmptyString))
                     [] tt))))
       (Listening 80)
     = Printed Stderr "Error: Permission denied. Port 80 may require sudo.".
Proof.
  apply (proj1 (bind_failure_exits_1_with_diagnostic Hosts.scripted_host unit
                  80 "bedrock_server" 5
                  (@MkSys Hosts.scripted_host unit
                     (Hosts.Scripted [] 1700000000
                        (Raise (Exn PermissionError
                                  "[Errno 13] Permission denied"))
                        (Exn KeyboardInterrupt EmptyString))
                     [] tt)
                  (Hosts.boot [] Polling.minecraft_status)
                  (Exn PermissionError "[Errno 13] Permission denied")
                  eq_refl)
           (Hosts.Scripted [] 1700000000
              (Raise (Exn PermissionError "[Errno 13] Permission denied"))
              (Exn KeyboardInterrupt EmptyString))).
  reflexivity.
Defined.

(** Ctrl+C on the polling script. *)
Lemma interrupt_shuts_down_with_status_0_witness :
  exit_status
    (fst (@Polling.main Hosts.bare_host 8080 "bedrock_server" 5
            (Hosts.bare_boot Polling.minecraft_status)))
  = 0%Z.
Proof.
  apply (proj2 (proj2 (interrupt_shuts_down_with_status_0 Hosts.bare_host
                         unit 8080 "bedrock_server" 5 (Hosts.bare_boot tt)
                         (Hosts.bare_boot Polling.minecraft_status)
                         EmptyString))
           1700000001%Z 1700000001%Z eq_refl eq_refl).
Defined.

(** ** The turns of the checker *)

Section Turns.
Context `{Host}.
Variable name : string.
Variable interval : Z.

(** One turn: one [pgrep], whose report goes to ['is_running'], the time
    to ['last_check'], and then the sleep; the turn ends as the sleep
    does. *)
Lemma checker_cycle_effect (s : Sys Polling.G) :
  absorbed (fst (subprocess_run (pgrep_argv name) (world s))) ->
  fst (Polling.checker_cycle name interval s) = fst (sleep interval s)
  /\ globals (snd (Polling.checker_cycle name interval s))
     = Polling.Status
         (pgrep_reports_running
            (fst (subprocess_run (pgrep_argv name) (world s))))
         (PFloat
            (fst (time_time
                    (snd (subprocess_run (pgrep_argv name) (world s))))))
  /\ spawns (trace (snd (Polling.checker_cycle name interval s)))
     = (spawns (trace s) ++ [pgrep_argv name])%list.
Proof.
  unfold Polling.checker_cycle, Polling.check_minecraft_process,
    Polling.set_is_running, Polling.set_last_check, pgrep_argv.
  unfold bind, try_except, run, ret, eprint, get, put, now, sleep, raise.
  destruct (subprocess_run _ (world s)) as [[p | [cls msg]] w]; cbn.
  - intros _. destruct (time_time w) as [t w1]. cbn.
    destruct (_ || _)%bool; [cbn; repeat split; read_trace |].
    destruct (interval <? 0)%Z; cbn; repeat split; read_trace.
  - intros Hexn. rewrite Hexn. cbn. destruct (time_time w) as [t w1]. cbn.
    destruct (_ || _)%bool; [cbn; repeat split; read_trace |].
    destruct (interval <? 0)%Z; cbn; repeat split; read_trace.
Qed.






End Turns.

Lemma background_checker_loop `{Host} (name : string) (interval : Z)
    (n : nat) (s : Sys Polling.G) :
  Polling.background_checker name interval n s
  = Polling.checker_loop name interval n
      (MkSys (world s)
         (trace s
            ++ [Printed Stdout
                  ("Background checker started (interval: "
                     ++ str_int interval ++ "s)")%string])
         (globals s)).
Proof. reflexivity. Qed.



(** X16. With a check interval that [time.sleep] refuses the checker
    makes one turn and no more: it probes once, stores the report and
    the time, and is then ended by the exception of [time.sleep], so the
    dictionary keeps this first result for good. The exception is a
    [ValueError] for a negative interval down to -9223372036, and an
    [OverflowError] for an interval of 9223372037 seconds or more, or of
    -9223372037 or less. *)
Theorem refused_interval_ends_checker_after_first_turn :
  forall (H : Host) (name : string) (interval : Z) (n : nat)
         (s : Sys Polling.G),
    (interval < 0 \/ 9223372037 <= interval)%Z ->
    absorbed (fst (subprocess_run (pgrep_argv name) (world s))) ->
    fst (Polling.background_checker name interval (S n) s)
    = Raise (if ((-9223372037 <? interval) && (interval <? 0))%Z
             then Exn ValueError "sleep length must be non-negative"
             else Exn OverflowError
                    "timestamp too large to convert to C _PyTime_t")
    /\ globals (snd (Polling.background_checker name interval (S n) s))
       = Polling.Status
           (pgrep_reports_running
              (fst (subprocess_run (pgrep_argv name) (world s))))
           (PFloat
              (fst (time_time
                      (snd (subprocess_run (pgrep_argv name) (world s))))))
    /\ spawns (trace (snd (Polling.background_checker name interval (S n) s)))
       = (spawns (trace s) ++ [pgrep_argv name])%list.
Proof.
  intros H name interval n s Hrefused Habs.
  rewrite background_checker_loop. cbn [Polling.checker_loop]. unfold bind.
  match goal with
  | |- context [Polling.checker_cycle _ _ ?s1] =>
      destruct (checker_cycle_effect name interval s1 Habs) as [Hr [Hg Hsp]];
      rewrite (sleep_refuses interval s1 Hrefused) in Hr;
      destruct (Polling.checker_cycle name interval s1) as [r s2]
  end.
  cbn in Hr, Hg, Hsp. subst r.
  cbn. repeat split; try assumption.
  rewrite Hsp. read_trace.
Qed.

(** An interval of -1, and one of 9223372037 seconds, on a machine
    without [pgrep]. *)
Lemma refused_interval_ends_checker_after_first_turn_witness :
  (fst (@Polling.background_checker Hosts.bare_host "bedrock_server" (-1) 3
          (Hosts.bare_boot Polling.minecraft_status))
   = Raise (Exn ValueError "sleep length must be non-negative")
   /\ globals
        (snd (@Polling.background_checker Hosts.bare_host "bedrock_server"
                (-1) 3 (Hosts.bare_boot Polling.minecraft_status)))
      = Polling.Status false (PFloat 1700000000%Z))
  /\ fst (@Polling.background_checker Hosts.bare_host "bedrock_server"
            9223372037 3 (Hosts.bare_boot Polling.minecraft_status))
     = Raise (Exn OverflowError
                "timestamp too large to convert to C _PyTime_t").
Proof.
  split.
  - destruct (refused_interval_ends_checker_after_first_turn Hosts.bare_host
                "bedrock_server" (-1) 2
                (Hosts.bare_boot Polling.minecraft_status))
      as [Hr [Hg _]].
    + lia.
    + reflexivity.
    + split; [exact Hr | exact Hg].
  - apply (refused_interval_ends_checker_after_first_turn Hosts.bare_host
             "bedrock_server" 9223372037 2
             (Hosts.bare_boot Polling.minecraft_status)).
    + lia.
    + reflexivity.
Defined.



(** ** The commands behind the Docker debug document *)

Section DockerCommands.
Context `{Host} {G : Type}.
Variable name : string.

Lemma all_containers_spawns (d : list (string * pyval pyfloat)) (s : Sys G) :
  spawns (trace (snd (Docker.all_containers d s)))
  = (spawns (trace s) ++ [docker_ps_all_argv])%list.
Proof.
  unfold Docker.all_containers, try_except, bind, run, ret,
    docker_ps_all_argv.
  destruct (subprocess_run _ (world s)) as [[r | e] w]; cbn.
  - destruct (returncode r =? 0)%Z; cbn; read_trace.
  - destruct (is_Exception (exn_cls e)); cbn; read_trace.
Qed.

Lemma target_container_spawns (d : list (string * pyval pyfloat))
    (s : Sys G) :
  spawns (trace (snd (Docker.target_container name d s)))
  = (spawns (trace s) ++ [["docker"; "inspect"; name]])%list.
Proof.
  unfold Docker.target_container, try_except, bind, run, ret, lift.
  destruct (subprocess_run _ (world s)) as [[r | e] w]; cbn.
  - destruct (returncode r =? 0)%Z; [| cbn; read_trace].
    destruct (json_loads (stdout r)) as [info | e]; cbn.
    + destruct (truthy float_bool info); [| cbn; read_trace].
      destruct (getitem0 info) as [first | e]; cbn.
      * destruct (method_get first "State" (PDict [])) as [st | e]; cbn.
        -- destruct (method_get first "Name" (PStr EmptyString))
             as [nm | e]; cbn; [read_trace |].
           destruct (is_Exception (exn_cls e)); cbn; read_trace.
        -- destruct (is_Exception (exn_cls e)); cbn; read_trace.
      * destruct (is_Exception (exn_cls e)); cbn; read_trace.
    + destruct (is_Exception (exn_cls e)); cbn; read_trace.
  - destruct (is_Exception (exn_cls e)); cbn; read_trace.
Qed.
End DockerCommands.

(** X18. A request for [/debug] to the Docker script runs its three
    commands, one after the other and each one once: [docker ps]
    filtered by the name, [docker ps -a], and [docker inspect] of the
    name. A command that fails or times out does not keep the next ones
    from being started. *)
Theorem docker_debug_runs_three_commands :
  forall (H : Host) (G : Type) (name : string) (addr : string * Z)
         (line : string) (s : Sys G),
    child_errors_only H ->
    spawns (trace (snd (Docker.do_GET name (Request addr line "/debug") s)))
    = (spawns (trace s)
         ++ [docker_ps_argv name; docker_ps_all_argv;
             ["docker"; "inspect"; name]])%list.
Proof.
  intros H G name addr line s Herr.
  assert (Hdata :
            spawns (trace (snd (Docker.debug_data name s)))
            = (spawns (trace s)
                 ++ [docker_ps_argv name; docker_ps_all_argv;
                     ["docker"; "inspect"; name]])%list).
  { unfold Docker.debug_data, bind, ret.
    destruct (docker_probe_effects name s) as [Hsp0 _].
    destruct (docker_probe_returns name s Herr) as [b [s0 Hb]].
    rewrite Hb in Hsp0 |- *. cbn [snd] in Hsp0.
    pose proof (all_containers_spawns [] s0) as Hsp1.
    destruct (all_containers_returns [] s0 Herr) as [d1 [s1 H1]].
    rewrite H1 in Hsp1 |- *. cbn [snd] in Hsp1.
    pose proof (target_container_spawns name d1 s1) as Hsp2.
    destruct (Docker.target_container name d1 s1) as [[d2 | e] s2];
      cbn [snd] in Hsp2 |- *;
      rewrite Hsp2, Hsp1, Hsp0, <- !app_assoc; reflexivity. }
  destruct (Docker.debug_data name s) as [[doc | e] s'] eqn:Hdoc;
    cbn [snd] in Hdata.
  - rewrite (docker_do_GET_debug name addr line s s' doc Hdoc). cbn [snd].
    rewrite (proj1 (answered_effects _ _ s')). exact Hdata.
  - unfold Docker.do_GET. cbn [path String.eqb Ascii.eqb Bool.eqb].
    unfold Docker.get_debug_info, bind at 1 2. rewrite Hdoc. exact Hdata.
Qed.

(** On a machine without [docker] all three commands are tried. *)
Lemma docker_debug_runs_three_commands_witness :
  spawns
    (trace
       (snd (@Docker.do_GET Hosts.bare_host unit "paper" Hosts.debug_request
               (Hosts.bare_boot tt))))
  = [docker_ps_argv "paper"; docker_ps_all_argv;
     ["docker"; "inspect"; "paper"]].
Proof.
  apply (docker_debug_runs_three_commands Hosts.bare_host unit "paper"
           ("127.0.0.1", 50001%Z) "GET /debug HTTP/1.1"
           (Hosts.bare_boot tt)).
  intros argv w. reflexivity.
Defined.

(** ** Lines that are no rows *)

Lemma split_length (sep : ascii) (s : string) :
  length (split sep s) = S (count_char sep s).
Proof.
  induction s as [| c r IH]; cbn; [reflexivity |].
  destruct (Ascii.eqb c sep); cbn.
  - rewrite IH. reflexivity.
  - destruct (split sep r) as [| piece pieces]; cbn in *; congruence.
Qed.

(** X19. A line of the output of [docker ps -a] gives an entry of
    ['all_containers'] exactly when it holds two tabulators or more;
    any other line, the empty line included, is passed over without an
    error, and no line gives more than one entry. So the list never has
    more entries than the output has lines. *)
Theorem container_of_line_needs_three_fields :
  forall (H : Host) (line out : string),
    (Docker.container_of_line line <> [] <-> 2 <= count_char TAB line)
    /\ length (Docker.container_of_line line) <= 1
    /\ length (flat_map Docker.container_of_line (split LF (strip out)))
       <= length (split LF (strip out)).
Proof.
  intros H line out.
  assert (Hone : forall l, length (Docker.container_of_line l) <= 1).
  { intros l. unfold Docker.container_of_line.
    destruct (String.eqb l EmptyString); [cbn; lia |].
    destruct (3 <=? length (split TAB l))%nat; cbn; lia. }
  split; [| split].
  - unfold Docker.container_of_line.
    destruct (String.eqb_spec line EmptyString) as [-> | Hne].
    + cbn. split; [intros Hnil; elim Hnil; reflexivity | lia].
    + rewrite split_length.
      destruct (Nat.leb_spec 3 (S (count_char TAB line))).
      * split; [lia | discriminate].
      * split; [intros Hnil; elim Hnil; reflexivity | lia].
  - apply Hone.
  - induction (split LF (strip out)) as [| l ls IH]; cbn; [lia |].
    rewrite length_app. specialize (Hone l). lia.
Qed.

(** ** [/debug] and [/health] agree *)

(** X20. The ['is_running'] of a debug document is the determination
    [/health] makes from the same state of the machine: where the
    document says [true], a request for [/health] in place of the one
    for [/debug] is answered 200, and where it says [false], 503. This
    holds for both scripts that have [/debug]. *)
Theorem debug_is_running_agrees_with_health :
  forall (H : Host) (G : Type) (name : string) (addr : string * Z)
         (line : string) (s s' : Sys G) (doc : pyval pyfloat),
    (Direct.debug_data name s = (Ok doc, s') ->
     exists b results,
       doc = PDict [("process_name", PStr name); ("is_running", PBool b);
                    ("search_results", results)]
       /\ fst (Direct.do_GET name (Request addr line "/health") s)
          = Ok (health_reply
                  (snd (subprocess_run (pgrep_argv name) (world s))) b))
    /\ (Docker.debug_data name s = (Ok doc, s') ->
        exists b info,
          doc = PDict [("container_name", PStr name); ("is_running", PBool b);
                       ("docker_info", info)]
          /\ fst (Docker.do_GET name (Request addr line "/health") s)
             = Ok (health_reply
                     (snd (subprocess_run (docker_ps_argv name) (world s)))
                     b)).
Proof.
  intros H G name addr line s s' doc. split; intros Hdoc.
  - destruct (direct_debug_loop name s s' doc Hdoc)
      as (b & s0 & sr & Hb & _ & ->).
    exists b, (PDict sr). split; [reflexivity |].
    rewrite (direct_do_GET_health name addr line s s0 b Hb).
    rewrite <- (direct_probe_world name s), Hb. reflexivity.
  - destruct (docker_debug_shape name s s' doc Hdoc)
      as (b & s0 & d1 & s1 & d2 & Hb & _ & _ & ->).
    exists b, (PDict d2). split; [reflexivity |].
    rewrite (docker_do_GET_health name addr line s s0 b Hb).
    rewrite <- (docker_probe_world name s), Hb. reflexivity.
Qed.

(** The process is found: the document says [true], [/health] 200. *)
Lemma debug_is_running_agrees_with_health_witness :
  fst (@Direct.do_GET Hosts.scripted_host unit "java" Hosts.health_request
         (Hosts.boot Hosts.debug_outcomes tt))
  = Ok (Response 200
          [("Server", "BaseHTTP/0.6 Python/3.11.2");
           ("Date", "Tue, 14 Nov 2023 22:13:20 GMT");
           ("Content-Type", "application/json")]
          body_running).
Proof.
  destruct (proj1 (debug_is_running_agrees_with_health Hosts.scripted_host
                     unit "java" ("127.0.0.1", 50000%Z)
                     "GET /health HTTP/1.1"
                     (Hosts.boot Hosts.debug_outcomes tt)
                     (snd (@Direct.debug_data Hosts.scripted_host unit "java"
                             (Hosts.boot Hosts.debug_outcomes tt)))
                     _)
              eq_refl)
    as (b & results & Hdoc & Hhealth).
  injection Hdoc as <- _. exact Hhealth.
Defined.
